(** * The firewall monitor of wsock-trace ([src/firewall.c])

    A shallow embedding of the event subscription, the two name caches,
    the event decoder with its visibility filter and the rule enumerator,
    and of the callbacks of the five API levels, the dump of stored events
    and the functions that start and stop the engine session.

    File-scope variables of [firewall.c] are the fields of [fw_state]; a C
    function that reads or writes them takes a state and returns the new one.
    What the Windows SDK, the filtering engine and the other files of the
    program provide is collected in the class [Environment]: every result
    below holds for all of its instances. Each answer of the engine and of
    the account database may depend on all the calls made before it, which
    the state records in [calls]. The two char arrays of a [struct
    SID_entry] are kept byte for byte, and [se->domain] and [se->account]
    are read from them as C strings, over the end of [domain] where it
    holds no NUL. The session functions work on
    [fw_engine_state], which adds the policy and the engine handle and a
    record of the session calls to [fw_state], with what they use of the SDK
    and of the engine in the class [EngineEnvironment].

    The text that is written is kept as a list of items, one for each
    [fw_buf_add()], with the values that are formatted: the formats, the
    indentation, the size of [fw_buf] and the [TRACE()] diagnostics are left
    out. *)

From Stdlib Require Import ZArith List String Ascii Bool Lia.
Import ListNotations.
Local Open Scope string_scope.
Local Open Scope list_scope.
Local Open Scope Z_scope.

(** ** Machine integers *)

(** [x++] on a [DWORD]. *)
Definition DWORD_inc (x : Z) : Z := (x + 1) mod 2 ^ 32.

(** The cast [(int)x] of a [ULONG]. *)
Definition int_of_ULONG (x : Z) : Z := if x <? 2 ^ 31 then x else x - 2 ^ 32.

(** [swap32()], to which [_byteswap_ulong()] expands. *)
Definition _byteswap_ulong (x : Z) : Z :=
  Z.lor (Z.lor (Z.shiftl (Z.land x 255) 24) (Z.shiftl (Z.land x 65280) 8))
        (Z.lor (Z.land (Z.shiftr x 8) 65280) (Z.land (Z.shiftr x 24) 255)).

(** [swap16()], to which [_byteswap_ushort()] expands. *)
Definition _byteswap_ushort (x : Z) : Z :=
  Z.lor (Z.shiftl (Z.land x 255) 8) (Z.land (Z.shiftr x 8) 255).

(** ** Constants defined in [firewall.c] *)

Definition FW_API_LOW : Z := 0.
Definition FW_API_HIGH : Z := 4.
Definition FW_API_DEFAULT : Z := 3.

Definition FWP_DIRECTION_IN : Z := 0x3900.
Definition FWP_DIRECTION_OUT : Z := 0x3901.
Definition FWP_DIRECTION_FORWARD : Z := 0x3902.
Definition FWP_DIRECTION_FORWARD2 : Z := 0x3903.

Definition _FWPM_NET_EVENT_TYPE_IKEEXT_MM_FAILURE : Z := 0.
Definition _FWPM_NET_EVENT_TYPE_IKEEXT_QM_FAILURE : Z := 1.
Definition _FWPM_NET_EVENT_TYPE_IKEEXT_EM_FAILURE : Z := 2.
Definition _FWPM_NET_EVENT_TYPE_CLASSIFY_DROP : Z := 3.
Definition _FWPM_NET_EVENT_TYPE_IPSEC_KERNEL_DROP : Z := 4.
Definition _FWPM_NET_EVENT_TYPE_IPSEC_DOSP_DROP : Z := 5.
Definition _FWPM_NET_EVENT_TYPE_CLASSIFY_ALLOW : Z := 6.
Definition _FWPM_NET_EVENT_TYPE_CAPABILITY_DROP : Z := 7.
Definition _FWPM_NET_EVENT_TYPE_CAPABILITY_ALLOW : Z := 8.
Definition _FWPM_NET_EVENT_TYPE_CLASSIFY_DROP_MAC : Z := 9.
Definition _FWPM_NET_EVENT_TYPE_LPM_PACKET_ARRIVAL : Z := 10.
Definition _FWPM_NET_EVENT_TYPE_MAX : Z := 11.

Definition FWPM_NET_EVENT_FLAG_IP_PROTOCOL_SET : Z := 0x0001.
Definition FWPM_NET_EVENT_FLAG_LOCAL_ADDR_SET : Z := 0x0002.
Definition FWPM_NET_EVENT_FLAG_REMOTE_ADDR_SET : Z := 0x0004.
Definition FWPM_NET_EVENT_FLAG_LOCAL_PORT_SET : Z := 0x0008.
Definition FWPM_NET_EVENT_FLAG_REMOTE_PORT_SET : Z := 0x0010.
Definition FWPM_NET_EVENT_FLAG_APP_ID_SET : Z := 0x0020.
Definition FWPM_NET_EVENT_FLAG_USER_ID_SET : Z := 0x0040.
Definition FWPM_NET_EVENT_FLAG_SCOPE_ID_SET : Z := 0x0080.
Definition FWPM_NET_EVENT_FLAG_IP_VERSION_SET : Z := 0x0100.
Definition FWPM_NET_EVENT_FLAG_REAUTH_REASON_SET : Z := 0x0200.
Definition FWPM_NET_EVENT_FLAG_PACKAGE_ID_SET : Z := 0x0400.
Definition FWPM_NET_EVENT_FLAG_ENTERPRISE_ID_SET : Z := 0x0800.
Definition FWPM_NET_EVENT_FLAG_POLICY_FLAGS_SET : Z := 0x1000.
Definition FWPM_NET_EVENT_FLAG_EFFECTIVE_NAME_SET : Z := 0x2000.

Definition MAX_DOMAIN_SZ : Z := 20.
Definition MAX_ACCOUNT_SZ : Z := 30.

Definition NULL_SID : string := "S-1-0-0".
Definition VOLUME : string := "\Device\HarddiskVolume".

Definition FW_DIR_INVALID : Z := 0.
Definition FW_DIR_IN : Z := 1.
Definition FW_DIR_OUT : Z := 2.
Definition FW_DIR_BOTH : Z := 3.

Definition FW_PROFILE_TYPE_ALL : Z := 0x7FFFFFFF.
Definition FW_PROFILE_TYPE_CURRENT : Z := 0x80000000.

Definition FW_ENUM_RULES_FLAG_RESOLVE_NAME : Z := 0x0001.
Definition FW_ENUM_RULES_FLAG_RESOLVE_DESCRIPTION : Z := 0x0002.
Definition FW_ENUM_RULES_FLAG_RESOLVE_APPLICATION : Z := 0x0004.
Definition FW_ENUM_RULES_FLAG_RESOLVE_KEYWORD : Z := 0x0008.

(** The base values of [enum FW_RULE_STATUS]; the other members add a
    sub-code in the lower 16 bits. *)
Definition FW_RULE_STATUS_OK : Z := 0x00010000.
Definition FW_RULE_STATUS_PARTIALLY_IGNORED : Z := 0x00020000.
Definition FW_RULE_STATUS_IGNORED : Z := 0x00040000.
Definition FW_RULE_STATUS_PARSING_ERROR : Z := 0x00080000.
Definition FW_RULE_STATUS_SEMANTIC_ERROR : Z := 0x00100000.
Definition FW_RULE_STATUS_RUNTIME_ERROR : Z := 0x00200000.
Definition FW_RULE_STATUS_ERROR : Z :=
  Z.lor (Z.lor FW_RULE_STATUS_PARSING_ERROR FW_RULE_STATUS_SEMANTIC_ERROR)
        FW_RULE_STATUS_RUNTIME_ERROR.
Definition FW_RULE_STATUS_ALL : Z := 0xFFFF0000.

(** The values of the members of [enum FW_RULE_STATUS] that are named
    [FW_RULE_STATUS_SEMANTIC_...], in the order of the declaration. *)
Definition FW_RULE_STATUS_SEMANTIC_members : list Z :=
  [0x00100010; 0x00100020; 0x00100021; 0x00100022; 0x00100040; 0x00100041;
   0x00100042; 0x00100043; 0x00100044; 0x00100045; 0x00100046; 0x00100047;
   0x00100048; 0x00100049; 0x0010004A; 0x0010004B; 0x0010004C; 0x0010004D;
   0x0010004E; 0x0010004F; 0x00100050; 0x00100060; 0x00100061; 0x00100070;
   0x00100071; 0x00100080; 0x00100081; 0x00100082; 0x00100083; 0x00100090;
   0x001000A0; 0x001000A1; 0x001000A2; 0x001000A3; 0x001000A4; 0x001000B0;
   0x001000B1; 0x001000B2; 0x001000B3; 0x001000B4; 0x001000B5; 0x001000B6;
   0x001000B7; 0x001000B8; 0x001000B9; 0x001000BA; 0x001000BB; 0x001000BC;
   0x001000BD; 0x001000BE; 0x001000BF; 0x001000C0; 0x001000C1; 0x001000E0;
   0x001000E1; 0x001000E2; 0x001000F0; 0x001000F1; 0x001000F2; 0x00100500;
   0x00100510; 0x00100511; 0x00101000; 0x00101010; 0x00101020; 0x00101030;
   0x00101031; 0x00101032; 0x00101033; 0x00101034; 0x00101040; 0x00101041;
   0x00101042; 0x00101043; 0x00101050; 0x00101060; 0x00101061; 0x00101062;
   0x00101063; 0x00101070; 0x00105000; 0x00105001; 0x00105002; 0x00105003;
   0x00105004; 0x00105005; 0x00105006; 0x00105007; 0x00105008; 0x00105020;
   0x00105021; 0x00105022; 0x00105023; 0x00105024; 0x00105025; 0x00105026;
   0x00105027; 0x00106000; 0x00106001; 0x00106002; 0x00106003; 0x00106004;
   0x00106005; 0x00106006; 0x00106007; 0x00106008; 0x00106009; 0x00106010;
   0x00106011; 0x00106012; 0x00106013; 0x00106015; 0x00107000; 0x00107001;
   0x00107002; 0x00107003; 0x00105040; 0x00105041; 0x00105050; 0x00100000].

(** [enum FW_RULE_STATUS_CLASS]. *)
Definition FW_RULE_STATUS_CLASS_OK : Z := FW_RULE_STATUS_OK.
Definition FW_RULE_STATUS_CLASS_PARTIALLY_IGNORED : Z := FW_RULE_STATUS_PARTIALLY_IGNORED.
Definition FW_RULE_STATUS_CLASS_IGNORED : Z := FW_RULE_STATUS_IGNORED.
Definition FW_RULE_STATUS_CLASS_PARSING_ERROR : Z := FW_RULE_STATUS_PARSING_ERROR.
Definition FW_RULE_STATUS_CLASS_SEMANTIC_ERROR : Z := FW_RULE_STATUS_SEMANTIC_ERROR.
Definition FW_RULE_STATUS_CLASS_RUNTIME_ERROR : Z := FW_RULE_STATUS_RUNTIME_ERROR.
Definition FW_RULE_STATUS_CLASS_ERROR : Z := FW_RULE_STATUS_ERROR.
Definition FW_RULE_STATUS_CLASS_ALL : Z := FW_RULE_STATUS_ALL.

(** ** Data *)

(** A wide string, one number per [wchar_t]. *)
Definition wstring : Type := list Z.

(** A security identifier, by its bytes: two [SID]s are the same principal
    when their bytes agree, wherever they are stored. *)
Definition SID : Type := list Z.

Definition EqualSid (a b : SID) : bool :=
  if list_eq_dec Z.eq_dec a b then true else false.

(** [struct SID_entry]; [sid_str] is [None] for a [NULL] pointer. [domain]
    and [account] are the two char arrays, byte for byte, NUL bytes included;
    a string that is shorter than its array stands for an array that is clear
    behind it, as [calloc()] leaves it. In the structure [account] begins where
    [domain] ends. *)
Record SID_entry : Type := mk_SID_entry {
  sid_copy : SID;
  sid_str : option string;
  domain : string;
  account : string
}.

(** [struct filter_entry]. *)
Record filter_entry : Type := mk_filter_entry {
  value : Z;
  name : string
}.

(** [FWP_BYTE_BLOB], its bytes read as the wide string they hold. *)
Record FWP_BYTE_BLOB : Type := mk_blob {
  size : Z;
  data : option wstring
}.

(** [_FWPM_NET_EVENT_HEADER3]. The two address unions are kept as both of
    their members. *)
Record _FWPM_NET_EVENT_HEADER3 : Type := mk_header {
  timeStamp : Z;
  flags : Z;
  ipVersion : Z;
  ipProtocol : Z;
  localAddrV4 : Z;
  localAddrV6 : list Z;
  remoteAddrV4 : Z;
  remoteAddrV6 : list Z;
  localPort : Z;
  remotePort : Z;
  scopeId : Z;
  appId : FWP_BYTE_BLOB;
  userId : option SID;
  packageSid : option SID;
  effectiveName : FWP_BYTE_BLOB
}.

(** The fields of [_FWPM_NET_EVENT_CLASSIFY_DROP2] and of
    [_FWPM_NET_EVENT_CLASSIFY_ALLOW0] that the decoder reads; they have the
    same names and types in both. *)
Record _FWPM_NET_EVENT_CLASSIFY : Type := mk_classify {
  filterId : Z;
  layerId : Z;
  reauthReason : Z;
  msFwpDirection : Z
}.

(** The fields of [_FWPM_NET_EVENT_CAPABILITY_DROP0] and of
    [_FWPM_NET_EVENT_CAPABILITY_ALLOW0], likewise. *)
Record _FWPM_NET_EVENT_CAPABILITY : Type := mk_capability {
  networkCapabilityId : Z;
  cap_filterId : Z;
  isLoopback : Z
}.

(** The fields of [FW_RULE] that [fw_dump_rule()] reads, and [Status]. *)
Record FW_RULE : Type := mk_FW_RULE {
  wszName : option wstring;
  wszDescription : option wstring;
  Direction : Z;
  wszLocalApplication : option wstring;
  wszEmbeddedContext : option wstring;
  Status : Z
}.

(** [g_cfg.firewall]. *)
Record firewall_config : Type := mk_firewall_config {
  show_ipv4 : bool;
  show_ipv6 : bool;
  show_all : bool;
  show_user : bool
}.

(** The second argument of [exclude_list_get()]. *)
Inductive exclude_type : Type := EXCL_PROGRAM | EXCL_ADDRESS.

(** Calls that leave the process: to the filtering engine, to the policy
    store and to the account database. The state keeps them in the order
    they were made. *)
Inductive ext_call : Type :=
| Call_FwpmNetEventSubscribe (N : Z)
| Call_FwpmFilterGetById0 (filter : Z)
| Call_FwpmLayerGetById0 (id : Z)
| Call_ConvertSidToStringSid (sid : SID)
| Call_LookupAccountSid (sid : SID) (with_buffers : bool)
| Call_FWEnumFirewallRules (filtered_by_status profile_filter rule_flags : Z).

(** What one [LookupAccountSid()] call leaves behind: its return value, the
    two sizes, the SID type and [GetLastError()], and in [las_names] the bytes
    of the two buffers, which are the arrays [domain] and [account] of one
    [struct SID_entry]: the [MAX_DOMAIN_SZ] bytes of [domain] first and the
    [MAX_ACCOUNT_SZ] bytes of [account] behind them, as they lie in memory. A
    call that is given a domain size above [MAX_DOMAIN_SZ] may write into
    [account] through the pointer to [domain]. *)
Record LookupAccountSid_result : Type := mk_LookupAccountSid_result {
  las_rc : bool;
  las_names : string;
  las_account_sz : Z;
  las_domain_sz : Z;
  las_sid_use : Z;
  las_last_error : Z
}.

(** The text that [get_ports()] makes for a port: a dash when the header
    has none, else the number, with the name of the service if there is
    one. *)
Inductive port_text : Type :=
| Port_unset
| Port_number (port : Z) (service : option string).

(** What is appended to [fw_buf]: one item per [fw_buf_add()] of the
    decoder, holding the values that are formatted and not the text. *)
Inductive buf_item : Type :=
| Buf_event (time_stamp event_type : Z)
| Buf_direction (msFwpDirection : Z)
| Buf_protocol (ipProtocol : Z)
| Buf_newline
| Buf_layer (id : Z) (layer_name : wstring)
| Buf_layer2 (fe : option filter_entry) (capability_id is_loopback : Z)
| Buf_filter (fe : filter_entry)
| Buf_addr (from_addr to_addr : string) (scope : option Z)
    (ports : option (port_text * port_text))
| Buf_country (country : string) (location : option string)
| Buf_app (a_name : string)
| Buf_user (domain_name account_name : string)
| Buf_package (sid_string : string)
| Buf_eff_name (w_name : wstring)
| Buf_reauth (reason : Z)
| Buf_rule (num : Z) (dir : string) (description : string)
| Buf_rule_name (ascii : string)
| Buf_rule_prog (prog : wstring)
| Buf_rule_context (context : wstring).

(** The file-scope variables, with the variable [cleaned_up] of
    [wsock_trace.c] that [get_port()] reads, what [trace_puts()] has
    received so far, and the calls made so far. *)
Record fw_state : Type := mk_fw_state {
  g_cfg : firewall_config;
  fw_api : Z;
  fw_errno : Z;
  fw_event_handle : option Z;
  fw_num_rules : Z;
  fw_num_events : Z;
  fw_num_ignored : Z;
  fw_have_ip2loc4 : bool;
  fw_have_ip2loc6 : bool;
  fw_module : string;
  fw_logged_on_user : string;
  fw_SID_list : list SID_entry;
  fw_filter_list : list filter_entry;
  fw_buf : list buf_item;
  trace_out : list (list buf_item);
  cleaned_up : bool;
  calls : list ext_call
}.

(** ** The environment *)

Class Environment : Type := {
  (** <winerror.h> *)
  ERROR_SUCCESS : Z;
  ERROR_INVALID_DATA : Z;
  ERROR_BAD_COMMAND : Z;
  ERROR_NONE_MAPPED : Z;
  (** <winnt.h> *)
  SidTypeUnknown : Z;
  (** <fwptypes.h> *)
  FWP_DIRECTION_OUTBOUND : Z;
  FWP_DIRECTION_INBOUND : Z;
  FWP_IP_VERSION_V4 : Z;
  FWP_IP_VERSION_V6 : Z;
  (** <winsock2.h> *)
  IPPROTO_TCP : Z;
  IPPROTO_UDP : Z;
  (** <stdlib.h> *)
  _MAX_PATH : Z;
  (** Helpers of the program that live in other files. [_strlcpy] gives
      the destination after the copy; its source may be [NULL]. *)
  exclude_list_get : string -> exclude_type -> bool;
  basename : string -> string;
  _strlcpy : option string -> Z -> string;
  (** The geo-location database: [None] for a [NULL] result. *)
  geoip_get_country_by_ipv4 : Z -> option string;
  geoip_get_country_by_ipv6 : list Z -> option string;
  geoip_get_long_name_by_A2 : string -> string;
  geoip_get_location_by_ipv4 : Z -> option string;
  geoip_get_location_by_ipv6 : list Z -> option string;
  (** [getservbyport()]: [None] for [NULL], else [s_name], which may be
      [NULL] too. *)
  getservbyport : Z -> string -> option (option string);
  (** [WideCharToMultiByte (fw_acp, 0, w, cch, buf, cb, NULL, NULL)]: the
      return value and the buffer after the call. *)
  WideCharToMultiByte : option wstring -> Z -> Z -> Z * string;
  (** [inet_ntop()] for [AF_INET] and for [AF_INET6]. *)
  inet_ntop4 : Z -> string;
  inet_ntop6 : list Z -> string;
  (** The entry points [p_FwpmNetEventSubscribe0] .. [4]: [None] for a
      [NULL] pointer, else what a call gives after the calls made so far:
      the error code and what [fw_event_handle] holds afterwards. *)
  p_FwpmNetEventSubscribe :
    Z -> option (list ext_call -> option Z -> Z * option Z);
  (** The engine's answers, after the calls made so far: the error code and
      [displayData.name] of the item. *)
  p_FwpmFilterGetById0 : list ext_call -> Z -> Z * wstring;
  p_FwpmLayerGetById0 : list ext_call -> Z -> Z * wstring;
  (** The account database, after the calls made so far.
      [ConvertSidToStringSid] gives what [se->sid_str] holds afterwards;
      [LookupAccountSid] takes the bytes of the two buffers, [domain] first
      and [account] behind it ([None] when both pointers are [NULL]), the
      size of the account buffer and the size of the domain buffer. *)
  ConvertSidToStringSid : list ext_call -> SID -> option string;
  LookupAccountSid :
    list ext_call -> SID -> option string -> Z -> Z -> LookupAccountSid_result;
  (** The policy store: the error code, [rule_count] and the rules, in the
      order of their [pNext] links. *)
  p_FWEnumFirewallRules : list ext_call -> Z -> Z -> Z -> Z * Z * list FW_RULE
}.

(** ** State updates *)

Definition set_fw_errno (v : Z) (st : fw_state) : fw_state :=
  mk_fw_state (g_cfg st) (fw_api st) v (fw_event_handle st) (fw_num_rules st)
    (fw_num_events st) (fw_num_ignored st) (fw_have_ip2loc4 st) (fw_have_ip2loc6 st)
    (fw_module st) (fw_logged_on_user st) (fw_SID_list st) (fw_filter_list st)
    (fw_buf st) (trace_out st) (cleaned_up st) (calls st).

Definition set_fw_event_handle (v : option Z) (st : fw_state) : fw_state :=
  mk_fw_state (g_cfg st) (fw_api st) (fw_errno st) v (fw_num_rules st)
    (fw_num_events st) (fw_num_ignored st) (fw_have_ip2loc4 st) (fw_have_ip2loc6 st)
    (fw_module st) (fw_logged_on_user st) (fw_SID_list st) (fw_filter_list st)
    (fw_buf st) (trace_out st) (cleaned_up st) (calls st).

Definition set_fw_num_rules (v : Z) (st : fw_state) : fw_state :=
  mk_fw_state (g_cfg st) (fw_api st) (fw_errno st) (fw_event_handle st) v
    (fw_num_events st) (fw_num_ignored st) (fw_have_ip2loc4 st) (fw_have_ip2loc6 st)
    (fw_module st) (fw_logged_on_user st) (fw_SID_list st) (fw_filter_list st)
    (fw_buf st) (trace_out st) (cleaned_up st) (calls st).

Definition set_fw_num_events (v : Z) (st : fw_state) : fw_state :=
  mk_fw_state (g_cfg st) (fw_api st) (fw_errno st) (fw_event_handle st)
    (fw_num_rules st) v (fw_num_ignored st) (fw_have_ip2loc4 st)
    (fw_have_ip2loc6 st) (fw_module st) (fw_logged_on_user st) (fw_SID_list st)
    (fw_filter_list st) (fw_buf st) (trace_out st) (cleaned_up st) (calls st).

Definition set_fw_num_ignored (v : Z) (st : fw_state) : fw_state :=
  mk_fw_state (g_cfg st) (fw_api st) (fw_errno st) (fw_event_handle st)
    (fw_num_rules st) (fw_num_events st) v (fw_have_ip2loc4 st) (fw_have_ip2loc6 st)
    (fw_module st) (fw_logged_on_user st) (fw_SID_list st) (fw_filter_list st)
    (fw_buf st) (trace_out st) (cleaned_up st) (calls st).

Definition set_fw_SID_list (v : list SID_entry) (st : fw_state) : fw_state :=
  mk_fw_state (g_cfg st) (fw_api st) (fw_errno st) (fw_event_handle st)
    (fw_num_rules st) (fw_num_events st) (fw_num_ignored st) (fw_have_ip2loc4 st)
    (fw_have_ip2loc6 st) (fw_module st) (fw_logged_on_user st) v (fw_filter_list st)
    (fw_buf st) (trace_out st) (cleaned_up st) (calls st).

Definition set_fw_filter_list (v : list filter_entry) (st : fw_state) : fw_state :=
  mk_fw_state (g_cfg st) (fw_api st) (fw_errno st) (fw_event_handle st)
    (fw_num_rules st) (fw_num_events st) (fw_num_ignored st) (fw_have_ip2loc4 st)
    (fw_have_ip2loc6 st) (fw_module st) (fw_logged_on_user st) (fw_SID_list st) v
    (fw_buf st) (trace_out st) (cleaned_up st) (calls st).

Definition set_fw_buf (v : list buf_item) (st : fw_state) : fw_state :=
  mk_fw_state (g_cfg st) (fw_api st) (fw_errno st) (fw_event_handle st)
    (fw_num_rules st) (fw_num_events st) (fw_num_ignored st) (fw_have_ip2loc4 st)
    (fw_have_ip2loc6 st) (fw_module st) (fw_logged_on_user st) (fw_SID_list st)
    (fw_filter_list st) v (trace_out st) (cleaned_up st) (calls st).

Definition set_trace_out (v : list (list buf_item)) (st : fw_state) : fw_state :=
  mk_fw_state (g_cfg st) (fw_api st) (fw_errno st) (fw_event_handle st)
    (fw_num_rules st) (fw_num_events st) (fw_num_ignored st) (fw_have_ip2loc4 st)
    (fw_have_ip2loc6 st) (fw_module st) (fw_logged_on_user st) (fw_SID_list st)
    (fw_filter_list st) (fw_buf st) v (cleaned_up st) (calls st).

(** Record one more call. *)
Definition log_call (c : ext_call) (st : fw_state) : fw_state :=
  mk_fw_state (g_cfg st) (fw_api st) (fw_errno st) (fw_event_handle st)
    (fw_num_rules st) (fw_num_events st) (fw_num_ignored st) (fw_have_ip2loc4 st)
    (fw_have_ip2loc6 st) (fw_module st) (fw_logged_on_user st) (fw_SID_list st)
    (fw_filter_list st) (fw_buf st) (trace_out st) (cleaned_up st) (calls st ++ [c]).

(** ** The output buffer *)

Definition fw_buf_add (item : buf_item) (st : fw_state) : fw_state :=
  set_fw_buf (fw_buf st ++ [item]) st.

Definition fw_buf_reset (st : fw_state) : fw_state := set_fw_buf [] st.

Definition fw_buf_flush (st : fw_state) : fw_state :=
  match fw_buf st with
  | [] => fw_buf_reset st
  | _ :: _ => fw_buf_reset (set_trace_out (trace_out st ++ [fw_buf st]) st)
  end.

(** ** Subscription: [fw_monitor_subscribe()] *)

(** What a step of a C function leaves to do: go on with the next
    statement, or [return] a value. *)
Inductive flow (R : Type) : Type :=
| Continue (st : fw_state)
| Return (r : R) (st : fw_state).
Arguments Continue {R} st.
Arguments Return {R} r st.

Section Subscribe.
Context {env : Environment}.

(** One expansion of the macro [SET_API_CALLBACK (N)]. *)
Definition SET_API_CALLBACK (N api_level : Z) (st : fw_state) : flow bool :=
  let tried : flow bool :=
    match p_FwpmNetEventSubscribe N with
    | Some subscribe =>
        if api_level =? N then
          let '(rc, handle) := subscribe (calls st) (fw_event_handle st) in
          let st1 := log_call (Call_FwpmNetEventSubscribe N)
                       (set_fw_event_handle handle (set_fw_errno rc st)) in
          if rc =? ERROR_SUCCESS then Return true st1 else Continue st1
        else Continue st
    | None => Continue st
    end in
  match tried with
  | Return r st1 => Return r st1
  | Continue st1 =>
      match p_FwpmNetEventSubscribe N with
      | None =>
          if api_level >=? N
          then Return false (set_fw_errno ERROR_BAD_COMMAND st1)
          else Continue st1
      | Some _ => Continue st1
      end
  end.

(** Sequencing of macro expansions. *)
Definition and_then (a : flow bool) (k : fw_state -> flow bool) : flow bool :=
  match a with
  | Continue st => k st
  | Return r st => Return r st
  end.

Definition fw_monitor_subscribe (st : fw_state) : bool * fw_state :=
  let api_level := fw_api st in
  if (api_level <? FW_API_LOW) || (api_level >? FW_API_HIGH)
  then (false, set_fw_errno ERROR_INVALID_DATA st)
  else
    match
      and_then (SET_API_CALLBACK 4 api_level st) (fun st =>
      and_then (SET_API_CALLBACK 3 api_level st) (fun st =>
      and_then (SET_API_CALLBACK 2 api_level st) (fun st =>
      and_then (SET_API_CALLBACK 1 api_level st) (fun st =>
                SET_API_CALLBACK 0 api_level st))))
    with
    | Return r st1 => (r, st1)
    | Continue st1 => (false, st1)
    end.

End Subscribe.

(** ** Strings of the C library *)

Definition tolower (c : ascii) : ascii :=
  let n := nat_of_ascii c in
  if ((65 <=? n) && (n <=? 90))%nat then ascii_of_nat (n + 32) else c.

Definition isdigit (c : ascii) : bool :=
  let n := nat_of_ascii c in ((48 <=? n) && (n <=? 57))%nat.

Definition backslash : ascii := ascii_of_nat 92.

Definition char_code (c : ascii) : Z := Z.of_nat (nat_of_ascii c).

Fixpoint strcmp (a b : string) : Z :=
  match a, b with
  | EmptyString, EmptyString => 0
  | EmptyString, String d _ => - char_code d
  | String c _, EmptyString => char_code c
  | String c a', String d b' =>
      if Ascii.eqb c d then strcmp a' b' else char_code c - char_code d
  end.

Fixpoint stricmp (a b : string) : Z :=
  match a, b with
  | EmptyString, EmptyString => 0
  | EmptyString, String d _ => - char_code (tolower d)
  | String c _, EmptyString => char_code (tolower c)
  | String c a', String d b' =>
      if Ascii.eqb (tolower c) (tolower d) then stricmp a' b'
      else char_code (tolower c) - char_code (tolower d)
  end.

Definition strnicmp (a b : string) (n : nat) : Z :=
  stricmp (substring 0 n a) (substring 0 n b).

(** [*s != '-'] *)
Definition not_dash (s : string) : bool :=
  match s with
  | String c _ => negb (Ascii.eqb c "-"%char)
  | EmptyString => true
  end.

(** [s[0] ? s : "?"] *)
Definition or_question (s : string) : string :=
  match s with
  | EmptyString => "?"
  | _ => s
  end.

Definition is_NULL {A : Type} (p : option A) : bool :=
  match p with
  | None => true
  | Some _ => false
  end.

(** [(x & mask) != 0] *)
Definition flag_set (x mask : Z) : bool := negb (Z.land x mask =? 0).

(** [n] NUL bytes. *)
Fixpoint NULs (n : nat) : string :=
  match n with
  | O => EmptyString
  | S k => String zero (NULs k)
  end.

(** The [n] bytes of a char array that holds the bytes [s] and is clear
    behind them. *)
Definition char_array (n : Z) (s : string) : string :=
  substring 0 (Z.to_nat n) (s ++ NULs (Z.to_nat n))%string.

(** The C string that begins with the first of the bytes: the bytes before
    the first NUL. *)
Fixpoint C_string (bytes : string) : string :=
  match bytes with
  | EmptyString => EmptyString
  | String c rest => if Ascii.eqb c zero then EmptyString else String c (C_string rest)
  end.

(** The bytes of [se->domain] and [se->account] as they lie in memory, and
    the two arrays in such bytes. *)
Definition SID_names (domain_buf account_buf : string) : string :=
  (char_array MAX_DOMAIN_SZ domain_buf ++ char_array MAX_ACCOUNT_SZ account_buf)%string.

Definition names_domain (names : string) : string :=
  substring 0 (Z.to_nat MAX_DOMAIN_SZ) names.

Definition names_account (names : string) : string :=
  substring (Z.to_nat MAX_DOMAIN_SZ) (Z.to_nat MAX_ACCOUNT_SZ) names.

(** [se->account] and [se->domain] read as C strings. A [domain] that has
    no NUL in its [MAX_DOMAIN_SZ] bytes runs on into [account]; behind
    [account] the structure ends with padding that [calloc()] has cleared. *)
Definition account_string (se : SID_entry) : string :=
  C_string (char_array MAX_ACCOUNT_SZ (account se)).

Definition domain_string (se : SID_entry) : string :=
  C_string (SID_names (domain se) (account se)).

(** ** The caches, the decoder and the rule enumerator *)

Section Monitor.
Context {env : Environment}.

(** *** The filter-name cache *)

Definition null_filter : filter_entry := mk_filter_entry 0 "NULL".

Definition lookup_or_add_filter (filter : Z) (st : fw_state) : filter_entry * fw_state :=
  if filter =? 0 then (null_filter, st)
  else
    match find (fun fe => filter =? value fe) (fw_filter_list st) with
    | Some fe => (fe, st)
    | None =>
        let '(rc, display_name) := p_FwpmFilterGetById0 (calls st) filter in
        let st1 := log_call (Call_FwpmFilterGetById0 filter) st in
        let fe_name :=
          if rc =? ERROR_SUCCESS
          then snd (WideCharToMultiByte (Some display_name) (-1) 50)
          else "?" in
        let fe := mk_filter_entry filter fe_name in
        (fe, set_fw_filter_list (fw_filter_list st1 ++ [fe]) st1)
    end.

(** *** The identity cache *)

(** [lookup_account_SID()] as [lookup_or_add_SID()] calls it, with the
    arrays [account] and [domain] of one [struct SID_entry]. Returns the
    value of the C function and the two arrays. *)
Definition lookup_account_SID (sid : SID) (sid_string : option string)
    (account_buf domain_buf : string) (st : fw_state)
  : bool * string * string * fw_state :=
  let r1 := LookupAccountSid (calls st) sid None 0 0 in
  let st1 := log_call (Call_LookupAccountSid sid false) st in
  let domain_sz :=
    if las_domain_sz r1 >? MAX_ACCOUNT_SZ then MAX_DOMAIN_SZ else las_domain_sz r1 in
  let account_sz :=
    if las_account_sz r1 >? MAX_ACCOUNT_SZ then MAX_ACCOUNT_SZ else las_account_sz r1 in
  if negb (las_rc r1) && (las_last_error r1 =? ERROR_NONE_MAPPED)
     && (las_sid_use r1 =? SidTypeUnknown)
  then (true, _strlcpy sid_string MAX_ACCOUNT_SZ, domain_buf, st1)
  else
    let r2 := LookupAccountSid (calls st1) sid (Some (SID_names domain_buf account_buf))
                account_sz domain_sz in
    let st2 := log_call (Call_LookupAccountSid sid true) st1 in
    (las_rc r2, names_account (las_names r2), names_domain (las_names r2), st2).

(** The new entry comes from [calloc()]: its two arrays are clear when
    [lookup_account_SID()] gets them. *)
Definition lookup_or_add_SID (sid : SID) (st : fw_state) : SID_entry * fw_state :=
  match find (fun se => EqualSid sid (sid_copy se)) (fw_SID_list st) with
  | Some se => (se, st)
  | None =>
      let sid_string := ConvertSidToStringSid (calls st) sid in
      let st1 := log_call (Call_ConvertSidToStringSid sid) st in
      let '(_, account_buf, domain_buf, st2) :=
        lookup_account_SID sid sid_string "" "" st1 in
      let se := mk_SID_entry sid sid_string domain_buf account_buf in
      (se, set_fw_SID_list (fw_SID_list st2 ++ [se]) st2)
  end.

(** *** Printing the parts of an event *)

Definition print_layer_item (drop_event allow_event : option _FWPM_NET_EVENT_CLASSIFY)
    (st : fw_state) : bool * fw_state :=
  let id :=
    match drop_event, allow_event with
    | Some d, _ => layerId d
    | None, Some a => layerId a
    | None, None => 0
    end in
  if id =? 0 then (false, st)
  else
    let '(rc, layer_name) := p_FwpmLayerGetById0 (calls st) id in
    let st1 := log_call (Call_FwpmLayerGetById0 id) st in
    if rc =? ERROR_SUCCESS
    then (true, fw_buf_add (Buf_layer id layer_name) st1)
    else (true, st1).

(** [None] when both arguments are [NULL]: the function reads
    [drop_event->networkCapabilityId] then. *)
Definition print_layer_item2 (drop_event allow_event : option _FWPM_NET_EVENT_CAPABILITY)
    (st : fw_state) : option (bool * fw_state) :=
  match (match allow_event with Some a => Some a | None => drop_event end) with
  | None => None
  | Some e =>
      let capability_id := networkCapabilityId e in
      let is_loopback := isLoopback e in
      let filter_id := cap_filterId e in
      if filter_id =? 0
      then Some (false, fw_buf_add (Buf_layer2 None capability_id is_loopback) st)
      else
        let '(fe, st1) := lookup_or_add_filter filter_id st in
        Some (true, fw_buf_add (Buf_layer2 (Some fe) capability_id is_loopback) st1)
  end.

Definition print_filter_rule (drop_event allow_event : option _FWPM_NET_EVENT_CLASSIFY)
    (st : fw_state) : bool * fw_state :=
  let filter_id :=
    match drop_event, allow_event with
    | Some d, _ => filterId d
    | None, Some a => filterId a
    | None, None => 0
    end in
  if filter_id =? 0 then (false, st)
  else
    let '(fe, st1) := lookup_or_add_filter filter_id st in
    (true, fw_buf_add (Buf_filter fe) st1).

Definition print_filter_rule2 (drop_event allow_event : option _FWPM_NET_EVENT_CAPABILITY)
    (st : fw_state) : bool * fw_state :=
  match (match drop_event with Some d => Some d | None => allow_event end) with
  | Some e =>
      let '(fe, st1) := lookup_or_add_filter (cap_filterId e) st in
      (true, fw_buf_add (Buf_filter fe) st1)
  | None => (false, st)
  end.

Definition print_country_location (ia4 : option Z) (ia6 : option (list Z))
    (st : fw_state) : fw_state :=
  let have_location :=
    if is_NULL ia4 then fw_have_ip2loc6 st else fw_have_ip2loc4 st in
  let country :=
    match ia4, ia6 with
    | Some a, _ => geoip_get_country_by_ipv4 a
    | None, Some a => geoip_get_country_by_ipv6 a
    | None, None => None
    end in
  match country with
  | None => st
  | Some a2 =>
      if not_dash a2 then
        let long_name := geoip_get_long_name_by_A2 a2 in
        if have_location then
          let location :=
            match ia4, ia6 with
            | Some a, _ => geoip_get_location_by_ipv4 a
            | None, Some a => geoip_get_location_by_ipv6 a
            | None, None => None
            end in
          fw_buf_add
            (Buf_country long_name
               (Some match location with Some l => l | None => "?" end)) st
        else fw_buf_add (Buf_country long_name None) st
      else st
  end.

Definition get_port (header : _FWPM_NET_EVENT_HEADER3) (port : Z) (st : fw_state)
  : port_text :=
  if cleaned_up st then Port_number port None
  else
    let se :=
      if ipProtocol header =? IPPROTO_TCP
      then getservbyport (_byteswap_ushort port) "tcp"
      else if ipProtocol header =? IPPROTO_UDP
      then getservbyport (_byteswap_ushort port) "udp"
      else None in
    match se with
    | Some (Some s_name) => Port_number port (Some s_name)
    | _ => Port_number port None
    end.

(** [None] for the empty string. *)
Definition get_ports (header : _FWPM_NET_EVENT_HEADER3) (st : fw_state)
  : option (port_text * port_text) :=
  if negb (ipProtocol header =? IPPROTO_UDP) && negb (ipProtocol header =? IPPROTO_TCP)
  then None
  else
    let local_port :=
      if flag_set (flags header) FWPM_NET_EVENT_FLAG_LOCAL_PORT_SET
      then get_port header (localPort header) st else Port_unset in
    let remote_port :=
      if flag_set (flags header) FWPM_NET_EVENT_FLAG_REMOTE_PORT_SET
      then get_port header (remotePort header) st else Port_unset in
    Some (local_port, remote_port).

Definition print_addresses_ipv4 (header : _FWPM_NET_EVENT_HEADER3) (direction_in : bool)
    (st : fw_state) : bool * fw_state :=
  if negb (ipVersion header =? FWP_IP_VERSION_V4) then (false, st)
  else if (Z.land (flags header) FWPM_NET_EVENT_FLAG_IP_VERSION_SET =? 0)
          || (Z.land (flags header)
                (Z.lor FWPM_NET_EVENT_FLAG_LOCAL_ADDR_SET
                       FWPM_NET_EVENT_FLAG_REMOTE_ADDR_SET) =? 0)
  then (false, st)
  else
    let local_addr :=
      if flag_set (flags header) FWPM_NET_EVENT_FLAG_LOCAL_ADDR_SET
      then inet_ntop4 (_byteswap_ulong (localAddrV4 header)) else "-" in
    let remote_addr :=
      if flag_set (flags header) FWPM_NET_EVENT_FLAG_REMOTE_ADDR_SET
      then inet_ntop4 (_byteswap_ulong (remoteAddrV4 header)) else "-" in
    if not_dash local_addr && exclude_list_get local_addr EXCL_ADDRESS then (false, st)
    else if not_dash remote_addr && exclude_list_get remote_addr EXCL_ADDRESS
    then (false, st)
    else
      let ports := get_ports header st in
      let st1 :=
        if direction_in
        then fw_buf_add (Buf_addr remote_addr local_addr None ports) st
        else fw_buf_add (Buf_addr local_addr remote_addr None ports) st in
      let st2 :=
        if flag_set (flags header) FWPM_NET_EVENT_FLAG_REMOTE_ADDR_SET
        then print_country_location
               (Some (_byteswap_ulong (remoteAddrV4 header))) None st1
        else st1 in
      (true, st2).

Definition print_addresses_ipv6 (header : _FWPM_NET_EVENT_HEADER3) (direction_in : bool)
    (st : fw_state) : bool * fw_state :=
  if negb (ipVersion header =? FWP_IP_VERSION_V6) then (false, st)
  else if (Z.land (flags header) FWPM_NET_EVENT_FLAG_IP_VERSION_SET =? 0)
          || (Z.land (flags header)
                (Z.lor FWPM_NET_EVENT_FLAG_LOCAL_ADDR_SET
                       FWPM_NET_EVENT_FLAG_REMOTE_ADDR_SET) =? 0)
  then (false, st)
  else
    let local_addr :=
      if flag_set (flags header) FWPM_NET_EVENT_FLAG_LOCAL_ADDR_SET
      then inet_ntop6 (localAddrV6 header) else "-" in
    let remote_addr :=
      if flag_set (flags header) FWPM_NET_EVENT_FLAG_REMOTE_ADDR_SET
      then inet_ntop6 (remoteAddrV6 header) else "-" in
    if not_dash local_addr && exclude_list_get local_addr EXCL_ADDRESS then (false, st)
    else if not_dash remote_addr && exclude_list_get remote_addr EXCL_ADDRESS
    then (false, st)
    else
      let ports := get_ports header st in
      let scope :=
        if flag_set (flags header) FWPM_NET_EVENT_FLAG_SCOPE_ID_SET
        then Some (scopeId header) else None in
      let st1 :=
        if direction_in
        then fw_buf_add (Buf_addr remote_addr local_addr scope ports) st
        else fw_buf_add (Buf_addr local_addr remote_addr scope ports) st in
      let st2 :=
        if flag_set (flags header) FWPM_NET_EVENT_FLAG_REMOTE_ADDR_SET
        then print_country_location None (Some (remoteAddrV6 header)) st1
        else st1 in
      (true, st2).

Definition volume_to_path (volume : string) : string :=
  let n := String.length VOLUME in
  if strnicmp volume VOLUME n =? 0 then
    match substring n (String.length volume - n) volume with
    | String d (String c rest) =>
        if isdigit d && Ascii.eqb c backslash
        then String (ascii_of_nat (97 - 48 + nat_of_ascii d))
               (String ":" (_strlcpy (Some (String c rest)) _MAX_PATH))
        else volume
    | _ => volume
    end
  else volume.

Definition print_app_id (header : _FWPM_NET_EVENT_HEADER3) (st : fw_state)
  : bool * fw_state :=
  if (Z.land (flags header) FWPM_NET_EVENT_FLAG_APP_ID_SET =? 0)
     || is_NULL (data (appId header)) || (size (appId header) =? 0)
  then (true, st)
  else
    let '(converted, buf) :=
      WideCharToMultiByte (data (appId header)) (size (appId header)) _MAX_PATH in
    let a_name :=
      if converted =? 0 then _strlcpy (Some "?") _MAX_PATH
      else _strlcpy (Some (volume_to_path buf)) _MAX_PATH in
    let a_base := basename a_name in
    if negb (show_all (g_cfg st)) then
      if (stricmp (fw_module st) a_name =? 0) || (stricmp (fw_module st) a_base =? 0)
      then (true, st)
      else (false, st)
    else if exclude_list_get a_base EXCL_PROGRAM || exclude_list_get a_name EXCL_PROGRAM
    then (false, st)
    else (true, fw_buf_add (Buf_app a_name) st).

Definition print_eff_name_id (header : _FWPM_NET_EVENT_HEADER3) (st : fw_state)
  : fw_state :=
  if Z.land (flags header) FWPM_NET_EVENT_FLAG_EFFECTIVE_NAME_SET =? 0 then st
  else
    match data (effectiveName header) with
    | None => st
    | Some w_name =>
        if size (effectiveName header) =? 0 then st
        else fw_buf_add (Buf_eff_name w_name) st
    end.

Definition print_user_id (header : _FWPM_NET_EVENT_HEADER3) (st : fw_state)
  : bool * fw_state :=
  if negb (flag_set (flags header) FWPM_NET_EVENT_FLAG_USER_ID_SET) then (true, st)
  else
    match userId header with
    | None => (true, st)
    | Some sid =>
        let '(se, st1) := lookup_or_add_SID sid st in
        if show_user (g_cfg st1)
           && (stricmp (account_string se) (fw_logged_on_user st1) =? 0)
        then (false, st1)
        else (true, fw_buf_add
                      (Buf_user (or_question (domain_string se))
                         (or_question (account_string se))) st1)
    end.

Definition print_package_id (header : _FWPM_NET_EVENT_HEADER3) (st : fw_state)
  : bool * fw_state :=
  if negb (flag_set (flags header) FWPM_NET_EVENT_FLAG_PACKAGE_ID_SET) then (true, st)
  else
    match packageSid header with
    | None => (true, st)
    | Some sid =>
        let '(se, st1) := lookup_or_add_SID sid st in
        match sid_str se with
        | Some s =>
            if show_all (g_cfg st1) || negb (strcmp NULL_SID s =? 0)
            then (true, fw_buf_add (Buf_package s) st1)
            else (false, st1)
        | None => (false, st1)
        end
    end.

(** [None] when the flag is set and both events are [NULL]. *)
Definition print_reauth_reason (header : _FWPM_NET_EVENT_HEADER3)
    (drop_event allow_event : option _FWPM_NET_EVENT_CLASSIFY) (st : fw_state)
  : option fw_state :=
  if negb (flag_set (flags header) FWPM_NET_EVENT_FLAG_REAUTH_REASON_SET) then Some st
  else
    match drop_event, allow_event with
    | Some d, _ => Some (fw_buf_add (Buf_reauth (reauthReason d)) st)
    | None, Some a => Some (fw_buf_add (Buf_reauth (reauthReason a)) st)
    | None, None => None
    end.

(** *** The event callback *)

(** The direction of a classify event: [direction_in] and [direction_out]
    after the three [if] statements on [msFwpDirection]. *)
Definition classify_direction (msFwpDirection : Z) : bool * bool :=
  let '(direction_in, direction_out) :=
    if (msFwpDirection =? FWP_DIRECTION_IN) || (msFwpDirection =? FWP_DIRECTION_INBOUND)
    then (true, false)
    else if (msFwpDirection =? FWP_DIRECTION_OUT)
            || (msFwpDirection =? FWP_DIRECTION_OUTBOUND)
    then (false, true)
    else (false, false) in
  if negb direction_in && negb direction_out
  then (true, direction_out)
  else (direction_in, direction_out).

(** The test that opens [fw_event_callback()]: the header says which IP
    version the event is for, and [g_cfg.firewall] does not show it. *)
Definition ip_version_ignored (header : _FWPM_NET_EVENT_HEADER3) (st : fw_state) : bool :=
  flag_set (flags header) FWPM_NET_EVENT_FLAG_IP_VERSION_SET
  && (((ipVersion header =? FWP_IP_VERSION_V4) && negb (show_ipv4 (g_cfg st)))
      || ((ipVersion header =? FWP_IP_VERSION_V6) && negb (show_ipv6 (g_cfg st)))).

(** How the part of [fw_event_callback()] that depends on the event type
    ends: a [NULL] event is dereferenced, the function returns, or it goes on
    with a direction. *)
Inductive kind_result : Type :=
| Kind_fault
| Kind_return (st : fw_state)
| Kind_ok (direction_in : bool) (st : fw_state).

Definition classify_part (header : _FWPM_NET_EVENT_HEADER3)
    (event : _FWPM_NET_EVENT_CLASSIFY) (is_drop : bool) (st : fw_state) : kind_result :=
  let '(direction_in, direction_out) := classify_direction (msFwpDirection event) in
  let st1 :=
    if direction_in || direction_out
    then fw_buf_add (Buf_direction (msFwpDirection event)) st else st in
  let st2 :=
    if flag_set (flags header) FWPM_NET_EVENT_FLAG_IP_PROTOCOL_SET
    then fw_buf_add (Buf_protocol (ipProtocol header)) st1
    else fw_buf_add Buf_newline st1 in
  let drop_event := if is_drop then Some event else None in
  let allow_event := if is_drop then None else Some event in
  let '(_, st3) := print_layer_item drop_event allow_event st2 in
  let '(_, st4) := print_filter_rule drop_event allow_event st3 in
  Kind_ok direction_in st4.

Definition capability_part (header : _FWPM_NET_EVENT_HEADER3)
    (drop_event allow_event : option _FWPM_NET_EVENT_CAPABILITY) (st : fw_state)
  : kind_result :=
  let st1 :=
    if flag_set (flags header) FWPM_NET_EVENT_FLAG_IP_PROTOCOL_SET
    then fw_buf_add (Buf_protocol (ipProtocol header)) st else st in
  match print_layer_item2 drop_event allow_event st1 with
  | None => Kind_fault
  | Some (_, st2) =>
      let '(_, st3) := print_filter_rule2 drop_event allow_event st2 in
      Kind_ok true st3
  end.

(** The [if] / [else if] chain on [event_type]. *)
Definition event_kind_part (event_type : Z) (header : _FWPM_NET_EVENT_HEADER3)
    (drop_event1 : option _FWPM_NET_EVENT_CLASSIFY)
    (drop_event2 : option _FWPM_NET_EVENT_CAPABILITY)
    (allow_event1 : option _FWPM_NET_EVENT_CLASSIFY)
    (allow_event2 : option _FWPM_NET_EVENT_CAPABILITY)
    (st : fw_state) : kind_result :=
  if event_type =? _FWPM_NET_EVENT_TYPE_CLASSIFY_DROP then
    match drop_event1 with
    | None => Kind_fault
    | Some d => classify_part header d true st
    end
  else if event_type =? _FWPM_NET_EVENT_TYPE_CLASSIFY_ALLOW then
    match allow_event1 with
    | None => Kind_fault
    | Some a => classify_part header a false st
    end
  else if event_type =? _FWPM_NET_EVENT_TYPE_CAPABILITY_ALLOW then
    capability_part header None allow_event2 st
  else if event_type =? _FWPM_NET_EVENT_TYPE_CAPABILITY_DROP then
    capability_part header drop_event2 None st
  else Kind_return st.

(** The four [print_] calls that decide on the event, with
    [print_eff_name_id()] after them: the values of [address_printed],
    [program_printed], [user_printed] and [pkg_printed]. *)
Definition print_parts (header : _FWPM_NET_EVENT_HEADER3) (direction_in : bool)
    (st : fw_state) : (bool * bool * bool * bool) * fw_state :=
  let '(address_printed, st1) := print_addresses_ipv4 header direction_in st in
  let '(address_printed, st2) :=
    if negb address_printed then print_addresses_ipv6 header direction_in st1
    else (address_printed, st1) in
  let '(program_printed, st3) := print_app_id header st2 in
  let '(user_printed, st4) := print_user_id header st3 in
  let '(pkg_printed, st5) := print_package_id header st4 in
  ((address_printed, program_printed, user_printed, pkg_printed),
   print_eff_name_id header st5).

(** The end of [fw_event_callback()]: flush and count the event, or drop
    the buffer and count it as ignored. *)
Definition emit_or_ignore (printed : bool * bool * bool * bool) (st : fw_state)
  : fw_state :=
  let '(address_printed, program_printed, user_printed, pkg_printed) := printed in
  let address_printed := if negb user_printed then false else address_printed in
  let address_printed := if negb program_printed then false else address_printed in
  if address_printed || program_printed || user_printed || pkg_printed then
    let st1 := fw_buf_flush st in
    set_fw_num_events (DWORD_inc (fw_num_events st1)) st1
  else
    let st1 := fw_buf_reset st in
    set_fw_num_ignored (DWORD_inc (fw_num_ignored st1)) st1.

(** [fw_event_callback()], which [fw_event_callback0()] to
    [fw_event_callback4()] call for every event they receive, whatever its
    type, with the event structure of that type and [NULL] for the other
    three. The result is [None] when a [NULL] event is dereferenced. *)
Definition fw_event_callback (event_type : Z) (header : _FWPM_NET_EVENT_HEADER3)
    (drop_event1 : option _FWPM_NET_EVENT_CLASSIFY)
    (drop_event2 : option _FWPM_NET_EVENT_CAPABILITY)
    (allow_event1 : option _FWPM_NET_EVENT_CLASSIFY)
    (allow_event2 : option _FWPM_NET_EVENT_CAPABILITY)
    (st : fw_state) : option fw_state :=
  let st0 := fw_buf_reset st in
  if ip_version_ignored header st0
  then Some (set_fw_num_ignored (DWORD_inc (fw_num_ignored st0)) st0)
  else
    let st1 := fw_buf_add (Buf_event (timeStamp header) event_type) st0 in
    match event_kind_part event_type header drop_event1 drop_event2
            allow_event1 allow_event2 st1 with
    | Kind_fault => None
    | Kind_return st2 => Some st2
    | Kind_ok direction_in st2 =>
        let '(printed, st3) := print_parts header direction_in st2 in
        let reauth :=
          if (event_type =? _FWPM_NET_EVENT_TYPE_CLASSIFY_ALLOW)
             || (event_type =? _FWPM_NET_EVENT_TYPE_CLASSIFY_DROP)
          then print_reauth_reason header drop_event1 allow_event1 st3
          else Some st3 in
        match reauth with
        | None => None
        | Some st4 => Some (emit_or_ignore printed st4)
        end
    end.

(** *** The rule enumerator *)

Definition rule_direction (rule : FW_RULE) : string :=
  if Direction rule =? FW_DIR_INVALID then "INV"
  else if Direction rule =? FW_DIR_IN then "IN"
  else if Direction rule =? FW_DIR_OUT then "OUT"
  else if Direction rule =? FW_DIR_BOTH then "BOTH"
  else "?".

(** [WideCharToMultiByte()] into [ascii], with ["?"] when it fails. *)
Definition rule_ascii (w : option wstring) : string :=
  let '(converted, buf) := WideCharToMultiByte w (-1) 299 in
  if converted =? 0 then "?" else buf.

Definition fw_dump_rule (rule : FW_RULE) (st : fw_state) : fw_state :=
  let dir := rule_direction rule in
  let st0 := fw_buf_reset st in
  let ascii := rule_ascii (wszDescription rule) in
  let st1 := set_fw_num_rules (DWORD_inc (fw_num_rules st0)) st0 in
  let st2 := fw_buf_flush (fw_buf_add (Buf_rule (fw_num_rules st1) dir ascii) st1) in
  let st3 :=
    match wszName rule with
    | Some w => fw_buf_add (Buf_rule_name (rule_ascii (Some w))) st2
    | None => st2
    end in
  let st4 :=
    match wszLocalApplication rule with
    | Some w => fw_buf_add (Buf_rule_prog w) st3
    | None => st3
    end in
  let st5 :=
    match wszEmbeddedContext rule with
    | Some w => fw_buf_add (Buf_rule_context w) st4
    | None => st4
    end in
  fw_buf_flush (fw_buf_add Buf_newline st5).

(** The [for] loop of [fw_enumerate_rules()], from [rule] and [num] on. *)
Fixpoint dump_rules (rules : list FW_RULE) (num rule_count : Z) (st : fw_state)
  : Z * fw_state :=
  match rules with
  | [] => (num, st)
  | rule :: next =>
      if num <? int_of_ULONG rule_count
      then dump_rules next (num + 1) rule_count (fw_dump_rule rule st)
      else (num, st)
  end.

Definition fw_enumerate_rules (st : fw_state) : Z * fw_state :=
  let rule_flags :=
    Z.lor (Z.lor (Z.lor FW_ENUM_RULES_FLAG_RESOLVE_NAME
                        FW_ENUM_RULES_FLAG_RESOLVE_DESCRIPTION)
                 FW_ENUM_RULES_FLAG_RESOLVE_APPLICATION)
          FW_ENUM_RULES_FLAG_RESOLVE_KEYWORD in
  let profile :=
    if show_all (g_cfg st) then FW_PROFILE_TYPE_ALL else FW_PROFILE_TYPE_CURRENT in
  let '(rc, rule_count, rules) :=
    p_FWEnumFirewallRules (calls st) FW_RULE_STATUS_CLASS_ALL profile rule_flags in
  let st1 :=
    log_call (Call_FWEnumFirewallRules FW_RULE_STATUS_CLASS_ALL profile rule_flags) st in
  if negb (rc =? ERROR_SUCCESS) then (-1, set_fw_errno rc st1)
  else dump_rules rules 0 rule_count st1.

End Monitor.

(** ** Notions used to state the properties *)

Section Notions.
Context {env : Environment}.

(** The entry that the search loop of [lookup_or_add_SID()] finds. *)
Definition cached_SID (sid : SID) (st : fw_state) : option SID_entry :=
  find (fun se => EqualSid sid (sid_copy se)) (fw_SID_list st).

(** The entry that the search loop of [lookup_or_add_filter()] finds. *)
Definition cached_filter (filter : Z) (st : fw_state) : option filter_entry :=
  find (fun fe => filter =? value fe) (fw_filter_list st).

(** A key of one of the two caches, and an entry of one of them. *)
Inductive cache_key : Type :=
| Filter_id (filter : Z)
| Principal (sid : SID).

Inductive cache_entry : Type :=
| Filter_name (fe : filter_entry)
| Account (se : SID_entry).

Definition lookup_or_resolve (key : cache_key) (st : fw_state) : cache_entry * fw_state :=
  match key with
  | Filter_id filter =>
      let '(fe, st1) := lookup_or_add_filter filter st in (Filter_name fe, st1)
  | Principal sid =>
      let '(se, st1) := lookup_or_add_SID sid st in (Account se, st1)
  end.

(** A call that starts a resolution of [key]: [FwpmFilterGetById0()] for a
    filter, and for a principal the first [LookupAccountSid()] call of
    [lookup_account_SID()], the one that asks for the sizes. *)
Definition starts_resolution (key : cache_key) (c : ext_call) : bool :=
  match key, c with
  | Filter_id filter, Call_FwpmFilterGetById0 f => f =? filter
  | Principal sid, Call_LookupAccountSid s false => EqualSid s sid
  | _, _ => false
  end.

(** The number of resolution attempts for [key] among the calls [l]. *)
Definition resolution_attempts (key : cache_key) (l : list ext_call) : nat :=
  List.length (filter (starts_resolution key) l).

(** What happens between [fw_init()] and [fw_exit()] as far as the caches
    are concerned: a lookup, or an event delivered to the callback. *)
Inductive monitor_op : Type :=
| Op_lookup (key : cache_key)
| Op_event (event_type : Z) (header : _FWPM_NET_EVENT_HEADER3)
    (drop_event1 : option _FWPM_NET_EVENT_CLASSIFY)
    (drop_event2 : option _FWPM_NET_EVENT_CAPABILITY)
    (allow_event1 : option _FWPM_NET_EVENT_CLASSIFY)
    (allow_event2 : option _FWPM_NET_EVENT_CAPABILITY).

Definition run_op (op : monitor_op) (st : fw_state) : option fw_state :=
  match op with
  | Op_lookup key => Some (snd (lookup_or_resolve key st))
  | Op_event event_type header d1 d2 a1 a2 =>
      fw_event_callback event_type header d1 d2 a1 a2 st
  end.

Fixpoint run_ops (ops : list monitor_op) (st : fw_state) : option fw_state :=
  match ops with
  | [] => Some st
  | op :: rest =>
      match run_op op st with
      | Some st1 => run_ops rest st1
      | None => None
      end
  end.

(** The event is of one of the four types that the callback decodes, and
    the event structure of that type is not [NULL]. *)
Definition event_present (event_type : Z)
    (drop_event1 : option _FWPM_NET_EVENT_CLASSIFY)
    (drop_event2 : option _FWPM_NET_EVENT_CAPABILITY)
    (allow_event1 : option _FWPM_NET_EVENT_CLASSIFY)
    (allow_event2 : option _FWPM_NET_EVENT_CAPABILITY) : bool :=
  if event_type =? _FWPM_NET_EVENT_TYPE_CLASSIFY_DROP then negb (is_NULL drop_event1)
  else if event_type =? _FWPM_NET_EVENT_TYPE_CLASSIFY_ALLOW then negb (is_NULL allow_event1)
  else if event_type =? _FWPM_NET_EVENT_TYPE_CAPABILITY_ALLOW then negb (is_NULL allow_event2)
  else if event_type =? _FWPM_NET_EVENT_TYPE_CAPABILITY_DROP then negb (is_NULL drop_event2)
  else false.

(** The event type is one of the four that the callback decodes. *)
Definition decoded_type (event_type : Z) : bool :=
  (event_type =? _FWPM_NET_EVENT_TYPE_CLASSIFY_DROP)
  || (event_type =? _FWPM_NET_EVENT_TYPE_CLASSIFY_ALLOW)
  || (event_type =? _FWPM_NET_EVENT_TYPE_CAPABILITY_ALLOW)
  || (event_type =? _FWPM_NET_EVENT_TYPE_CAPABILITY_DROP).

(** [print_app_id()] returns [FALSE] for the header. *)
Definition program_suppressed (header : _FWPM_NET_EVENT_HEADER3) (st : fw_state) : bool :=
  negb (fst (print_app_id header st)).

(** The header has a user whose cached account is that of the logged-on
    user, and [show_user] is set: [print_user_id()] returns [FALSE]. *)
Definition user_suppressed (header : _FWPM_NET_EVENT_HEADER3) (st : fw_state) : bool :=
  flag_set (flags header) FWPM_NET_EVENT_FLAG_USER_ID_SET
  && match userId header with
     | None => false
     | Some sid =>
         match cached_SID sid st with
         | Some se =>
             show_user (g_cfg st)
             && (stricmp (account_string se) (fw_logged_on_user st) =? 0)
         | None => false
         end
     end.

(** The header has a package whose cached entry has no string form, or has
    that of the null SID while [show_all] is off: [print_package_id()]
    returns [FALSE]. *)
Definition package_suppressed (header : _FWPM_NET_EVENT_HEADER3) (st : fw_state) : bool :=
  flag_set (flags header) FWPM_NET_EVENT_FLAG_PACKAGE_ID_SET
  && match packageSid header with
     | None => false
     | Some sid =>
         match cached_SID sid st with
         | Some se =>
             match sid_str se with
             | Some s => negb (show_all (g_cfg st) || negb (strcmp NULL_SID s =? 0))
             | None => true
             end
         | None => false
         end
     end.

(** From [st] to [st'] one event was emitted: passed to [trace_puts()] and
    counted in [fw_num_events]. *)
Definition emitted (st st' : fw_state) : Prop :=
  fw_num_events st' = DWORD_inc (fw_num_events st)
  /\ fw_num_ignored st' = fw_num_ignored st
  /\ exists text, text <> [] /\ trace_out st' = trace_out st ++ [text].

(** From [st] to [st'] one event was ignored: counted in [fw_num_ignored],
    with nothing passed to [trace_puts()]. *)
Definition ignored (st st' : fw_state) : Prop :=
  fw_num_ignored st' = DWORD_inc (fw_num_ignored st)
  /\ fw_num_events st' = fw_num_events st
  /\ trace_out st' = trace_out st.

(** The state right after [fw_init()], as far as the caches go. *)
Definition caches_fresh (st : fw_state) : Prop :=
  fw_SID_list st = [] /\ fw_filter_list st = [] /\ calls st = [].

(** The entry of [key] in its cache, if there is one. *)
Definition cached (key : cache_key) (st : fw_state) : option cache_entry :=
  match key with
  | Filter_id filter => option_map Filter_name (cached_filter filter st)
  | Principal sid => option_map Account (cached_SID sid st)
  end.

(** No resolution was started twice, and each one that was started has
    left an entry. *)
Definition cache_inv (st : fw_state) : Prop :=
  forall key,
    (resolution_attempts key (calls st) <= 1)%nat
    /\ ((1 <= resolution_attempts key (calls st))%nat -> cached key st <> None).

(** From [s] to [s'] entries were only added, behind those that were there. *)
Definition cache_grows (s s' : fw_state) : Prop :=
  (forall key e, cached key s = Some e -> cached key s' = Some e)
  /\ (cache_inv s -> cache_inv s').

(** From [s] to [s'] the configuration, the two counters and the output
    are unchanged, and [fw_buf] was only added to. *)
Definition keeps (s s' : fw_state) : Prop :=
  g_cfg s' = g_cfg s
  /\ fw_module s' = fw_module s
  /\ fw_logged_on_user s' = fw_logged_on_user s
  /\ fw_num_events s' = fw_num_events s
  /\ fw_num_ignored s' = fw_num_ignored s
  /\ trace_out s' = trace_out s
  /\ exists l, fw_buf s' = fw_buf s ++ l.

Definition ok (s s' : fw_state) : Prop := keeps s s' /\ cache_grows s s'.

End Notions.

(** ** The callbacks that the engine calls *)

(** An event as the engine hands it over: [_FWPM_NET_EVENT1] to
    [_FWPM_NET_EVENT5]. The header is the one that the code reads through
    its cast to [_FWPM_NET_EVENT_HEADER3], and of the union only the four
    members that [firewall.c] reads are kept, [None] for a [NULL] pointer
    and else the structure as the code reads it through its cast; each is
    read under the test that [type] is the type it belongs to. *)
Record _FWPM_NET_EVENT : Type := mk_net_event {
  type : Z;
  header : _FWPM_NET_EVENT_HEADER3;
  classifyDrop : option _FWPM_NET_EVENT_CLASSIFY;
  capabilityDrop : option _FWPM_NET_EVENT_CAPABILITY;
  classifyAllow : option _FWPM_NET_EVENT_CLASSIFY;
  capabilityAllow : option _FWPM_NET_EVENT_CAPABILITY
}.

(** A macro argument that is [NULL]. *)
Definition NULL_member {A : Type} (event : _FWPM_NET_EVENT) : option A := None.

Section Callbacks.
Context {env : Environment}.

(** One expansion of the macro [FW_EVENT_CALLBACK]; [event] is [None] for a
    [NULL] pointer. The separator that is printed at trace level 3 is left
    out, as every [TRACE()] is. *)
Definition FW_EVENT_CALLBACK
    (allow_member1 : _FWPM_NET_EVENT -> option _FWPM_NET_EVENT_CLASSIFY)
    (allow_member2 : _FWPM_NET_EVENT -> option _FWPM_NET_EVENT_CAPABILITY)
    (drop_member1 : _FWPM_NET_EVENT -> option _FWPM_NET_EVENT_CLASSIFY)
    (drop_member2 : _FWPM_NET_EVENT -> option _FWPM_NET_EVENT_CAPABILITY)
    (event : option _FWPM_NET_EVENT) (st : fw_state) : option fw_state :=
  match event with
  | None => Some st
  | Some e =>
      fw_event_callback (type e) (header e)
        (if type e =? _FWPM_NET_EVENT_TYPE_CLASSIFY_DROP then drop_member1 e else None)
        (if type e =? _FWPM_NET_EVENT_TYPE_CAPABILITY_DROP then drop_member2 e else None)
        (if type e =? _FWPM_NET_EVENT_TYPE_CLASSIFY_ALLOW then allow_member1 e else None)
        (if type e =? _FWPM_NET_EVENT_TYPE_CAPABILITY_ALLOW then allow_member2 e else None)
        st
  end.

Definition fw_event_callback0 : option _FWPM_NET_EVENT -> fw_state -> option fw_state :=
  FW_EVENT_CALLBACK NULL_member NULL_member classifyDrop NULL_member.
Definition fw_event_callback1 : option _FWPM_NET_EVENT -> fw_state -> option fw_state :=
  FW_EVENT_CALLBACK NULL_member NULL_member classifyDrop NULL_member.
Definition fw_event_callback2 : option _FWPM_NET_EVENT -> fw_state -> option fw_state :=
  FW_EVENT_CALLBACK classifyAllow capabilityAllow classifyDrop capabilityDrop.
Definition fw_event_callback3 : option _FWPM_NET_EVENT -> fw_state -> option fw_state :=
  FW_EVENT_CALLBACK classifyAllow capabilityAllow classifyDrop capabilityDrop.
Definition fw_event_callback4 : option _FWPM_NET_EVENT -> fw_state -> option fw_state :=
  FW_EVENT_CALLBACK classifyAllow capabilityAllow classifyDrop capabilityDrop.

(** The callback that [SET_API_CALLBACK (N)] hands to the engine. *)
Definition subscribed_callback (N : Z)
  : option _FWPM_NET_EVENT -> fw_state -> option fw_state :=
  if N =? 0 then fw_event_callback0
  else if N =? 1 then fw_event_callback1
  else if N =? 2 then fw_event_callback2
  else if N =? 3 then fw_event_callback3
  else fw_event_callback4.

(** *** Stored events: [fw_check_ignore()] and the loop of [fw_dump_events()] *)

Definition fw_check_ignore (type : Z) (st : fw_state) : bool * fw_state :=
  if show_all (g_cfg st)
     || (type =? _FWPM_NET_EVENT_TYPE_CLASSIFY_DROP)
     || (type =? _FWPM_NET_EVENT_TYPE_CAPABILITY_DROP)
  then (false, st)
  else (true, set_fw_num_ignored (DWORD_inc (fw_num_ignored st)) st).

(** The body of the [for] loop of the macro [DO_ENUM_LOOP] for one entry:
    [None] when the callback dereferences a [NULL] event. *)
Definition DO_ENUM_LOOP_entry
    (allow_member1 : _FWPM_NET_EVENT -> option _FWPM_NET_EVENT_CLASSIFY)
    (allow_member2 : _FWPM_NET_EVENT -> option _FWPM_NET_EVENT_CAPABILITY)
    (drop_member1 : _FWPM_NET_EVENT -> option _FWPM_NET_EVENT_CLASSIFY)
    (drop_member2 : _FWPM_NET_EVENT -> option _FWPM_NET_EVENT_CAPABILITY)
    (entry : _FWPM_NET_EVENT) (st : fw_state) : option fw_state :=
  let '(ignore, st1) := fw_check_ignore (type entry) st in
  if ignore then Some st1
  else if type entry =? _FWPM_NET_EVENT_TYPE_CLASSIFY_DROP then
    fw_event_callback (type entry) (header entry) (drop_member1 entry) None None None st1
  else if type entry =? _FWPM_NET_EVENT_TYPE_CLASSIFY_ALLOW then
    fw_event_callback (type entry) (header entry) None None (allow_member1 entry) None st1
  else if type entry =? _FWPM_NET_EVENT_TYPE_CAPABILITY_DROP then
    fw_event_callback (type entry) (header entry) None (drop_member2 entry) None None st1
  else if type entry =? _FWPM_NET_EVENT_TYPE_CAPABILITY_ALLOW then
    fw_event_callback (type entry) (header entry) None None None (allow_member2 entry) st1
  else Some st1.

Fixpoint DO_ENUM_LOOP
    (allow_member1 : _FWPM_NET_EVENT -> option _FWPM_NET_EVENT_CLASSIFY)
    (allow_member2 : _FWPM_NET_EVENT -> option _FWPM_NET_EVENT_CAPABILITY)
    (drop_member1 : _FWPM_NET_EVENT -> option _FWPM_NET_EVENT_CLASSIFY)
    (drop_member2 : _FWPM_NET_EVENT -> option _FWPM_NET_EVENT_CAPABILITY)
    (entries : list _FWPM_NET_EVENT) (st : fw_state) : option fw_state :=
  match entries with
  | [] => Some st
  | entry :: rest =>
      match DO_ENUM_LOOP_entry allow_member1 allow_member2 drop_member1 drop_member2
              entry st with
      | Some st1 =>
          DO_ENUM_LOOP allow_member1 allow_member2 drop_member1 drop_member2 rest st1
      | None => None
      end
  end.

End Callbacks.

(** ** The engine session *)

(** Constants that [firewall.c] defines for the session. *)
Definition FWPM_NET_EVENT_KEYWORD_CAPABILITY_DROP : Z := 0x4.
Definition FWPM_NET_EVENT_KEYWORD_CAPABILITY_ALLOW : Z := 0x8.
Definition FWPM_NET_EVENT_KEYWORD_CLASSIFY_ALLOW : Z := 0x10.
Definition FWPM_ENGINE_MONITOR_IPSEC_CONNECTIONS : Z := 3.

(** The calls that open, set up, read and close the session, with the
    handles they are given; [None] is [INVALID_HANDLE_VALUE]. *)
Inductive engine_call : Type :=
| Call_FwpmEngineOpen0
| Call_FwpmEngineSetOption0 (engine : option Z) (option_id value : Z)
| Call_FwpmNetEventUnsubscribe0 (engine event : Z)
| Call_FwpmEngineClose0 (engine : Z)
| Call_CloseHandle (handle : Z)
| Call_FwpmNetEventCreateEnumHandle0 (engine : option Z)
| Call_FwpmNetEventEnum (N : Z) (engine enum_handle : option Z)
| Call_FwpmFreeMemory0
| Call_FwpmNetEventDestroyEnumHandle0 (engine enum_handle : option Z).

(** The file-scope variables of [fw_state], with the two handles that the
    session functions use besides [fw_event_handle], and the session calls
    made so far. *)
Record fw_engine_state : Type := mk_fw_engine_state {
  fw_vars : fw_state;
  fw_policy_handle : option Z;
  fw_engine_handle : option Z;
  engine_calls : list engine_call
}.

Class EngineEnvironment : Type := {
  (** <winerror.h> *)
  ERROR_FUNCTION_FAILED : Z;
  (** <fwpmtypes.h> *)
  FWPM_ENGINE_COLLECT_NET_EVENTS : Z;
  FWPM_ENGINE_NET_EVENT_MATCH_ANY_KEYWORDS : Z;
  FWPM_NET_EVENT_KEYWORD_INBOUND_MCAST : Z;
  FWPM_NET_EVENT_KEYWORD_INBOUND_BCAST : Z;
  (** The variable [ws_sema_inherited] of another file. *)
  ws_sema_inherited : bool;
  (** Whether all the [sizeof] and [offsetof] comparisons of
      [fw_check_sizes()] hold in this build. *)
  sizes_agree : bool;
  (** The entry points: [None], or [false], for a [NULL] pointer. A call
      answers after the session calls made so far. [p_FwpmEngineOpen0] and
      [p_FwpmNetEventCreateEnumHandle0] give the error code and what the
      handle holds afterwards; [p_FwpmEngineSetOption0] takes the engine
      handle, the option and its value. *)
  p_FwpmEngineOpen0 : option (list engine_call -> Z * option Z);
  p_FwpmEngineSetOption0 : option (list engine_call -> option Z -> Z -> Z -> Z);
  p_FwpmNetEventUnsubscribe0 : bool;
  p_FwpmEngineClose0 : bool;
  p_FwpmNetEventCreateEnumHandle0 :
    option (list engine_call -> option Z -> Z * option Z);
  p_FwpmNetEventDestroyEnumHandle0 : bool;
  p_FwpmFreeMemory0 : bool;
  (** [p_FwpmNetEventEnum0] .. [4], given the engine and the enum handle:
      the error code and the array of [num_out] entries it has stored in
      [entries], [None] when [entries] is left [NULL]. *)
  p_FwpmNetEventEnum :
    Z -> option (list engine_call -> option Z -> option Z
                 -> Z * option (list _FWPM_NET_EVENT))
}.

Definition set_fw_vars (v : fw_state) (es : fw_engine_state) : fw_engine_state :=
  mk_fw_engine_state v (fw_policy_handle es) (fw_engine_handle es) (engine_calls es).

Definition set_fw_engine_handle (v : option Z) (es : fw_engine_state) : fw_engine_state :=
  mk_fw_engine_state (fw_vars es) (fw_policy_handle es) v (engine_calls es).

Definition log_engine_call (c : engine_call) (es : fw_engine_state) : fw_engine_state :=
  mk_fw_engine_state (fw_vars es) (fw_policy_handle es) (fw_engine_handle es)
    (engine_calls es ++ [c]).

(** An assignment to [fw_errno]. *)
Definition set_engine_errno (v : Z) (es : fw_engine_state) : fw_engine_state :=
  set_fw_vars (set_fw_errno v (fw_vars es)) es.

(** [fw_num_events = fw_num_ignored = 0] *)
Definition reset_counters (es : fw_engine_state) : fw_engine_state :=
  set_fw_vars (set_fw_num_events 0 (set_fw_num_ignored 0 (fw_vars es))) es.

(** How one expansion of [GET_ENUM_ENTRIES] ends: its [if] is false, the
    loop dereferences a [NULL] event, or it reaches [goto quit] with [rc]
    and with [entries] set or not. *)
Inductive enum_flow : Type :=
| Enum_next
| Enum_fault
| Enum_quit (rc : Z) (entries : bool) (es : fw_engine_state).

Section Session.
Context {env : Environment} {engine : EngineEnvironment}.

Definition FW_FUNC_ERROR : Z := ERROR_FUNCTION_FAILED.

Definition fw_create_engine (es : fw_engine_state) : bool * fw_engine_state :=
  match fw_engine_handle es with
  | Some _ => (true, es)
  | None =>
      match p_FwpmEngineOpen0 with
      | None => (false, set_engine_errno FW_FUNC_ERROR es)
      | Some open =>
          let '(rc, handle) := open (engine_calls es) in
          let es1 := log_engine_call Call_FwpmEngineOpen0 (set_fw_engine_handle handle es) in
          if negb (rc =? ERROR_SUCCESS)
          then (false, set_engine_errno rc es1)
          else (true, es1)
      end
  end.

(** [value.uint32] of the second option of [fw_monitor_init()]. *)
Definition event_keywords (es : fw_engine_state) : Z :=
  let value :=
    Z.lor FWPM_NET_EVENT_KEYWORD_CAPABILITY_DROP FWPM_NET_EVENT_KEYWORD_CAPABILITY_ALLOW in
  if show_all (g_cfg (fw_vars es))
  then (value + Z.lor (Z.lor FWPM_NET_EVENT_KEYWORD_CLASSIFY_ALLOW
                             FWPM_NET_EVENT_KEYWORD_INBOUND_MCAST)
                      FWPM_NET_EVENT_KEYWORD_INBOUND_BCAST) mod 2 ^ 32
  else value.

(** One [FwpmEngineSetOption0()] call of [fw_monitor_init()] with the test
    of its result: [None] to go on, else the state to return [FALSE] with. *)
Definition set_option (set : list engine_call -> option Z -> Z -> Z -> Z)
    (option_id value : Z) (es : fw_engine_state)
  : fw_engine_state * option fw_engine_state :=
  let rc := set (engine_calls es) (fw_engine_handle es) option_id value in
  let es1 :=
    log_engine_call (Call_FwpmEngineSetOption0 (fw_engine_handle es) option_id value) es in
  if negb (rc =? ERROR_SUCCESS) then (es1, Some (set_engine_errno rc es1)) else (es1, None).

Definition fw_monitor_init (es : fw_engine_state) : bool * fw_engine_state :=
  if is_NULL (fw_policy_handle es) then (false, es)
  else
    let '(created, es1) := fw_create_engine es in
    if negb created then (false, es1)
    else
      match p_FwpmEngineSetOption0 with
      | None => (false, set_engine_errno FW_FUNC_ERROR es1)
      | Some set =>
          match set_option set FWPM_ENGINE_COLLECT_NET_EVENTS 1 es1 with
          | (_, Some failed) => (false, failed)
          | (es2, None) =>
              match set_option set FWPM_ENGINE_NET_EVENT_MATCH_ANY_KEYWORDS
                      (event_keywords es2) es2 with
              | (_, Some failed) => (false, failed)
              | (es3, None) =>
                  match set_option set FWPM_ENGINE_MONITOR_IPSEC_CONNECTIONS 1 es3 with
                  | (_, Some failed) => (false, failed)
                  | (es4, None) => (true, set_engine_errno ERROR_SUCCESS es4)
                  end
              end
          end
      end.

Definition fw_check_sizes (es : fw_engine_state) : bool * fw_engine_state :=
  let es1 := set_engine_errno FW_FUNC_ERROR es in
  if sizes_agree then (true, set_engine_errno 0 es1) else (false, es1).

Definition fw_monitor_start (es : fw_engine_state) : bool * fw_engine_state :=
  let es0 := reset_counters es in
  if ws_sema_inherited then (false, es0)
  else
    let '(sizes_ok, es1) := fw_check_sizes es0 in
    if negb sizes_ok then (false, es1)
    else
      let '(initialised, es2) := fw_monitor_init es1 in
      if negb initialised then (false, es2)
      else
        let '(subscribed, st) := fw_monitor_subscribe (fw_vars es2) in
        (subscribed, set_fw_vars st es2).

Definition fw_monitor_stop (force : bool) (es : fw_engine_state) : fw_engine_state :=
  let es2 :=
    if force then
      let es1 :=
        match fw_event_handle (fw_vars es) with
        | Some h => log_engine_call (Call_CloseHandle h) es
        | None => es
        end in
      match fw_engine_handle es1 with
      | Some h => log_engine_call (Call_CloseHandle h) es1
      | None => es1
      end
    else
      let es1 :=
        match fw_engine_handle es, fw_event_handle (fw_vars es) with
        | Some engine_h, Some event_h =>
            if p_FwpmNetEventUnsubscribe0
            then log_engine_call (Call_FwpmNetEventUnsubscribe0 engine_h event_h) es
            else es
        | _, _ => es
        end in
      match fw_engine_handle es1 with
      | Some engine_h =>
          if p_FwpmEngineClose0
          then log_engine_call (Call_FwpmEngineClose0 engine_h) es1
          else es1
      | None => es1
      end in
  set_fw_engine_handle None
    (set_fw_vars (set_fw_event_handle None (fw_vars es2)) es2).

(** One expansion of the macro [GET_ENUM_ENTRIES (N, ...)], with the
    [DO_ENUM_LOOP] inside it. *)
Definition GET_ENUM_ENTRIES (N : Z)
    (allow_member1 : _FWPM_NET_EVENT -> option _FWPM_NET_EVENT_CLASSIFY)
    (allow_member2 : _FWPM_NET_EVENT -> option _FWPM_NET_EVENT_CAPABILITY)
    (drop_member1 : _FWPM_NET_EVENT -> option _FWPM_NET_EVENT_CLASSIFY)
    (drop_member2 : _FWPM_NET_EVENT -> option _FWPM_NET_EVENT_CAPABILITY)
    (api_level : Z) (fw_enum_handle : option Z) (es : fw_engine_state) : enum_flow :=
  match p_FwpmNetEventEnum N with
  | Some enum =>
      if api_level =? N then
        let '(rc, entriesN) := enum (engine_calls es) (fw_engine_handle es) fw_enum_handle in
        let es1 :=
          log_engine_call (Call_FwpmNetEventEnum N (fw_engine_handle es) fw_enum_handle) es in
        if negb (rc =? ERROR_SUCCESS)
        then Enum_quit rc false (set_engine_errno rc es1)
        else
          match DO_ENUM_LOOP allow_member1 allow_member2 drop_member1 drop_member2
                  (match entriesN with Some l => l | None => [] end) (fw_vars es1) with
          | Some st => Enum_quit rc (negb (is_NULL entriesN)) (set_fw_vars st es1)
          | None => Enum_fault
          end
      else Enum_next
  | None => Enum_next
  end.

(** From the label [quit] on. *)
Definition fw_dump_events_quit (rc : Z) (entries : bool) (fw_enum_handle : option Z)
    (es : fw_engine_state) : bool * fw_engine_state :=
  let es1 := set_engine_errno rc es in
  let es2 := if entries then log_engine_call Call_FwpmFreeMemory0 es1 else es1 in
  let es3 :=
    if negb (is_NULL (fw_event_handle (fw_vars es2)))
    then log_engine_call
           (Call_FwpmNetEventDestroyEnumHandle0 (fw_engine_handle es2) fw_enum_handle) es2
    else es2 in
  (fw_errno (fw_vars es3) =? ERROR_SUCCESS, es3).

(** The five expansions of [GET_ENUM_ENTRIES], one after the other. *)
Definition get_enum_entries (api_level : Z) (fw_enum_handle : option Z)
    (es : fw_engine_state) : enum_flow :=
  match GET_ENUM_ENTRIES 4 classifyAllow capabilityAllow classifyDrop capabilityDrop
          api_level fw_enum_handle es with
  | Enum_next =>
    match GET_ENUM_ENTRIES 3 classifyAllow capabilityAllow classifyDrop capabilityDrop
            api_level fw_enum_handle es with
    | Enum_next =>
      match GET_ENUM_ENTRIES 2 classifyAllow capabilityAllow classifyDrop capabilityDrop
              api_level fw_enum_handle es with
      | Enum_next =>
        match GET_ENUM_ENTRIES 1 NULL_member NULL_member classifyDrop NULL_member
                api_level fw_enum_handle es with
        | Enum_next =>
            GET_ENUM_ENTRIES 0 NULL_member NULL_member classifyDrop NULL_member
              api_level fw_enum_handle es
        | other => other
        end
      | other => other
      end
    | other => other
    end
  | other => other
  end.

(** [fw_dump_events()]: [None] when a [NULL] event is dereferenced. *)
Definition fw_dump_events (es : fw_engine_state) : option (bool * fw_engine_state) :=
  let api_level := fw_api (fw_vars es) in
  if (api_level <? FW_API_LOW) || (api_level >? FW_API_HIGH)
  then Some (false, set_engine_errno ERROR_INVALID_DATA es)
  else
    match p_FwpmNetEventCreateEnumHandle0 with
    | None => Some (false, set_engine_errno FW_FUNC_ERROR es)
    | Some create =>
        if negb p_FwpmNetEventDestroyEnumHandle0 || negb p_FwpmFreeMemory0
        then Some (false, set_engine_errno FW_FUNC_ERROR es)
        else
          let '(created, es1) := fw_create_engine es in
          if negb created then Some (false, es1)
          else
            let es2 := reset_counters es1 in
            let '(rc, fw_enum_handle) := create (engine_calls es2) (fw_engine_handle es2) in
            let es3 :=
              log_engine_call
                (Call_FwpmNetEventCreateEnumHandle0 (fw_engine_handle es2)) es2 in
            if negb (rc =? ERROR_SUCCESS)
            then Some (fw_dump_events_quit rc false fw_enum_handle es3)
            else
              match get_enum_entries api_level fw_enum_handle es3 with
              | Enum_fault => None
              | Enum_next => Some (fw_dump_events_quit rc false fw_enum_handle es3)
              | Enum_quit rc1 entries es4 =>
                  Some (fw_dump_events_quit rc1 entries fw_enum_handle es4)
              end
    end.

End Session.

(** ** Notions for the session and for the history of a state *)

(** The filters that the engine was asked for among the calls [l], and the
    principals that the account database was asked for, in the order of the
    calls. *)
Definition filter_calls (l : list ext_call) : list Z :=
  flat_map (fun c => match c with
                     | Call_FwpmFilterGetById0 f => [f]
                     | _ => []
                     end) l.

Definition account_calls (l : list ext_call) : list SID :=
  flat_map (fun c => match c with
                     | Call_LookupAccountSid sid false => [sid]
                     | _ => []
                     end) l.

(** From [s] to [s'] the variables that only [fw_init()], the session
    functions and the rule enumerator set are unchanged. *)
Definition frame (s s' : fw_state) : Prop :=
  g_cfg s' = g_cfg s
  /\ fw_api s' = fw_api s
  /\ fw_errno s' = fw_errno s
  /\ fw_event_handle s' = fw_event_handle s
  /\ fw_num_rules s' = fw_num_rules s
  /\ fw_have_ip2loc4 s' = fw_have_ip2loc4 s
  /\ fw_have_ip2loc6 s' = fw_have_ip2loc6 s
  /\ fw_module s' = fw_module s
  /\ fw_logged_on_user s' = fw_logged_on_user s
  /\ cleaned_up s' = cleaned_up s.

(** From [s] to [s'] calls were made and entries were put behind those of
    the two lists: one filter entry for each filter the engine was asked
    for, none of them for the filter 0, and one identity entry for each
    principal the account database was asked for, in that order. *)
Definition growth (s s' : fw_state) : Prop :=
  exists new_calls new_filters new_SIDs,
    calls s' = calls s ++ new_calls
    /\ fw_filter_list s' = fw_filter_list s ++ new_filters
    /\ fw_SID_list s' = fw_SID_list s ++ new_SIDs
    /\ map value new_filters = filter_calls new_calls
    /\ map sid_copy new_SIDs = account_calls new_calls
    /\ Forall (fun f => f <> 0) (filter_calls new_calls).

Definition history (s s' : fw_state) : Prop := frame s s' /\ growth s s'.

(** The states [st] and [st'] differ in [fw_errno] at most. *)
Definition same_but_errno (st st' : fw_state) : Prop :=
  set_fw_errno 0 st' = set_fw_errno 0 st.

(** A call that creates an enum handle, one that destroys one, and one that
    enumerates events. *)
Definition is_create_enum (c : engine_call) : bool :=
  match c with
  | Call_FwpmNetEventCreateEnumHandle0 _ => true
  | _ => false
  end.

Definition is_destroy_enum (c : engine_call) : bool :=
  match c with
  | Call_FwpmNetEventDestroyEnumHandle0 _ _ => true
  | _ => false
  end.

Definition is_enum (c : engine_call) : bool :=
  match c with
  | Call_FwpmNetEventEnum _ _ _ => true
  | _ => false
  end.

(** The event is a classify drop or a capability drop. *)
Definition is_drop (e : _FWPM_NET_EVENT) : bool :=
  (type e =? _FWPM_NET_EVENT_TYPE_CLASSIFY_DROP)
  || (type e =? _FWPM_NET_EVENT_TYPE_CAPABILITY_DROP).

Section SessionNotions.
Context {env : Environment}.

(** An entry point of a level below [api_level] is missing. *)
Definition lower_entry_missing (api_level : Z) : bool :=
  existsb (fun N => (N <? api_level) && is_NULL (p_FwpmNetEventSubscribe N)) [3; 2; 1; 0].

(** What the policy store answers to the call of [fw_enumerate_rules()] in
    the state [st]: the error code, [rule_count] and the rules. *)
Definition FWEnumFirewallRules_answer (st : fw_state) : Z * Z * list FW_RULE :=
  p_FWEnumFirewallRules (calls st) FW_RULE_STATUS_CLASS_ALL
    (if show_all (g_cfg st) then FW_PROFILE_TYPE_ALL else FW_PROFILE_TYPE_CURRENT)
    (Z.lor (Z.lor (Z.lor FW_ENUM_RULES_FLAG_RESOLVE_NAME
                         FW_ENUM_RULES_FLAG_RESOLVE_DESCRIPTION)
                  FW_ENUM_RULES_FLAG_RESOLVE_APPLICATION)
           FW_ENUM_RULES_FLAG_RESOLVE_KEYWORD).

(** The structure that the callback of level 2 and above passes for the
    type of the event is there. *)
Definition member_present (e : _FWPM_NET_EVENT) : bool :=
  event_present (type e)
    (classifyDrop e) (capabilityDrop e) (classifyAllow e) (capabilityAllow e).

End SessionNotions.

(** ** Notions for the program of an event and for what a cache entry holds *)

Section ContentNotions.
Context {env : Environment}.

(** The header has an application: the flag is set, and [appId] has data
    and a size. *)
Definition has_app_id (header : _FWPM_NET_EVENT_HEADER3) : bool :=
  flag_set (flags header) FWPM_NET_EVENT_FLAG_APP_ID_SET
  && negb (is_NULL (data (appId header)))
  && negb (size (appId header) =? 0).

(** The name of the application of the header: [appId] converted from its
    wide string, with the volume as a drive letter, and ["?"] when the
    conversion fails. *)
Definition app_name (header : _FWPM_NET_EVENT_HEADER3) : string :=
  let '(converted, buf) :=
    WideCharToMultiByte (data (appId header)) (size (appId header)) _MAX_PATH in
  if converted =? 0 then _strlcpy (Some "?") _MAX_PATH
  else _strlcpy (Some (volume_to_path buf)) _MAX_PATH.

(** The application of the header is on the list of excluded programs, by
    its base name or by its full name. *)
Definition on_program_list (header : _FWPM_NET_EVENT_HEADER3) : bool :=
  exclude_list_get (basename (app_name header)) EXCL_PROGRAM
  || exclude_list_get (app_name header) EXCL_PROGRAM.

(** The application of the header is the module [fw_module], by its full
    name or by its base name, whatever the case of the letters. *)
Definition is_fw_module (header : _FWPM_NET_EVENT_HEADER3) (st : fw_state) : bool :=
  (stricmp (fw_module st) (app_name header) =? 0)
  || (stricmp (fw_module st) (basename (app_name header)) =? 0).

(** The entry of a filter that is resolved after the calls [l]: the display
    name that the engine gives, converted, and ["?"] when the engine fails. *)
Definition resolved_filter (filter : Z) (l : list ext_call) : filter_entry :=
  let '(rc, display_name) := p_FwpmFilterGetById0 l filter in
  mk_filter_entry filter
    (if rc =? ERROR_SUCCESS
     then snd (WideCharToMultiByte (Some display_name) (-1) 50)
     else "?").

(** The account database has no account for the SID: the answer of the
    call that asks for the sizes. *)
Definition no_account_mapping (r : LookupAccountSid_result) : bool :=
  negb (las_rc r) && (las_last_error r =? ERROR_NONE_MAPPED)
  && (las_sid_use r =? SidTypeUnknown).

(** The sizes that are handed to the second call, given the answer of the
    first one. The size of the domain is compared with [MAX_ACCOUNT_SZ], so
    that a size from [MAX_DOMAIN_SZ + 1] to [MAX_ACCOUNT_SZ] is handed on
    as it is. *)
Definition account_size_passed (r : LookupAccountSid_result) : Z :=
  if las_account_sz r >? MAX_ACCOUNT_SZ then MAX_ACCOUNT_SZ else las_account_sz r.

Definition domain_size_passed (r : LookupAccountSid_result) : Z :=
  if las_domain_sz r >? MAX_ACCOUNT_SZ then MAX_DOMAIN_SZ else las_domain_sz r.

(** The answers of the account database to a resolution of [sid] that is
    made after the calls [l]: to the call that asks for the sizes, and to
    the call with the two arrays of a new entry. *)
Definition sizes_answer (sid : SID) (l : list ext_call) : LookupAccountSid_result :=
  LookupAccountSid (l ++ [Call_ConvertSidToStringSid sid]) sid None 0 0.

Definition names_answer (sid : SID) (l : list ext_call) : LookupAccountSid_result :=
  LookupAccountSid
    (l ++ [Call_ConvertSidToStringSid sid; Call_LookupAccountSid sid false]) sid
    (Some (SID_names "" ""))
    (account_size_passed (sizes_answer sid l)) (domain_size_passed (sizes_answer sid l)).

(** The entry of a SID that is resolved after the calls [l]: the SID, its
    string form, and either the string form as the account, without a
    domain, when the database has no account for the SID, or the two arrays
    as the second call leaves them, whether it succeeds or not. *)
Definition resolved_SID (sid : SID) (l : list ext_call) : SID_entry :=
  let sid_string := ConvertSidToStringSid l sid in
  if no_account_mapping (sizes_answer sid l)
  then mk_SID_entry sid sid_string "" (_strlcpy sid_string MAX_ACCOUNT_SZ)
  else mk_SID_entry sid sid_string
         (names_domain (las_names (names_answer sid l)))
         (names_account (las_names (names_answer sid l))).

Definition resolved (key : cache_key) (l : list ext_call) : cache_entry :=
  match key with
  | Filter_id filter => Filter_name (resolved_filter filter l)
  | Principal sid => Account (resolved_SID sid l)
  end.

(** The calls of a resolution of [key] that is made after the calls [l]. *)
Definition resolution_calls (key : cache_key) (l : list ext_call) : list ext_call :=
  match key with
  | Filter_id filter => [Call_FwpmFilterGetById0 filter]
  | Principal sid =>
      Call_ConvertSidToStringSid sid :: Call_LookupAccountSid sid false
      :: (if no_account_mapping (sizes_answer sid l) then []
          else [Call_LookupAccountSid sid true])
  end.

End ContentNotions.

(** The environment with another list of excluded addresses. *)
Definition with_address_list (listed : string -> bool) (env : Environment)
  : Environment := {|
  ERROR_SUCCESS := ERROR_SUCCESS (Environment := env);
  ERROR_INVALID_DATA := ERROR_INVALID_DATA (Environment := env);
  ERROR_BAD_COMMAND := ERROR_BAD_COMMAND (Environment := env);
  ERROR_NONE_MAPPED := ERROR_NONE_MAPPED (Environment := env);
  SidTypeUnknown := SidTypeUnknown (Environment := env);
  FWP_DIRECTION_OUTBOUND := FWP_DIRECTION_OUTBOUND (Environment := env);
  FWP_DIRECTION_INBOUND := FWP_DIRECTION_INBOUND (Environment := env);
  FWP_IP_VERSION_V4 := FWP_IP_VERSION_V4 (Environment := env);
  FWP_IP_VERSION_V6 := FWP_IP_VERSION_V6 (Environment := env);
  IPPROTO_TCP := IPPROTO_TCP (Environment := env);
  IPPROTO_UDP := IPPROTO_UDP (Environment := env);
  _MAX_PATH := _MAX_PATH (Environment := env);
  exclude_list_get := fun s t =>
    match t with
    | EXCL_PROGRAM => exclude_list_get (Environment := env) s EXCL_PROGRAM
    | EXCL_ADDRESS => listed s
    end;
  basename := basename (Environment := env);
  _strlcpy := _strlcpy (Environment := env);
  geoip_get_country_by_ipv4 := geoip_get_country_by_ipv4 (Environment := env);
  geoip_get_country_by_ipv6 := geoip_get_country_by_ipv6 (Environment := env);
  geoip_get_long_name_by_A2 := geoip_get_long_name_by_A2 (Environment := env);
  geoip_get_location_by_ipv4 := geoip_get_location_by_ipv4 (Environment := env);
  geoip_get_location_by_ipv6 := geoip_get_location_by_ipv6 (Environment := env);
  getservbyport := getservbyport (Environment := env);
  WideCharToMultiByte := WideCharToMultiByte (Environment := env);
  inet_ntop4 := inet_ntop4 (Environment := env);
  inet_ntop6 := inet_ntop6 (Environment := env);
  p_FwpmNetEventSubscribe := p_FwpmNetEventSubscribe (Environment := env);
  p_FwpmFilterGetById0 := p_FwpmFilterGetById0 (Environment := env);
  p_FwpmLayerGetById0 := p_FwpmLayerGetById0 (Environment := env);
  ConvertSidToStringSid := ConvertSidToStringSid (Environment := env);
  LookupAccountSid := LookupAccountSid (Environment := env);
  p_FWEnumFirewallRules := p_FWEnumFirewallRules (Environment := env)
|}.

(** The state without the text: [fw_buf] and what [trace_puts()] has
    received are cleared, all the rest is kept. *)
Definition without_text (st : fw_state) : fw_state :=
  set_trace_out [] (set_fw_buf [] st).

(** Two states that differ in [fw_buf] and in the text written at most are
    brought to the same variables. *)
Ltac same_but_text H :=
  match type of H with
  | without_text ?s1 = without_text ?s2 =>
      destruct s1, s2; unfold without_text, set_trace_out, set_fw_buf in H;
      cbn in H; injection H as; intros; subst
  end.

(** The rule with another [Status]. *)
Definition set_Status (v : Z) (rule : FW_RULE) : FW_RULE :=
  mk_FW_RULE (wszName rule) (wszDescription rule) (Direction rule)
    (wszLocalApplication rule) (wszEmbeddedContext rule) v.

(** ** A concrete environment, and concrete events *)

Fixpoint narrow (w : wstring) : string :=
  match w with
  | [] => EmptyString
  | c :: rest => String (ascii_of_nat (Z.to_nat c)) (narrow rest)
  end.

Definition made_filter_call (c : ext_call) : bool :=
  match c with
  | Call_FwpmFilterGetById0 _ => true
  | _ => false
  end.

Definition rule_ok : FW_RULE :=
  mk_FW_RULE (Some [119; 101; 98]) (Some [97; 108; 108; 111; 119]) FW_DIR_IN None None
    FW_RULE_STATUS_OK.

(** A rule with status [FW_RULE_STATUS_SEMANTIC_ERROR_PORTS]. *)
Definition rule_semantic_error : FW_RULE :=
  mk_FW_RULE (Some [98; 97; 100]) None FW_DIR_OUT None None 0x00100020.

(** An engine that has the entry point of level 0 only, resolves a filter
    name the first time it is asked and never again, has no string form for
    the empty SID, and maps every SID to the account DOMAIN\alice. *)
Definition sample_env : Environment := {|
  ERROR_SUCCESS := 0;
  ERROR_INVALID_DATA := 13;
  ERROR_BAD_COMMAND := 22;
  ERROR_NONE_MAPPED := 1332;
  SidTypeUnknown := 8;
  FWP_DIRECTION_OUTBOUND := 0;
  FWP_DIRECTION_INBOUND := 1;
  FWP_IP_VERSION_V4 := 0;
  FWP_IP_VERSION_V6 := 1;
  IPPROTO_TCP := 6;
  IPPROTO_UDP := 17;
  _MAX_PATH := 260;
  exclude_list_get := fun s t =>
    match t with
    | EXCL_PROGRAM => String.eqb s "excluded.exe"
    | EXCL_ADDRESS => false
    end;
  basename := fun s => s;
  _strlcpy := fun src n =>
    match src with
    | Some s => substring 0 (Z.to_nat (n - 1)) s
    | None => EmptyString
    end;
  geoip_get_country_by_ipv4 := fun _ => None;
  geoip_get_country_by_ipv6 := fun _ => None;
  geoip_get_long_name_by_A2 := fun a2 => a2;
  geoip_get_location_by_ipv4 := fun _ => None;
  geoip_get_location_by_ipv6 := fun _ => None;
  getservbyport := fun _ _ => None;
  WideCharToMultiByte := fun w _ _ =>
    match w with
    | Some l => (Z.of_nat (List.length l), narrow l)
    | None => (0, EmptyString)
    end;
  inet_ntop4 := fun _ => "10.0.0.1";
  inet_ntop6 := fun _ => "::1";
  p_FwpmNetEventSubscribe := fun N =>
    if N =? 0 then Some (fun _ _ => (0, Some 1)) else None;
  p_FwpmFilterGetById0 := fun l _ =>
    if existsb made_filter_call l then (5, []) else (0, [119; 101; 98]);
  p_FwpmLayerGetById0 := fun _ _ => (5, []);
  ConvertSidToStringSid := fun _ sid =>
    match sid with
    | [] => None
    | _ :: _ => Some "S-1-5-21"
    end;
  LookupAccountSid := fun _ _ bufs _ _ =>
    match bufs with
    | None => mk_LookupAccountSid_result false EmptyString 6 7 1 122
    | Some _ => mk_LookupAccountSid_result true (SID_names "DOMAIN" "alice") 6 7 1 0
    end;
  p_FWEnumFirewallRules := fun _ _ _ _ => (0, 2, [rule_ok; rule_semantic_error])
|}.

(** [sample_env] with other entry points for the subscription, another
    answer to [FwpmFilterGetById0()] and another batch of rules. *)
Definition sample_env_with
    (subscribe : Z -> option (list ext_call -> option Z -> Z * option Z))
    (filter_by_id : list ext_call -> Z -> Z * wstring)
    (enum_rules : list ext_call -> Z -> Z -> Z -> Z * Z * list FW_RULE)
  : Environment := {|
  ERROR_SUCCESS := ERROR_SUCCESS (Environment := sample_env);
  ERROR_INVALID_DATA := ERROR_INVALID_DATA (Environment := sample_env);
  ERROR_BAD_COMMAND := ERROR_BAD_COMMAND (Environment := sample_env);
  ERROR_NONE_MAPPED := ERROR_NONE_MAPPED (Environment := sample_env);
  SidTypeUnknown := SidTypeUnknown (Environment := sample_env);
  FWP_DIRECTION_OUTBOUND := FWP_DIRECTION_OUTBOUND (Environment := sample_env);
  FWP_DIRECTION_INBOUND := FWP_DIRECTION_INBOUND (Environment := sample_env);
  FWP_IP_VERSION_V4 := FWP_IP_VERSION_V4 (Environment := sample_env);
  FWP_IP_VERSION_V6 := FWP_IP_VERSION_V6 (Environment := sample_env);
  IPPROTO_TCP := IPPROTO_TCP (Environment := sample_env);
  IPPROTO_UDP := IPPROTO_UDP (Environment := sample_env);
  _MAX_PATH := _MAX_PATH (Environment := sample_env);
  exclude_list_get := exclude_list_get (Environment := sample_env);
  basename := basename (Environment := sample_env);
  _strlcpy := _strlcpy (Environment := sample_env);
  geoip_get_country_by_ipv4 := geoip_get_country_by_ipv4 (Environment := sample_env);
  geoip_get_country_by_ipv6 := geoip_get_country_by_ipv6 (Environment := sample_env);
  geoip_get_long_name_by_A2 := geoip_get_long_name_by_A2 (Environment := sample_env);
  geoip_get_location_by_ipv4 := geoip_get_location_by_ipv4 (Environment := sample_env);
  geoip_get_location_by_ipv6 := geoip_get_location_by_ipv6 (Environment := sample_env);
  getservbyport := getservbyport (Environment := sample_env);
  WideCharToMultiByte := WideCharToMultiByte (Environment := sample_env);
  inet_ntop4 := inet_ntop4 (Environment := sample_env);
  inet_ntop6 := inet_ntop6 (Environment := sample_env);
  p_FwpmNetEventSubscribe := subscribe;
  p_FwpmFilterGetById0 := filter_by_id;
  p_FwpmLayerGetById0 := p_FwpmLayerGetById0 (Environment := sample_env);
  ConvertSidToStringSid := ConvertSidToStringSid (Environment := sample_env);
  LookupAccountSid := LookupAccountSid (Environment := sample_env);
  p_FWEnumFirewallRules := enum_rules
|}.




(** An engine whose entry points of the levels 1 to 4 all fail with the
    error 5, and which has none for the level 0. *)
Definition failing_env : Environment :=
  sample_env_with
    (fun N => if N =? 0 then None else Some (fun _ _ => (5, None)))
    (p_FwpmFilterGetById0 (Environment := sample_env))
    (p_FWEnumFirewallRules (Environment := sample_env)).

(** A policy store that returns two rules and the count 1. *)
Definition short_count_env : Environment :=
  sample_env_with
    (p_FwpmNetEventSubscribe (Environment := sample_env))
    (p_FwpmFilterGetById0 (Environment := sample_env))
    (fun _ _ _ _ => (0, 1, [rule_ok; rule_semantic_error])).

(** The state after [fw_init()] for a configuration and an API level, with
    alice logged on. *)
Definition sample_state (cfg : firewall_config) (api : Z) : fw_state :=
  mk_fw_state cfg api 0 None 0 0 0 false false "monitor.exe" "alice" [] [] [] []
    false [].

Definition no_blob : FWP_BYTE_BLOB := mk_blob 0 None.

(** A header with the given flags and IP version, and nothing else. *)
Definition sample_header (header_flags version : Z) : _FWPM_NET_EVENT_HEADER3 :=
  mk_header 0 header_flags version 6 0 [] 0 [] 0 0 0 no_blob None None no_blob.

(** A header with an application, a user and a package. *)
Definition full_header (header_flags : Z) (app : wstring) (user package : option SID)
  : _FWPM_NET_EVENT_HEADER3 :=
  mk_header 0 header_flags 0 6 0 [] 0 [] 0 0 0
    (mk_blob (Z.of_nat (List.length app)) (Some app)) user package no_blob.

(** A classify event without filter, layer or direction. *)
Definition sample_classify : _FWPM_NET_EVENT_CLASSIFY := mk_classify 0 0 0 0.

(** The wide string of excluded.exe, the program that [sample_env] has on
    its exclusion list, and the one of other.exe. *)
Definition excluded_exe : wstring :=
  [101; 120; 99; 108; 117; 100; 101; 100; 46; 101; 120; 101].
Definition other_exe : wstring := [111; 116; 104; 101; 114; 46; 101; 120; 101].

(** Configurations: the usual one, with [show_user] and without
    [show_all]; one with [show_all]; and one with [show_all] that does not
    show IPv6. *)
Definition cfg_usual : firewall_config := mk_firewall_config true true false true.
Definition cfg_show_all : firewall_config := mk_firewall_config true true true true.
Definition cfg_no_ipv6 : firewall_config := mk_firewall_config true false true true.

(** The SID of a user, and a SID for which [sample_env] has no string. *)
Definition alice_sid : SID := [1; 5; 21].
Definition odd_sid : SID := [].

(** Headers: one for IPv6 with the version flag alone; one with nothing;
    one with alice as the user; one with other.exe and alice; and one with
    excluded.exe, alice and the package [odd_sid]. *)
Definition header_ipv6 : _FWPM_NET_EVENT_HEADER3 :=
  sample_header FWPM_NET_EVENT_FLAG_IP_VERSION_SET 1.
Definition header_bare : _FWPM_NET_EVENT_HEADER3 := sample_header 0 0.
Definition header_alice : _FWPM_NET_EVENT_HEADER3 :=
  full_header FWPM_NET_EVENT_FLAG_USER_ID_SET [] (Some alice_sid) None.
Definition header_other_alice : _FWPM_NET_EVENT_HEADER3 :=
  full_header (Z.lor FWPM_NET_EVENT_FLAG_APP_ID_SET FWPM_NET_EVENT_FLAG_USER_ID_SET)
    other_exe (Some alice_sid) None.
Definition header_all_three : _FWPM_NET_EVENT_HEADER3 :=
  full_header
    (Z.lor (Z.lor FWPM_NET_EVENT_FLAG_APP_ID_SET FWPM_NET_EVENT_FLAG_USER_ID_SET)
           FWPM_NET_EVENT_FLAG_PACKAGE_ID_SET)
    excluded_exe (Some alice_sid) (Some odd_sid).

(** A header for IPv4 with a local and a remote address. *)
Definition header_addresses : _FWPM_NET_EVENT_HEADER3 :=
  sample_header
    (Z.lor (Z.lor FWPM_NET_EVENT_FLAG_IP_VERSION_SET FWPM_NET_EVENT_FLAG_LOCAL_ADDR_SET)
           FWPM_NET_EVENT_FLAG_REMOTE_ADDR_SET) 0.

(** A header for IPv4 with alice as the user, a local and a remote
    address. *)
Definition header_alice_addresses : _FWPM_NET_EVENT_HEADER3 :=
  full_header
    (Z.lor (Z.lor (Z.lor FWPM_NET_EVENT_FLAG_USER_ID_SET
                         FWPM_NET_EVENT_FLAG_IP_VERSION_SET)
                  FWPM_NET_EVENT_FLAG_LOCAL_ADDR_SET)
           FWPM_NET_EVENT_FLAG_REMOTE_ADDR_SET)
    [] (Some alice_sid) None.


(** A policy store that returns the one rule [rule]. *)
Definition one_rule_env (rule : FW_RULE) : Environment :=
  sample_env_with
    (p_FwpmNetEventSubscribe (Environment := sample_env))
    (p_FwpmFilterGetById0 (Environment := sample_env))
    (fun _ _ _ _ => (0, 1, [rule])).

(** The callback of [sample_env] on a classify drop event. *)
Definition classify_drop_callback (header : _FWPM_NET_EVENT_HEADER3) (st : fw_state)
  : option fw_state :=
  fw_event_callback (env := sample_env) _FWPM_NET_EVENT_TYPE_CLASSIFY_DROP header
    (Some sample_classify) None None None st.

(** The state that a callback returns, or [st] itself after a fault. *)
Definition state_after (st : fw_state) (result : option fw_state) : fw_state :=
  match result with
  | Some st' => st'
  | None => st
  end.

(** The entry that [sample_env] makes for alice. *)
Definition alice_entry : SID_entry :=
  mk_SID_entry alice_sid (Some "S-1-5-21")
    (char_array MAX_DOMAIN_SZ "DOMAIN") (char_array MAX_ACCOUNT_SZ "alice").

(** A run on fresh caches: a lookup of alice, then, after a lookup of the
    filter 7, an event and a lookup of another filter. *)
Definition ops_before : list monitor_op := [Op_lookup (Principal alice_sid)].
Definition ops_after : list monitor_op :=
  [Op_event _FWPM_NET_EVENT_TYPE_CLASSIFY_DROP header_other_alice
     (Some (mk_classify 9 0 0 1)) None None None;
   Op_lookup (Filter_id 8)].
Definition state_before : fw_state :=
  state_after (sample_state cfg_usual 3)
    (run_ops (env := sample_env) ops_before (sample_state cfg_usual 3)).
Definition state_end : fw_state :=
  state_after state_before
    (run_ops (env := sample_env) ops_after
       (snd (lookup_or_resolve (env := sample_env) (Filter_id 7) state_before))).

(** A longer run from the state after [fw_init()]: the lookups and the
    event of [ops_before] and [ops_after], with a lookup of the filter 7 in
    between and an event for IPv6 at the end, which [cfg_no_ipv6] does not
    show. *)
Definition run_sample : list monitor_op :=
  ops_before ++ Op_lookup (Filter_id 7) :: ops_after
  ++ [Op_event _FWPM_NET_EVENT_TYPE_CLASSIFY_DROP header_ipv6
        (Some sample_classify) None None None].
(** Events as the engine hands them over: a classify drop and a classify
    allow, each with its structure, and an event of a type that is not
    decoded. *)
Definition drop_event : _FWPM_NET_EVENT :=
  mk_net_event _FWPM_NET_EVENT_TYPE_CLASSIFY_DROP header_bare
    (Some sample_classify) None None None.
Definition allow_event : _FWPM_NET_EVENT :=
  mk_net_event _FWPM_NET_EVENT_TYPE_CLASSIFY_ALLOW header_bare
    None None (Some sample_classify) None.
Definition ipsec_event : _FWPM_NET_EVENT :=
  mk_net_event _FWPM_NET_EVENT_TYPE_IPSEC_KERNEL_DROP header_bare None None None None.

(** A session in which every call succeeds: the engine handle is 100, an
    enum handle is 200, and only the level 0 has an entry point for the
    enumeration, which gives the events of [entries]. *)
Definition sample_engine (entries : list _FWPM_NET_EVENT) : EngineEnvironment := {|
  ERROR_FUNCTION_FAILED := 1627;
  FWPM_ENGINE_COLLECT_NET_EVENTS := 0;
  FWPM_ENGINE_NET_EVENT_MATCH_ANY_KEYWORDS := 1;
  FWPM_NET_EVENT_KEYWORD_INBOUND_MCAST := 1;
  FWPM_NET_EVENT_KEYWORD_INBOUND_BCAST := 2;
  ws_sema_inherited := false;
  sizes_agree := true;
  p_FwpmEngineOpen0 := Some (fun _ => (0, Some 100));
  p_FwpmEngineSetOption0 := Some (fun _ _ _ _ => 0);
  p_FwpmNetEventUnsubscribe0 := true;
  p_FwpmEngineClose0 := true;
  p_FwpmNetEventCreateEnumHandle0 := Some (fun _ _ => (0, Some 200));
  p_FwpmNetEventDestroyEnumHandle0 := true;
  p_FwpmFreeMemory0 := true;
  p_FwpmNetEventEnum := fun N =>
    if N =? 0 then Some (fun _ _ _ => (0, Some entries)) else None
|}.

(** The session after [fw_init()]: the policy store is open, the engine is
    not; and the session before [fw_init()]. *)
Definition sample_session (cfg : firewall_config) (api : Z) : fw_engine_state :=
  mk_fw_engine_state (sample_state cfg api) (Some 300) None [].
Definition no_session (cfg : firewall_config) (api : Z) : fw_engine_state :=
  mk_fw_engine_state (sample_state cfg api) None None [].

(** Stored events. *)
Definition stored_events : list _FWPM_NET_EVENT :=
  [drop_event; allow_event; ipsec_event; drop_event].

(** The session after [fw_monitor_start()] at the level 0, and the one
    after [fw_dump_events()] at that level. *)
Definition started_session : fw_engine_state :=
  snd (fw_monitor_start (env := sample_env) (engine := sample_engine [])
         (sample_session cfg_usual 0)).
Definition dumped_session : fw_engine_state :=
  match fw_dump_events (env := sample_env) (engine := sample_engine stored_events)
          (sample_session cfg_usual 0) with
  | Some (_, es) => es
  | None => sample_session cfg_usual 0
  end.

(** A state in which an earlier call has left an item in [fw_buf], and the
    state after a classify drop event of other.exe in it. *)
Definition stale_state : fw_state := fw_buf_add Buf_newline (sample_state cfg_show_all 3).
Definition stale_state_after : fw_state :=
  state_after stale_state (classify_drop_callback header_other_alice stale_state).

Definition run_start : fw_state := sample_state cfg_no_ipv6 3.
Definition run_end : fw_state :=
  state_after run_start (run_ops (env := sample_env) run_sample run_start).

(** ** Properties *)

Section Properties.
Context {env : Environment}.

(** *** Subscription *)

(** [SET_API_CALLBACK (N)] does nothing for a level above [api_level]. *)
Lemma SET_API_CALLBACK_above : forall N api_level st,
  api_level < N -> SET_API_CALLBACK N api_level st = Continue st.
Proof.
  intros N api_level st Hlt. unfold SET_API_CALLBACK.
  assert (Hne : (api_level =? N) = false) by (apply Z.eqb_neq; lia).
  assert (Hge : (api_level >=? N) = false)
    by (rewrite Z.geb_leb; apply Z.leb_gt; lia).
  rewrite Hne, Hge. destruct (p_FwpmNetEventSubscribe N); reflexivity.
Qed.

(** Below [api_level] it makes no call: it stops with [ERROR_BAD_COMMAND]
    when the entry point is missing and goes on otherwise. *)
Lemma SET_API_CALLBACK_below : forall N api_level st,
  N < api_level ->
  SET_API_CALLBACK N api_level st =
    match p_FwpmNetEventSubscribe N with
    | None => Return false (set_fw_errno ERROR_BAD_COMMAND st)
    | Some _ => Continue st
    end.
Proof.
  intros N api_level st Hlt. unfold SET_API_CALLBACK.
  assert (Hne : (api_level =? N) = false) by (apply Z.eqb_neq; lia).
  assert (Hge : (api_level >=? N) = true)
    by (rewrite Z.geb_leb; apply Z.leb_le; lia).
  rewrite Hne, Hge. destruct (p_FwpmNetEventSubscribe N); reflexivity.
Qed.

(** Whatever the entry points are, a call is made for the level [fw_api]
    alone: when that entry point is missing the function fails at once. *)
Lemma fw_monitor_subscribe_missing_entry : forall st,
  FW_API_LOW <= fw_api st <= FW_API_HIGH ->
  p_FwpmNetEventSubscribe (fw_api st) = None ->
  fw_monitor_subscribe st = (false, set_fw_errno ERROR_BAD_COMMAND st).
Proof.
  intros st [Hlo Hhi] Hnone. unfold fw_monitor_subscribe, FW_API_LOW, FW_API_HIGH in *.
  assert (H1 : (fw_api st <? 0) = false) by (apply Z.ltb_ge; lia).
  assert (H2 : (fw_api st >? 4) = false) by (rewrite Z.gtb_ltb; apply Z.ltb_ge; lia).
  rewrite H1, H2. cbn [orb].
  assert (Hcase : fw_api st = 4 \/ fw_api st = 3 \/ fw_api st = 2
                  \/ fw_api st = 1 \/ fw_api st = 0) by lia.
  assert (Hat : SET_API_CALLBACK (fw_api st) (fw_api st) st
                = Return false (set_fw_errno ERROR_BAD_COMMAND st)).
  { unfold SET_API_CALLBACK. rewrite Hnone.
    assert (Hge : (fw_api st >=? fw_api st) = true)
      by (rewrite Z.geb_leb; apply Z.leb_refl).
    rewrite Hge. reflexivity. }
  destruct Hcase as [E | [E | [E | [E | E]]]]; rewrite E in Hat |- *;
    repeat (rewrite SET_API_CALLBACK_above by lia; cbn [and_then]);
    rewrite Hat; reflexivity.
Qed.

(** [SET_API_CALLBACK (N)] at the level [api_level] itself. *)
Lemma SET_API_CALLBACK_at : forall N st,
  SET_API_CALLBACK N N st =
    match p_FwpmNetEventSubscribe N with
    | None => Return false (set_fw_errno ERROR_BAD_COMMAND st)
    | Some subscribe =>
        let st1 := log_call (Call_FwpmNetEventSubscribe N)
                     (set_fw_event_handle (snd (subscribe (calls st) (fw_event_handle st)))
                        (set_fw_errno (fst (subscribe (calls st) (fw_event_handle st))) st)) in
        if fst (subscribe (calls st) (fw_event_handle st)) =? ERROR_SUCCESS
        then Return true st1 else Continue st1
    end.
Proof.
  intros N st. unfold SET_API_CALLBACK. rewrite Z.eqb_refl.
  assert (Hge : (N >=? N) = true) by (rewrite Z.geb_leb; apply Z.leb_refl).
  rewrite Hge.
  destruct (p_FwpmNetEventSubscribe N) as [subscribe |]; [| reflexivity].
  destruct (subscribe (calls st) (fw_event_handle st)) as [rc handle]. cbn [fst snd].
  destruct (rc =? ERROR_SUCCESS); reflexivity.
Qed.

(** The only entry point that [fw_monitor_subscribe()] ever calls is the one
    of the level [fw_api], and it calls it once at most. *)
Lemma fw_monitor_subscribe_one_level : forall st,
  calls (snd (fw_monitor_subscribe st)) = calls st
  \/ calls (snd (fw_monitor_subscribe st))
     = calls st ++ [Call_FwpmNetEventSubscribe (fw_api st)].
Proof.
  intro st. unfold fw_monitor_subscribe.
  destruct ((fw_api st <? FW_API_LOW) || (fw_api st >? FW_API_HIGH)) eqn:Hrange;
    [left; reflexivity |].
  apply orb_false_iff in Hrange. destruct Hrange as [Hlo Hhi].
  apply Z.ltb_ge in Hlo. rewrite Z.gtb_ltb in Hhi. apply Z.ltb_ge in Hhi.
  unfold FW_API_LOW, FW_API_HIGH in *.
  assert (Hcase : fw_api st = 4 \/ fw_api st = 3 \/ fw_api st = 2
                  \/ fw_api st = 1 \/ fw_api st = 0) by lia.
  destruct Hcase as [E | [E | [E | [E | E]]]]; rewrite E;
    repeat (rewrite SET_API_CALLBACK_above by lia; cbn [and_then]);
    rewrite SET_API_CALLBACK_at;
    (destruct (p_FwpmNetEventSubscribe (fw_api st)) as [subscribe |] eqn:Hp;
     rewrite E in Hp; rewrite Hp; cbn [and_then snd]; [| left; reflexivity]);
    cbv zeta;
    (destruct (_ =? ERROR_SUCCESS); cbn [and_then snd]; [right; reflexivity |]);
    repeat (rewrite SET_API_CALLBACK_below by lia;
            match goal with
            | |- context [p_FwpmNetEventSubscribe ?n] =>
                destruct (p_FwpmNetEventSubscribe n); cbn [and_then snd]
            end;
            try (right; reflexivity));
    right; reflexivity.
Qed.

(** *** The filter-name cache: the reserved filter *)

(** C9: a lookup of the filter id 0 gives the fixed entry [null_filter] and
    leaves the state as it is: no call is logged and no entry is added. *)
Theorem lookup_or_add_filter_zero : forall st,
  lookup_or_add_filter 0 st = (null_filter, st)
  /\ value null_filter = 0 /\ name null_filter = "NULL".
Proof.
  intro st. repeat split.
Qed.

(** *** The decoder: the IP version test *)

Lemma flag_set_true : forall x mask,
  Z.land x mask <> 0 -> flag_set x mask = true.
Proof.
  intros x mask Hne. unfold flag_set.
  apply Z.eqb_neq in Hne. rewrite Hne. reflexivity.
Qed.

(** C4: an event whose header has the IP version flag and an IP version
    that the configuration does not show is counted as ignored at once: the
    callback returns with [fw_num_ignored] one higher, and [fw_num_events],
    both caches, the calls made and the output are as they were. *)
Theorem fw_event_callback_ip_version_ignored :
  forall event_type header d1 d2 a1 a2 st,
    Z.land (flags header) FWPM_NET_EVENT_FLAG_IP_VERSION_SET <> 0 ->
    (ipVersion header = FWP_IP_VERSION_V4 /\ show_ipv4 (g_cfg st) = false)
    \/ (ipVersion header = FWP_IP_VERSION_V6 /\ show_ipv6 (g_cfg st) = false) ->
    exists st',
      fw_event_callback event_type header d1 d2 a1 a2 st = Some st'
      /\ fw_num_ignored st' = DWORD_inc (fw_num_ignored st)
      /\ fw_num_events st' = fw_num_events st
      /\ fw_SID_list st' = fw_SID_list st
      /\ fw_filter_list st' = fw_filter_list st
      /\ calls st' = calls st
      /\ trace_out st' = trace_out st.
Proof.
  intros event_type header d1 d2 a1 a2 st Hflag Hver.
  assert (Hgate : ip_version_ignored header (fw_buf_reset st) = true).
  { unfold ip_version_ignored. rewrite (flag_set_true _ _ Hflag). cbn.
    destruct Hver as [[Hv Hs] | [Hv Hs]]; rewrite Hv, Hs, Z.eqb_refl; cbn.
    - reflexivity.
    - apply orb_true_r. }
  eexists. unfold fw_event_callback. rewrite Hgate.
  split; [reflexivity | repeat split].
Qed.

(** *** The decoder: the direction of a classify event *)


(** *** The two caches *)

Lemma find_app_Some : forall (A : Type) (f : A -> bool) l l' x,
  find f l = Some x -> find f (l ++ l') = Some x.
Proof.
  intros A f l l' x. induction l as [| a l IH]; cbn; [discriminate |].
  destruct (f a); auto.
Qed.

Lemma find_app_None : forall (A : Type) (f : A -> bool) l l',
  find f l = None -> find f (l ++ l') = find f l'.
Proof.
  intros A f l l'. induction l as [| a l IH]; cbn; [reflexivity |].
  destruct (f a); [discriminate | auto].
Qed.

Lemma EqualSid_refl : forall sid, EqualSid sid sid = true.
Proof.
  intro sid. unfold EqualSid. destruct (list_eq_dec Z.eq_dec sid sid); congruence.
Qed.

Lemma EqualSid_true : forall a b, EqualSid a b = true -> a = b.
Proof.
  intros a b. unfold EqualSid. destruct (list_eq_dec Z.eq_dec a b); congruence.
Qed.

Lemma resolution_attempts_app : forall key l l',
  resolution_attempts key (l ++ l')
  = (resolution_attempts key l + resolution_attempts key l')%nat.
Proof.
  intros key l l'. unfold resolution_attempts.
  rewrite filter_app, length_app. reflexivity.
Qed.

Lemma keeps_refl : forall s, keeps s s.
Proof.
  intro s. repeat split. exists []. rewrite app_nil_r. reflexivity.
Qed.

Lemma keeps_trans : forall s1 s2 s3, keeps s1 s2 -> keeps s2 s3 -> keeps s1 s3.
Proof.
  intros s1 s2 s3 (A1 & A2 & A3 & A4 & A5 & A6 & l1 & A7)
    (B1 & B2 & B3 & B4 & B5 & B6 & l2 & B7).
  repeat split; try congruence.
  exists (l1 ++ l2). rewrite B7, A7, app_assoc. reflexivity.
Qed.

Lemma cache_grows_refl : forall s, cache_grows s s.
Proof. intro s. split; auto. Qed.

Lemma cache_grows_trans : forall s1 s2 s3,
  cache_grows s1 s2 -> cache_grows s2 s3 -> cache_grows s1 s3.
Proof.
  intros s1 s2 s3 [A1 A2] [B1 B2]. split; auto.
Qed.

Lemma ok_refl : forall s, ok s s.
Proof. intro s. split; [apply keeps_refl | apply cache_grows_refl]. Qed.

Lemma ok_trans : forall s1 s2 s3, ok s1 s2 -> ok s2 s3 -> ok s1 s3.
Proof.
  intros s1 s2 s3 [A1 A2] [B1 B2].
  split; [eapply keeps_trans | eapply cache_grows_trans]; eauto.
Qed.

(** A step that leaves both lists alone and starts no resolution. *)
Lemma cache_grows_quiet : forall s s',
  fw_SID_list s' = fw_SID_list s ->
  fw_filter_list s' = fw_filter_list s ->
  (forall key, resolution_attempts key (calls s') = resolution_attempts key (calls s)) ->
  cache_grows s s'.
Proof.
  intros s s' Hsid Hfil Hatt.
  assert (Hc : forall key, cached key s' = cached key s).
  { intros [k | sid]; cbn; unfold cached_filter, cached_SID; congruence. }
  split.
  - intros key e. rewrite Hc. auto.
  - intros Hinv key. rewrite Hatt, Hc. apply Hinv.
Qed.

Lemma ok_fw_buf_add : forall item s, ok s (fw_buf_add item s).
Proof.
  intros item s. split.
  - repeat split. exists [item]. reflexivity.
  - apply cache_grows_quiet; reflexivity.
Qed.

Lemma calls_log_call : forall c s, calls (log_call c s) = calls s ++ [c].
Proof. reflexivity. Qed.

Lemma ok_log_layer : forall id s, ok s (log_call (Call_FwpmLayerGetById0 id) s).
Proof.
  intros id s. split.
  - repeat split. exists []. cbn. rewrite app_nil_r. reflexivity.
  - apply cache_grows_quiet; try reflexivity.
    intro key. rewrite calls_log_call, resolution_attempts_app.
    destruct key; cbn; lia.
Qed.

(** A lookup that hits returns the entry and changes nothing. *)
Lemma lookup_or_add_filter_hit : forall filter fe st,
  cached_filter filter st = Some fe ->
  filter <> 0 ->
  lookup_or_add_filter filter st = (fe, st).
Proof.
  intros filter fe st Hc Hnz. unfold lookup_or_add_filter.
  apply Z.eqb_neq in Hnz. rewrite Hnz.
  unfold cached_filter in Hc. rewrite Hc. reflexivity.
Qed.

Lemma lookup_or_add_SID_hit : forall sid se st,
  cached_SID sid st = Some se ->
  lookup_or_add_SID sid st = (se, st).
Proof.
  intros sid se st Hc. unfold lookup_or_add_SID.
  unfold cached_SID in Hc. rewrite Hc. reflexivity.
Qed.

(** After a lookup of a filter other than 0 its entry is in the cache. *)
Lemma lookup_or_add_filter_cached : forall filter st fe st',
  lookup_or_add_filter filter st = (fe, st') ->
  filter <> 0 ->
  cached_filter filter st' = Some fe.
Proof.
  intros filter st fe st' Hl Hnz. unfold lookup_or_add_filter in Hl.
  apply Z.eqb_neq in Hnz. rewrite Hnz in Hl.
  destruct (find _ (fw_filter_list st)) as [fe0 |] eqn:Hf.
  - inversion Hl; subst. exact Hf.
  - destruct (p_FwpmFilterGetById0 (calls st) filter) as [rc display_name].
    inversion Hl; subst. unfold cached_filter. cbn.
    rewrite find_app_None by exact Hf. cbn. rewrite Z.eqb_refl. reflexivity.
Qed.

Lemma lookup_or_add_SID_cached : forall sid st se st',
  lookup_or_add_SID sid st = (se, st') ->
  cached_SID sid st' = Some se.
Proof.
  intros sid st se st' Hl. unfold lookup_or_add_SID in Hl.
  destruct (find _ (fw_SID_list st)) as [se0 |] eqn:Hf.
  - inversion Hl; subst. exact Hf.
  - destruct (lookup_account_SID _ _ _ _ _) as [[[rc acc] dom] st2] eqn:Ha.
    inversion Hl; subst. unfold cached_SID. cbn.
    assert (Hlist : fw_SID_list st2 = fw_SID_list st).
    { unfold lookup_account_SID in Ha.
      destruct (_ && _) in Ha; inversion Ha; reflexivity. }
    rewrite Hlist, find_app_None by exact Hf. cbn. rewrite EqualSid_refl. reflexivity.
Qed.

(** A step that only adds entries keeps [cache_inv] when every resolution
    it starts is for a key that had no entry and has one afterwards. *)
Lemma cache_inv_step : forall s s',
  (forall key e, cached key s = Some e -> cached key s' = Some e) ->
  (forall key,
      resolution_attempts key (calls s') = resolution_attempts key (calls s)
      \/ (resolution_attempts key (calls s') = S (resolution_attempts key (calls s))
          /\ cached key s = None /\ cached key s' <> None)) ->
  cache_inv s -> cache_inv s'.
Proof.
  intros s s' Hkeep Hcalls Hinv key.
  destruct (Hinv key) as [Hle Hhas].
  destruct (Hcalls key) as [Heq | (Heq & Hnone & Hsome)]; rewrite Heq.
  - split; [exact Hle |]. intro Hge.
    destruct (cached key s) as [e |] eqn:Hc.
    + rewrite (Hkeep key e Hc). discriminate.
    + exfalso. apply (Hhas Hge). reflexivity.
  - split; [| intros _; exact Hsome].
    destruct (resolution_attempts key (calls s)) as [| n]; [lia |].
    exfalso. apply Hhas; [lia | exact Hnone].
Qed.

Lemma lookup_or_add_filter_ok : forall filter s fe s',
  lookup_or_add_filter filter s = (fe, s') -> ok s s'.
Proof.
  intros filter s fe s' Hl. unfold lookup_or_add_filter in Hl.
  destruct (filter =? 0) eqn:Hz; [inversion Hl; subst; apply ok_refl |].
  destruct (find _ (fw_filter_list s)) as [fe0 |] eqn:Hf;
    [inversion Hl; subst; apply ok_refl |].
  destruct (p_FwpmFilterGetById0 (calls s) filter) as [rc display_name].
  inversion Hl; subst fe s'; clear Hl.
  set (fe := mk_filter_entry filter _).
  assert (Hkeep : forall key e,
            cached key s = Some e ->
            cached key (set_fw_filter_list
                          (fw_filter_list (log_call (Call_FwpmFilterGetById0 filter) s)
                           ++ [fe])
                          (log_call (Call_FwpmFilterGetById0 filter) s)) = Some e).
  { intros [k | sid] e; cbn; unfold cached_filter, cached_SID; cbn; [| auto].
    destruct (find (fun fe0 => k =? value fe0) (fw_filter_list s)) as [x |] eqn:Hx;
      cbn; [| intro; discriminate].
    intro He. rewrite (find_app_Some _ _ _ _ _ Hx). exact He. }
  split.
  - repeat split. exists []. cbn. rewrite app_nil_r. reflexivity.
  - split; [exact Hkeep |].
    apply cache_inv_step; [exact Hkeep |].
    intro key. cbn [calls set_fw_filter_list]. rewrite calls_log_call.
    rewrite resolution_attempts_app.
    destruct key as [k | sid]; cbn.
    + destruct (Z.eqb_spec filter k) as [-> | Hne]; cbn; [right | left; lia].
      split; [lia |]. unfold cached_filter. cbn. rewrite Hf.
      split; [reflexivity |].
      rewrite find_app_None by exact Hf. cbn. rewrite Z.eqb_refl. discriminate.
    + left. lia.
Qed.

(** What [lookup_account_SID()] does to the state: one or two calls. *)
Lemma lookup_account_SID_state : forall sid str a d s rc acc dom s2,
  lookup_account_SID sid str a d s = (rc, acc, dom, s2) ->
  s2 = log_call (Call_LookupAccountSid sid false) s
  \/ s2 = log_call (Call_LookupAccountSid sid true)
            (log_call (Call_LookupAccountSid sid false) s).
Proof.
  intros sid str a d s rc acc dom s2 Ha. unfold lookup_account_SID in Ha.
  destruct (_ && _) in Ha; inversion Ha; auto.
Qed.

Lemma lookup_or_add_SID_ok : forall sid s se s',
  lookup_or_add_SID sid s = (se, s') -> ok s s'.
Proof.
  intros sid s se s' Hl. unfold lookup_or_add_SID in Hl.
  destruct (find _ (fw_SID_list s)) as [se0 |] eqn:Hf;
    [inversion Hl; subst; apply ok_refl |].
  destruct (lookup_account_SID _ _ _ _ _) as [[[rc acc] dom] s2] eqn:Ha.
  inversion Hl; subst se s'; clear Hl.
  set (se := mk_SID_entry sid _ dom acc).
  apply lookup_account_SID_state in Ha.
  assert (Hlist : fw_SID_list s2 = fw_SID_list s)
    by (destruct Ha as [-> | ->]; reflexivity).
  assert (Hfil : fw_filter_list s2 = fw_filter_list s)
    by (destruct Ha as [-> | ->]; reflexivity).
  assert (Hkeep : forall key e,
            cached key s = Some e ->
            cached key (set_fw_SID_list (fw_SID_list s2 ++ [se]) s2) = Some e).
  { intros [k | sid'] e; cbn; unfold cached_filter, cached_SID; cbn.
    - rewrite Hfil. auto.
    - rewrite Hlist.
      destruct (find (fun se0 => EqualSid sid' (sid_copy se0)) (fw_SID_list s))
        as [x |] eqn:Hx; cbn; [| intro; discriminate].
      intro He. rewrite (find_app_Some _ _ _ _ _ Hx). exact He. }
  split.
  - destruct Ha as [-> | ->]; repeat split; exists []; cbn;
      rewrite app_nil_r; reflexivity.
  - split; [exact Hkeep |].
    apply cache_inv_step; [exact Hkeep |].
    intro key.
    assert (Hatt : resolution_attempts key (calls (set_fw_SID_list (fw_SID_list s2 ++ [se]) s2))
                   = (resolution_attempts key (calls s)
                      + (if starts_resolution key (Call_LookupAccountSid sid false)
                         then 1 else 0))%nat).
    { destruct Ha as [-> | ->]; cbn [calls set_fw_SID_list];
        repeat rewrite calls_log_call; repeat rewrite resolution_attempts_app;
        destruct key as [k | sid']; cbn; try lia;
        destruct (EqualSid sid sid'); cbn; lia. }
    rewrite Hatt. destruct key as [k | sid']; cbn; [left; lia |].
    destruct (EqualSid sid sid') eqn:He; [right | left; lia].
    apply EqualSid_true in He. subst sid'.
    split; [lia |]. unfold cached_SID. cbn. rewrite Hf, Hlist.
    split; [reflexivity |].
    rewrite find_app_None by exact Hf. cbn. rewrite EqualSid_refl. discriminate.
Qed.

(** *** The parts of the callback keep what [ok] says *)

Lemma print_layer_item_ok : forall d a s b s',
  print_layer_item d a s = (b, s') -> ok s s'.
Proof.
  intros d a s b s' Hp. unfold print_layer_item in Hp.
  destruct (_ =? 0) in Hp; [inversion Hp; subst; apply ok_refl |].
  destruct (p_FwpmLayerGetById0 _ _) as [rc layer_name].
  destruct (rc =? ERROR_SUCCESS); inversion Hp; subst.
  - eapply ok_trans; [apply ok_log_layer | apply ok_fw_buf_add].
  - apply ok_log_layer.
Qed.

Lemma print_layer_item2_ok : forall d a s b s',
  print_layer_item2 d a s = Some (b, s') -> ok s s'.
Proof.
  intros d a s b s' Hp. unfold print_layer_item2 in Hp.
  destruct (match a with Some _ => _ | None => _ end) as [e |]; [| discriminate].
  destruct (cap_filterId e =? 0).
  - inversion Hp; subst. apply ok_fw_buf_add.
  - destruct (lookup_or_add_filter _ s) as [fe s1] eqn:Hl.
    inversion Hp; subst.
    eapply ok_trans; [eapply lookup_or_add_filter_ok; eauto | apply ok_fw_buf_add].
Qed.

Lemma print_filter_rule_ok : forall d a s b s',
  print_filter_rule d a s = (b, s') -> ok s s'.
Proof.
  intros d a s b s' Hp. unfold print_filter_rule in Hp.
  destruct (_ =? 0) in Hp; [inversion Hp; subst; apply ok_refl |].
  destruct (lookup_or_add_filter _ s) as [fe s1] eqn:Hl.
  inversion Hp; subst.
  eapply ok_trans; [eapply lookup_or_add_filter_ok; eauto | apply ok_fw_buf_add].
Qed.

Lemma print_filter_rule2_ok : forall d a s b s',
  print_filter_rule2 d a s = (b, s') -> ok s s'.
Proof.
  intros d a s b s' Hp. unfold print_filter_rule2 in Hp.
  destruct (match d with Some _ => _ | None => _ end) as [e |];
    [| inversion Hp; subst; apply ok_refl].
  destruct (lookup_or_add_filter _ s) as [fe s1] eqn:Hl.
  inversion Hp; subst.
  eapply ok_trans; [eapply lookup_or_add_filter_ok; eauto | apply ok_fw_buf_add].
Qed.

Lemma print_country_location_ok : forall ia4 ia6 s,
  ok s (print_country_location ia4 ia6 s).
Proof.
  intros ia4 ia6 s. unfold print_country_location.
  destruct (match ia4, ia6 with
            | Some a, _ => geoip_get_country_by_ipv4 a
            | None, Some a => geoip_get_country_by_ipv6 a
            | None, None => None
            end) as [a2 |]; [| apply ok_refl].
  destruct (not_dash a2); [| apply ok_refl].
  destruct (if is_NULL ia4 then _ else _); apply ok_fw_buf_add.
Qed.

Lemma print_addresses_ipv4_ok : forall header dir s b s',
  print_addresses_ipv4 header dir s = (b, s') -> ok s s'.
Proof.
  intros header dir s b s' Hp. unfold print_addresses_ipv4 in Hp.
  repeat match type of Hp with
         | (if ?c then _ else _) = _ =>
             destruct c; [inversion Hp; subst; apply ok_refl |]
         end.
  inversion Hp; subst.
  destruct (flag_set _ FWPM_NET_EVENT_FLAG_REMOTE_ADDR_SET); destruct dir;
    repeat (first [apply ok_fw_buf_add
                  | eapply ok_trans; [| apply print_country_location_ok]]).
Qed.

Lemma print_addresses_ipv6_ok : forall header dir s b s',
  print_addresses_ipv6 header dir s = (b, s') -> ok s s'.
Proof.
  intros header dir s b s' Hp. unfold print_addresses_ipv6 in Hp.
  repeat match type of Hp with
         | (if ?c then _ else _) = _ =>
             destruct c; [inversion Hp; subst; apply ok_refl |]
         end.
  inversion Hp; subst.
  destruct (flag_set _ FWPM_NET_EVENT_FLAG_REMOTE_ADDR_SET); destruct dir;
    repeat (first [apply ok_fw_buf_add
                  | eapply ok_trans; [| apply print_country_location_ok]]).
Qed.

Lemma print_app_id_ok : forall header s b s',
  print_app_id header s = (b, s') -> ok s s'.
Proof.
  intros header s b s' Hp. unfold print_app_id in Hp.
  destruct (_ || _) in Hp; [inversion Hp; subst; apply ok_refl |].
  destruct (WideCharToMultiByte _ _ _) as [converted buf].
  destruct (negb (show_all (g_cfg s))).
  - destruct (_ || _) in Hp; inversion Hp; subst; apply ok_refl.
  - destruct (_ || _) in Hp; inversion Hp; subst;
      [apply ok_refl | apply ok_fw_buf_add].
Qed.

Lemma print_eff_name_id_ok : forall header s, ok s (print_eff_name_id header s).
Proof.
  intros header s. unfold print_eff_name_id.
  destruct (_ =? 0); [apply ok_refl |].
  destruct (data (effectiveName header)); [| apply ok_refl].
  destruct (_ =? 0); [apply ok_refl | apply ok_fw_buf_add].
Qed.

Lemma print_user_id_ok : forall header s b s',
  print_user_id header s = (b, s') -> ok s s'.
Proof.
  intros header s b s' Hp. unfold print_user_id in Hp.
  destruct (negb _) in Hp; [inversion Hp; subst; apply ok_refl |].
  destruct (userId header) as [sid |]; [| inversion Hp; subst; apply ok_refl].
  destruct (lookup_or_add_SID sid s) as [se s1] eqn:Hl.
  apply lookup_or_add_SID_ok in Hl.
  destruct (_ && _) in Hp; inversion Hp; subst; [exact Hl |].
  eapply ok_trans; [exact Hl | apply ok_fw_buf_add].
Qed.

Lemma print_package_id_ok : forall header s b s',
  print_package_id header s = (b, s') -> ok s s'.
Proof.
  intros header s b s' Hp. unfold print_package_id in Hp.
  destruct (negb _) in Hp; [inversion Hp; subst; apply ok_refl |].
  destruct (packageSid header) as [sid |]; [| inversion Hp; subst; apply ok_refl].
  destruct (lookup_or_add_SID sid s) as [se s1] eqn:Hl.
  apply lookup_or_add_SID_ok in Hl.
  destruct (sid_str se) as [str |]; [| inversion Hp; subst; exact Hl].
  destruct (_ || _) in Hp; inversion Hp; subst; [| exact Hl].
  eapply ok_trans; [exact Hl | apply ok_fw_buf_add].
Qed.

Lemma print_reauth_reason_ok : forall header d a s s',
  print_reauth_reason header d a s = Some s' -> ok s s'.
Proof.
  intros header d a s s' Hp. unfold print_reauth_reason in Hp.
  destruct (negb _) in Hp; [inversion Hp; subst; apply ok_refl |].
  destruct d as [d |]; [| destruct a as [a |]]; inversion Hp; subst;
    apply ok_fw_buf_add.
Qed.

Lemma classify_part_ok : forall header event is_drop s,
  exists s', classify_part header event is_drop s
             = Kind_ok (fst (classify_direction (msFwpDirection event))) s'
             /\ ok s s'.
Proof.
  intros header event is_drop s. unfold classify_part.
  destruct (classify_direction (msFwpDirection event)) as [din dout].
  destruct (print_layer_item _ _ _) as [b1 s3] eqn:H3.
  destruct (print_filter_rule _ _ _) as [b2 s4] eqn:H4.
  eexists. split; [reflexivity |].
  apply print_layer_item_ok in H3. apply print_filter_rule_ok in H4.
  eapply ok_trans; [| exact H4]. eapply ok_trans; [| exact H3].
  destruct (din || dout); destruct (flag_set _ _);
    repeat (first [apply ok_fw_buf_add | eapply ok_trans; [apply ok_fw_buf_add |]]).
Qed.

Lemma capability_part_ok : forall header d a s,
  match capability_part header d a s with
  | Kind_fault => d = None /\ a = None
  | Kind_return _ => False
  | Kind_ok dir s' => dir = true /\ ok s s' /\ is_NULL d && is_NULL a = false
  end.
Proof.
  intros header d a s. unfold capability_part.
  destruct (print_layer_item2 d a _) as [[b s2] |] eqn:H2.
  - destruct (print_filter_rule2 d a s2) as [b3 s3] eqn:H3.
    split; [reflexivity |]. split.
    + apply print_layer_item2_ok in H2. apply print_filter_rule2_ok in H3.
      eapply ok_trans; [| exact H3]. eapply ok_trans; [| exact H2].
      destruct (flag_set _ _); [apply ok_fw_buf_add | apply ok_refl].
    + destruct d, a; try reflexivity. discriminate.
  - unfold print_layer_item2 in H2.
    destruct a as [a |]; [| destruct d as [d |]]; try (split; reflexivity);
      cbn in H2; destruct (_ =? 0) in H2; try discriminate;
      destruct (lookup_or_add_filter _ _) in H2; discriminate.
Qed.

(** The part that depends on the event type: it goes on when the event of
    the type is there, and a state it returns or goes on with is [ok]. *)
Lemma event_kind_part_ok : forall event_type header d1 d2 a1 a2 s,
  match event_kind_part event_type header d1 d2 a1 a2 s with
  | Kind_fault => event_present event_type d1 d2 a1 a2 = false
  | Kind_return s' => s' = s /\ decoded_type event_type = false
  | Kind_ok _ s' => ok s s' /\ event_present event_type d1 d2 a1 a2 = true
  end.
Proof.
  intros event_type header d1 d2 a1 a2 s.
  unfold event_kind_part, event_present, decoded_type.
  destruct (event_type =? _FWPM_NET_EVENT_TYPE_CLASSIFY_DROP).
  { destruct d1 as [d |]; [| reflexivity].
    destruct (classify_part_ok header d true s) as [s' [-> Hok]]. auto. }
  destruct (event_type =? _FWPM_NET_EVENT_TYPE_CLASSIFY_ALLOW).
  { destruct a1 as [a |]; [| reflexivity].
    destruct (classify_part_ok header a false s) as [s' [-> Hok]]. auto. }
  destruct (event_type =? _FWPM_NET_EVENT_TYPE_CAPABILITY_ALLOW).
  { pose proof (capability_part_ok header None a2 s) as Hc.
    destruct (capability_part header None a2 s); [| contradiction |].
    - destruct Hc as [_ ->]. reflexivity.
    - destruct Hc as (_ & Hok & Hn). split; [exact Hok |].
      destruct a2; [reflexivity | discriminate]. }
  destruct (event_type =? _FWPM_NET_EVENT_TYPE_CAPABILITY_DROP).
  { pose proof (capability_part_ok header d2 None s) as Hc.
    destruct (capability_part header d2 None s); [| contradiction |].
    - destruct Hc as [-> _]. reflexivity.
    - destruct Hc as (_ & Hok & Hn). split; [exact Hok |].
      destruct d2; [reflexivity | discriminate]. }
  auto.
Qed.

(** *** What the three deciding [print_] functions return *)

Lemma cache_grows_SID : forall s s' sid se,
  cache_grows s s' -> cached_SID sid s = Some se -> cached_SID sid s' = Some se.
Proof.
  intros s s' sid se [Hg _] Hc.
  specialize (Hg (Principal sid) (Account se)). cbn in Hg.
  rewrite Hc in Hg. specialize (Hg eq_refl).
  destruct (cached_SID sid s') as [x |]; cbn in Hg; congruence.
Qed.

Lemma cache_grows_filter : forall s s' filter fe,
  cache_grows s s' -> cached_filter filter s = Some fe ->
  cached_filter filter s' = Some fe.
Proof.
  intros s s' filter fe [Hg _] Hc.
  specialize (Hg (Filter_id filter) (Filter_name fe)). cbn in Hg.
  rewrite Hc in Hg. specialize (Hg eq_refl).
  destruct (cached_filter filter s') as [x |]; cbn in Hg; congruence.
Qed.

Lemma print_app_id_fst : forall header s s',
  g_cfg s' = g_cfg s -> fw_module s' = fw_module s ->
  fst (print_app_id header s') = fst (print_app_id header s).
Proof.
  intros header s s' Hc Hm. unfold print_app_id. rewrite Hc, Hm.
  destruct (_ || _); [reflexivity |].
  destruct (WideCharToMultiByte _ _ _) as [converted buf].
  destruct (negb _); destruct (_ || _); reflexivity.
Qed.

(** [print_user_id()] returns [FALSE] exactly when the user is suppressed,
    and that stays so while entries are only added. *)
Lemma print_user_id_suppressed : forall header s b s',
  print_user_id header s = (b, s') ->
  b = negb (user_suppressed header s')
  /\ forall s'', ok s' s'' -> user_suppressed header s'' = user_suppressed header s'.
Proof.
  intros header s b s' Hp. unfold print_user_id in Hp. unfold user_suppressed.
  destruct (flag_set (flags header) FWPM_NET_EVENT_FLAG_USER_ID_SET);
    cbn [negb andb] in *; [| inversion Hp; auto].
  destruct (userId header) as [sid |]; [| inversion Hp; auto].
  destruct (lookup_or_add_SID sid s) as [se s1] eqn:Hl.
  apply lookup_or_add_SID_cached in Hl.
  assert (Hs' : cached_SID sid s' = Some se /\ g_cfg s' = g_cfg s1
                /\ fw_logged_on_user s' = fw_logged_on_user s1
                /\ b = negb (show_user (g_cfg s1)
                             && (stricmp (account_string se)
                                   (fw_logged_on_user s1) =? 0))).
  { destruct (_ && _) in Hp |- *; inversion Hp; subst; repeat split; exact Hl. }
  destruct Hs' as (Hc & Hg & Hu & Hb).
  rewrite Hc, Hg, Hu. split; [exact Hb |].
  intros s'' [(K1 & _ & K3 & _) Hgrow].
  rewrite (cache_grows_SID _ _ _ _ Hgrow Hc), K1, K3, Hg, Hu. reflexivity.
Qed.

Lemma print_package_id_suppressed : forall header s b s',
  print_package_id header s = (b, s') ->
  b = negb (package_suppressed header s')
  /\ forall s'', ok s' s'' ->
       package_suppressed header s'' = package_suppressed header s'.
Proof.
  intros header s b s' Hp. unfold print_package_id in Hp. unfold package_suppressed.
  destruct (flag_set (flags header) FWPM_NET_EVENT_FLAG_PACKAGE_ID_SET);
    cbn [negb andb] in *; [| inversion Hp; auto].
  destruct (packageSid header) as [sid |]; [| inversion Hp; auto].
  destruct (lookup_or_add_SID sid s) as [se s1] eqn:Hl.
  apply lookup_or_add_SID_cached in Hl.
  assert (Hs' : cached_SID sid s' = Some se /\ g_cfg s' = g_cfg s1
                /\ b = negb match sid_str se with
                            | Some str =>
                                negb (show_all (g_cfg s1)
                                      || negb (strcmp NULL_SID str =? 0))
                            | None => true
                            end).
  { destruct (sid_str se) as [str |]; [| inversion Hp; subst; repeat split; exact Hl].
    destruct (_ || _) in Hp |- *; inversion Hp; subst; repeat split; exact Hl. }
  destruct Hs' as (Hc & Hg & Hb).
  rewrite Hc, Hg. split; [exact Hb |].
  intros s'' [(K1 & _) Hgrow].
  rewrite (cache_grows_SID _ _ _ _ Hgrow Hc), K1, Hg. reflexivity.
Qed.

Lemma print_parts_spec : forall header dir s adr prg usr pkg s',
  print_parts header dir s = ((adr, prg, usr, pkg), s') ->
  ok s s'
  /\ prg = negb (program_suppressed header s)
  /\ forall s'', ok s' s'' ->
       usr = negb (user_suppressed header s'')
       /\ pkg = negb (package_suppressed header s'').
Proof.
  intros header dir s adr prg usr pkg s' Hp. unfold print_parts in Hp.
  destruct (print_addresses_ipv4 header dir s) as [adr4 s1] eqn:H1.
  apply print_addresses_ipv4_ok in H1.
  assert (H2 : exists adr6 s2,
            (if negb adr4 then print_addresses_ipv6 header dir s1 else (adr4, s1))
            = (adr6, s2) /\ ok s1 s2).
  { destruct (negb adr4).
    - destruct (print_addresses_ipv6 header dir s1) as [adr6 s2] eqn:H6.
      exists adr6, s2. split; [reflexivity |].
      eapply print_addresses_ipv6_ok; eauto.
    - exists adr4, s1. split; [reflexivity | apply ok_refl]. }
  destruct H2 as (adr6 & s2 & E2 & Hok2). rewrite E2 in Hp.
  destruct (print_app_id header s2) as [prg3 s3] eqn:H3.
  destruct (print_user_id header s3) as [usr4 s4] eqn:H4.
  destruct (print_package_id header s4) as [pkg5 s5] eqn:H5.
  inversion Hp; subst; clear Hp.
  assert (Hok12 : ok s s2) by (eapply ok_trans; eauto).
  assert (Hprg : prg = fst (print_app_id header s2)) by (rewrite H3; reflexivity).
  pose proof (print_app_id_ok _ _ _ _ H3) as Hok3.
  pose proof (print_user_id_ok _ _ _ _ H4) as Hok4.
  pose proof (print_package_id_ok _ _ _ _ H5) as Hok5.
  pose proof (print_eff_name_id_ok header s5) as Hok6.
  destruct (print_user_id_suppressed _ _ _ _ H4) as [Hu Hustable].
  destruct (print_package_id_suppressed _ _ _ _ H5) as [Hk Hkstable].
  split; [| split].
  - eapply ok_trans; [exact Hok12 |]. eapply ok_trans; [exact Hok3 |].
    eapply ok_trans; [exact Hok4 |]. eapply ok_trans; [exact Hok5 | exact Hok6].
  - unfold program_suppressed. rewrite negb_involutive, Hprg.
    destruct Hok12 as [(K1 & K2 & _) _]. apply print_app_id_fst; assumption.
  - intros s'' Hok7. split.
    + rewrite (Hustable s'')
        by (eapply ok_trans; [exact Hok5 |]; eapply ok_trans; [exact Hok6 | exact Hok7]).
      exact Hu.
    + rewrite (Hkstable s'') by (eapply ok_trans; [exact Hok6 | exact Hok7]).
      exact Hk.
Qed.

(** *** The callback as a whole *)

(** The end of the callback touches neither the caches nor the calls; it
    emits when one of program, user and package was printed, and ignores
    otherwise: [address_printed] never decides. *)
Lemma emit_or_ignore_spec : forall adr prg usr pkg s,
  let s' := emit_or_ignore (adr, prg, usr, pkg) s in
  fw_SID_list s' = fw_SID_list s
  /\ fw_filter_list s' = fw_filter_list s
  /\ calls s' = calls s
  /\ g_cfg s' = g_cfg s
  /\ fw_module s' = fw_module s
  /\ fw_logged_on_user s' = fw_logged_on_user s
  /\ (fw_buf s <> [] ->
      if prg || usr || pkg then emitted s s' else ignored s s').
Proof.
  intros adr prg usr pkg s.
  assert (Hcases :
    emit_or_ignore (adr, prg, usr, pkg) s
    = if prg || usr || pkg
      then set_fw_num_events (DWORD_inc (fw_num_events (fw_buf_flush s))) (fw_buf_flush s)
      else set_fw_num_ignored (DWORD_inc (fw_num_ignored (fw_buf_reset s)))
             (fw_buf_reset s)).
  { unfold emit_or_ignore. destruct prg, usr, pkg, adr; reflexivity. }
  cbv zeta. rewrite Hcases. clear Hcases. unfold emitted, ignored.
  destruct (prg || usr || pkg).
  - unfold fw_buf_flush. destruct (fw_buf s) as [| item rest] eqn:Hb; cbn;
      do 6 (split; [reflexivity |]); intro Hbuf; [contradiction |].
    do 2 (split; [reflexivity |]).
    exists (item :: rest). split; [discriminate | reflexivity].
  - cbn. do 6 (split; [reflexivity |]). intros _. repeat split.
Qed.

Lemma emitted_from : forall st s s',
  fw_num_events s = fw_num_events st ->
  fw_num_ignored s = fw_num_ignored st ->
  trace_out s = trace_out st ->
  emitted s s' -> emitted st s'.
Proof.
  intros st s s' H1 H2 H3. unfold emitted. rewrite H1, H2, H3. auto.
Qed.

Lemma ignored_from : forall st s s',
  fw_num_events s = fw_num_events st ->
  fw_num_ignored s = fw_num_ignored st ->
  trace_out s = trace_out st ->
  ignored s s' -> ignored st s'.
Proof.
  intros st s s' H1 H2 H3. unfold ignored. rewrite H1, H2, H3. auto.
Qed.

(** An event cannot be both emitted and ignored. *)
Lemma emitted_not_ignored : forall st st', emitted st st' -> ignored st st' -> False.
Proof.
  intros st st' (He & _) (_ & Hi & _). rewrite Hi in He. unfold DWORD_inc in He.
  assert (Hr : 0 <= (fw_num_events st + 1) mod 2 ^ 32 < 2 ^ 32)
    by (apply Z.mod_pos_bound; lia).
  rewrite <- He in Hr.
  destruct (Z.eq_dec (fw_num_events st + 1) (2 ^ 32)) as [Heq | Hne].
  - rewrite Heq, Z.mod_same in He by lia. lia.
  - rewrite Z.mod_small in He by lia. lia.
Qed.

Lemma user_suppressed_ext : forall header s s',
  fw_SID_list s' = fw_SID_list s -> g_cfg s' = g_cfg s ->
  fw_logged_on_user s' = fw_logged_on_user s ->
  user_suppressed header s' = user_suppressed header s.
Proof.
  intros header s s' H1 H2 H3. unfold user_suppressed, cached_SID.
  rewrite H1, H2, H3. reflexivity.
Qed.

Lemma package_suppressed_ext : forall header s s',
  fw_SID_list s' = fw_SID_list s -> g_cfg s' = g_cfg s ->
  package_suppressed header s' = package_suppressed header s.
Proof.
  intros header s s' H1 H2. unfold package_suppressed, cached_SID.
  rewrite H1, H2. reflexivity.
Qed.

(** The reason is printed without a fault once the classify event of the
    type is there. *)
Lemma print_reauth_reason_present : forall event_type header d1 d2 a1 a2 s,
  event_present event_type d1 d2 a1 a2 = true ->
  exists s',
    (if (event_type =? _FWPM_NET_EVENT_TYPE_CLASSIFY_ALLOW)
        || (event_type =? _FWPM_NET_EVENT_TYPE_CLASSIFY_DROP)
     then print_reauth_reason header d1 a1 s else Some s) = Some s'
    /\ ok s s'.
Proof.
  intros event_type header d1 d2 a1 a2 s Hp. unfold event_present in Hp.
  destruct (Z.eqb_spec event_type _FWPM_NET_EVENT_TYPE_CLASSIFY_DROP) as [-> | Hn1].
  - cbn [Z.eqb orb _FWPM_NET_EVENT_TYPE_CLASSIFY_DROP
         _FWPM_NET_EVENT_TYPE_CLASSIFY_ALLOW Pos.eqb].
    destruct d1 as [d |]; [| discriminate]. unfold print_reauth_reason.
    destruct (negb (flag_set (flags header) FWPM_NET_EVENT_FLAG_REAUTH_REASON_SET));
      eexists; (split; [reflexivity |]); [apply ok_refl | apply ok_fw_buf_add].
  - destruct (event_type =? _FWPM_NET_EVENT_TYPE_CLASSIFY_ALLOW).
    + cbn [orb]. destruct a1 as [a |]; [| discriminate]. unfold print_reauth_reason.
      destruct (negb (flag_set (flags header) FWPM_NET_EVENT_FLAG_REAUTH_REASON_SET));
        [eexists; split; [reflexivity | apply ok_refl] |].
      destruct d1; eexists; (split; [reflexivity | apply ok_fw_buf_add]).
    + cbn [orb]. exists s. split; [reflexivity | apply ok_refl].
Qed.

(** The callback on an event of a decoded type that is there and that the
    IP version test lets pass: it returns, leaves the configuration alone,
    only adds to the caches, and ignores the event exactly when program,
    user and package are all three suppressed. *)
Lemma fw_event_callback_decoded : forall event_type header d1 d2 a1 a2 st,
  event_present event_type d1 d2 a1 a2 = true ->
  ip_version_ignored header st = false ->
  exists st',
    fw_event_callback event_type header d1 d2 a1 a2 st = Some st'
    /\ cache_grows st st'
    /\ g_cfg st' = g_cfg st
    /\ fw_module st' = fw_module st
    /\ fw_logged_on_user st' = fw_logged_on_user st
    /\ (if program_suppressed header st && user_suppressed header st'
           && package_suppressed header st'
        then ignored st st' else emitted st st').
Proof.
  intros event_type header d1 d2 a1 a2 st Hpres Hgate.
  unfold fw_event_callback.
  change (ip_version_ignored header (fw_buf_reset st))
    with (ip_version_ignored header st).
  rewrite Hgate.
  set (st1 := fw_buf_add (Buf_event (timeStamp header) event_type) (fw_buf_reset st)).
  pose proof (event_kind_part_ok event_type header d1 d2 a1 a2 st1) as Hkind.
  destruct (event_kind_part event_type header d1 d2 a1 a2 st1)
    as [| s2 | dir s2].
  { congruence. }
  { destruct Hkind as [_ Hdec]. unfold event_present, decoded_type in *.
    destruct (event_type =? _FWPM_NET_EVENT_TYPE_CLASSIFY_DROP); [discriminate |].
    destruct (event_type =? _FWPM_NET_EVENT_TYPE_CLASSIFY_ALLOW); [discriminate |].
    destruct (event_type =? _FWPM_NET_EVENT_TYPE_CAPABILITY_ALLOW); [discriminate |].
    destruct (event_type =? _FWPM_NET_EVENT_TYPE_CAPABILITY_DROP); discriminate. }
  destruct Hkind as [Hok2 _].
  destruct (print_parts header dir s2) as [[[[adr prg] usr] pkg] s3] eqn:Hparts.
  destruct (print_parts_spec _ _ _ _ _ _ _ _ Hparts) as (Hok3 & Hprg & Hlater).
  destruct (print_reauth_reason_present event_type header d1 d2 a1 a2 s3 Hpres)
    as (s4 & -> & Hok4).
  assert (Hok14 : ok st1 s4)
    by (eapply ok_trans; [exact Hok2 |]; eapply ok_trans; eauto).
  destruct Hok14 as [(K1 & K2 & K3 & K4 & K5 & K6 & l & K7) Hgrow14].
  destruct (emit_or_ignore_spec adr prg usr pkg s4)
    as (E1 & E2 & E3 & E4 & E5 & E6 & Edec).
  set (st' := emit_or_ignore (adr, prg, usr, pkg) s4) in *.
  destruct (Hlater s4 Hok4) as [Husr Hpkg].
  eexists. split; [reflexivity |].
  split; [| split; [| split; [| split]]].
  - eapply cache_grows_trans; [| eapply cache_grows_trans; [exact Hgrow14 |]].
    + apply cache_grows_quiet; reflexivity.
    + apply cache_grows_quiet; assumption || (intro; rewrite E3; reflexivity).
  - rewrite E4, K1. reflexivity.
  - rewrite E5, K2. reflexivity.
  - rewrite E6, K3. reflexivity.
  - assert (Hbuf : fw_buf s4 <> []).
    { rewrite K7. subst st1. cbn. discriminate. }
    specialize (Edec Hbuf).
    assert (Hcond : program_suppressed header st && user_suppressed header st'
                    && package_suppressed header st' = negb (prg || usr || pkg)).
    { rewrite (user_suppressed_ext header s4 st') by assumption.
      rewrite (package_suppressed_ext header s4 st') by assumption.
      assert (Hps : program_suppressed header st = program_suppressed header s2).
      { unfold program_suppressed. f_equal. symmetry.
        destruct Hok2 as [(G1 & G2 & _) _].
        apply print_app_id_fst; [rewrite G1 | rewrite G2]; reflexivity. }
      rewrite Hps, Hprg, Husr, Hpkg.
      destruct (program_suppressed header s2), (user_suppressed header s4),
        (package_suppressed header s4); reflexivity. }
    rewrite Hcond.
    destruct (prg || usr || pkg); cbn [negb].
    + eapply emitted_from; [| | | exact Edec]; assumption.
    + eapply ignored_from; [| | | exact Edec]; assumption.
Qed.

(** The callback on an event of a decoded type that is there: the IP version
    test comes first, then the three suppressions decide. *)
Lemma fw_event_callback_present : forall event_type header d1 d2 a1 a2 st,
  event_present event_type d1 d2 a1 a2 = true ->
  exists st',
    fw_event_callback event_type header d1 d2 a1 a2 st = Some st'
    /\ cache_grows st st'
    /\ g_cfg st' = g_cfg st
    /\ fw_module st' = fw_module st
    /\ fw_logged_on_user st' = fw_logged_on_user st
    /\ (if ip_version_ignored header st
           || (program_suppressed header st && user_suppressed header st'
               && package_suppressed header st')
        then ignored st st' else emitted st st').
Proof.
  intros event_type header d1 d2 a1 a2 st Hpres.
  destruct (ip_version_ignored header st) eqn:Hgate.
  - eexists. unfold fw_event_callback.
    change (ip_version_ignored header (fw_buf_reset st))
      with (ip_version_ignored header st).
    rewrite Hgate. split; [reflexivity |].
    split; [apply cache_grows_quiet; reflexivity |].
    repeat split.
  - cbn [orb]. apply fw_event_callback_decoded; assumption.
Qed.

(** Whatever the event, a callback that returns has only added to the
    caches. *)
Lemma fw_event_callback_grows : forall event_type header d1 d2 a1 a2 st st',
  fw_event_callback event_type header d1 d2 a1 a2 st = Some st' ->
  cache_grows st st'.
Proof.
  intros event_type header d1 d2 a1 a2 st st' Hcb.
  destruct (event_present event_type d1 d2 a1 a2) eqn:Hpres.
  - destruct (fw_event_callback_present event_type header d1 d2 a1 a2 st Hpres)
      as (st2 & Heq & Hgrow & _).
    congruence.
  - unfold fw_event_callback in Hcb.
    destruct (ip_version_ignored header (fw_buf_reset st)).
    + inversion Hcb; subst. apply cache_grows_quiet; reflexivity.
    + pose proof (event_kind_part_ok event_type header d1 d2 a1 a2
                    (fw_buf_add (Buf_event (timeStamp header) event_type)
                       (fw_buf_reset st))) as Hkind.
      destruct (event_kind_part _ _ _ _ _ _ _) as [| s2 | dir s2]; [discriminate | |].
      * destruct Hkind as [-> _]. inversion Hcb; subst.
        apply cache_grows_quiet; reflexivity.
      * destruct Hkind as [_ Hp]. congruence.
Qed.

(** *** One resolution for each key *)

Lemma lookup_or_resolve_ok : forall key st,
  ok st (snd (lookup_or_resolve key st)).
Proof.
  intros [filter | sid] st; cbn.
  - destruct (lookup_or_add_filter filter st) as [fe st1] eqn:Hl.
    eapply lookup_or_add_filter_ok; eauto.
  - destruct (lookup_or_add_SID sid st) as [se st1] eqn:Hl.
    eapply lookup_or_add_SID_ok; eauto.
Qed.

Lemma run_ops_grows : forall ops st st',
  run_ops ops st = Some st' -> cache_grows st st'.
Proof.
  induction ops as [| op ops IH]; intros st st' Hrun; cbn in Hrun.
  - inversion Hrun; subst. apply cache_grows_refl.
  - destruct (run_op op st) as [st1 |] eqn:Hop; [| discriminate].
    eapply cache_grows_trans; [| apply IH; exact Hrun].
    destruct op as [key | event_type header d1 d2 a1 a2]; cbn in Hop.
    + inversion Hop; subst. apply lookup_or_resolve_ok.
    + eapply fw_event_callback_grows; eauto.
Qed.

Lemma caches_fresh_inv : forall st, caches_fresh st -> cache_inv st.
Proof.
  intros st (_ & _ & Hcalls) key. rewrite Hcalls. cbn. split; [lia | intro; lia].
Qed.

(** A lookup of a key that has an entry returns it and changes nothing. *)
Lemma lookup_or_resolve_hit : forall key e st,
  cached key st = Some e -> key <> Filter_id 0 ->
  lookup_or_resolve key st = (e, st).
Proof.
  intros [filter | sid] e st Hc Hnz; cbn in *.
  - destruct (cached_filter filter st) as [fe |] eqn:Hf; cbn in Hc; [| discriminate].
    inversion Hc; subst.
    rewrite (lookup_or_add_filter_hit filter fe st Hf) by congruence. reflexivity.
  - destruct (cached_SID sid st) as [se |] eqn:Hf; cbn in Hc; [| discriminate].
    inversion Hc; subst.
    rewrite (lookup_or_add_SID_hit sid se st Hf). reflexivity.
Qed.

(** After a lookup the entry it returned is the entry of the key. *)
Lemma lookup_or_resolve_cached : forall key st,
  key <> Filter_id 0 ->
  cached key (snd (lookup_or_resolve key st)) = Some (fst (lookup_or_resolve key st)).
Proof.
  intros [filter | sid] st Hnz; cbn.
  - destruct (lookup_or_add_filter filter st) as [fe st1] eqn:Hl. cbn.
    rewrite (lookup_or_add_filter_cached _ _ _ _ Hl) by congruence. reflexivity.
  - destruct (lookup_or_add_SID sid st) as [se st1] eqn:Hl. cbn.
    rewrite (lookup_or_add_SID_cached _ _ _ _ Hl). reflexivity.
Qed.

(** A lookup of a key that has no entry makes the calls of one resolution,
    and the entry that it returns holds what they answered. *)
Lemma lookup_or_resolve_miss : forall key st,
  key <> Filter_id 0 -> cached key st = None ->
  fst (lookup_or_resolve key st) = resolved key (calls st)
  /\ calls (snd (lookup_or_resolve key st))
     = calls st ++ resolution_calls key (calls st).
Proof.
  intros [filter | sid] st Hnz Hc; cbn in Hc |- *.
  - unfold lookup_or_add_filter, resolved_filter.
    destruct (Z.eqb_spec filter 0) as [-> | _]; [congruence |].
    unfold cached_filter in Hc.
    destruct (find _ (fw_filter_list st)); [discriminate |].
    destruct (p_FwpmFilterGetById0 (calls st) filter) as [rc display_name].
    split; reflexivity.
  - unfold lookup_or_add_SID, resolved_SID, lookup_account_SID, sizes_answer,
      names_answer, no_account_mapping, account_size_passed, domain_size_passed.
    unfold cached_SID in Hc.
    destruct (find _ (fw_SID_list st)); [discriminate |].
    cbn [calls log_call].
    replace (calls st ++ [Call_ConvertSidToStringSid sid; Call_LookupAccountSid sid false])
      with ((calls st ++ [Call_ConvertSidToStringSid sid])
            ++ [Call_LookupAccountSid sid false])
      by (rewrite <- app_assoc; reflexivity).
    destruct (negb _ && _ && _); cbn; rewrite <- !app_assoc; split; reflexivity.
Qed.

(** X24: take any run that starts with empty caches and no calls made: some
    operations, then a lookup of [key], then more operations. At its end no
    more than one resolution was started for any key of either cache;
    unless [key] is the reserved filter 0, the entry that the lookup
    returned is the entry of [key] in its cache; and a further lookup of
    [key] returns that same entry and leaves the state as it is, so that it
    makes no call and adds no entry, whatever the engine or the account
    database would answer now. As for the entry that the lookup returned:
    when [key] had an entry, it is that entry and the lookup made no call;
    when it had none, the lookup made the calls of one resolution and the
    entry holds what they answered. For a filter that is the display name
    of the engine, and ["?"] when the engine failed. For a SID it is the
    string form and, when the database has no account for the SID, the
    string form as the account and no domain; otherwise the bytes that the
    second call left in the two arrays, whether it succeeded or not. *)
Theorem cache_one_resolution_per_key : forall st0 ops key more st st',
  caches_fresh st0 ->
  run_ops ops st0 = Some st ->
  run_ops more (snd (lookup_or_resolve key st)) = Some st' ->
  (forall k, (resolution_attempts k (calls st') <= 1)%nat)
  /\ (key <> Filter_id 0 -> cached key st' = Some (fst (lookup_or_resolve key st)))
  /\ lookup_or_resolve key st' = (fst (lookup_or_resolve key st), st')
  /\ (key <> Filter_id 0 ->
      match cached key st with
      | Some e => lookup_or_resolve key st = (e, st)
      | None =>
          fst (lookup_or_resolve key st) = resolved key (calls st)
          /\ calls (snd (lookup_or_resolve key st))
             = calls st ++ resolution_calls key (calls st)
      end).
Proof.
  intros st0 ops key more st st' Hfresh Hops Hmore.
  pose proof (run_ops_grows _ _ _ Hops) as [_ Hinv1].
  pose proof (lookup_or_resolve_ok key st) as [_ [_ Hinv2]].
  pose proof (run_ops_grows _ _ _ Hmore) as [Hkeep Hinv3].
  pose proof (Hinv3 (Hinv2 (Hinv1 (caches_fresh_inv _ Hfresh)))) as Hinv.
  split; [intro k; apply Hinv |].
  assert (Hc : key <> Filter_id 0 ->
               cached key st' = Some (fst (lookup_or_resolve key st))).
  { intro Hnz. apply Hkeep. apply lookup_or_resolve_cached. exact Hnz. }
  split; [exact Hc |].
  split.
  - destruct key as [filter | sid].
    + destruct (Z.eq_dec filter 0) as [-> | Hnz]; [reflexivity |].
      apply lookup_or_resolve_hit; [apply Hc |]; congruence.
    + apply lookup_or_resolve_hit; [apply Hc |]; congruence.
  - intro Hnz. destruct (cached key st) as [e |] eqn:Hcached.
    + apply lookup_or_resolve_hit; assumption.
    + apply lookup_or_resolve_miss; assumption.
Qed.

(** *** The visibility filter *)

Lemma event_present_decoded : forall event_type d1 d2 a1 a2,
  event_present event_type d1 d2 a1 a2 = true -> decoded_type event_type = true.
Proof.
  intros event_type d1 d2 a1 a2. unfold event_present, decoded_type.
  destruct (event_type =? _FWPM_NET_EVENT_TYPE_CLASSIFY_DROP); [reflexivity |].
  destruct (event_type =? _FWPM_NET_EVENT_TYPE_CLASSIFY_ALLOW); [reflexivity |].
  destruct (event_type =? _FWPM_NET_EVENT_TYPE_CAPABILITY_ALLOW); [reflexivity |].
  destruct (event_type =? _FWPM_NET_EVENT_TYPE_CAPABILITY_DROP);
    [reflexivity | discriminate].
Qed.

(** [print_app_id()] returns [FALSE] exactly when the header has an
    application that is on the list of excluded programs, with [show_all],
    or that is not the module [fw_module], without it. *)
Lemma program_suppressed_eq : forall header st,
  program_suppressed header st
  = has_app_id header
    && (if show_all (g_cfg st) then on_program_list header
        else negb (is_fw_module header st)).
Proof.
  intros header st.
  unfold program_suppressed, print_app_id, has_app_id, on_program_list,
    is_fw_module, app_name, flag_set.
  destruct (Z.land (flags header) FWPM_NET_EVENT_FLAG_APP_ID_SET =? 0);
    cbn [orb negb andb]; [reflexivity |].
  destruct (is_NULL (data (appId header))); cbn [orb negb andb]; [reflexivity |].
  destruct (size (appId header) =? 0); cbn [orb negb andb]; [reflexivity |].
  destruct (WideCharToMultiByte _ _ _) as [converted buf].
  destruct (show_all (g_cfg st)); cbn [negb];
    destruct (_ || _); reflexivity.
Qed.

(** C6, as amended: take an event of a decoded type whose user has the
    account of the logged-on user, with [show_user] set and [show_all] off.
    The event is ignored exactly when its IP version is not shown, or when
    its header has an application that is not the module [fw_module] and
    its package is suppressed as well; otherwise it is emitted. The package
    is suppressed exactly when the header has a package SID whose entry has
    no string form, or one that compares equal to [NULL_SID]. *)
Theorem own_user_event_ignored_iff :
  forall event_type header d1 d2 a1 a2 st st' sid se,
    event_present event_type d1 d2 a1 a2 = true ->
    show_user (g_cfg st) = true ->
    show_all (g_cfg st) = false ->
    fw_event_callback event_type header d1 d2 a1 a2 st = Some st' ->
    flag_set (flags header) FWPM_NET_EVENT_FLAG_USER_ID_SET = true ->
    userId header = Some sid ->
    cached_SID sid st' = Some se ->
    stricmp (account_string se) (fw_logged_on_user st) = 0 ->
    (ignored st st' <->
       ip_version_ignored header st = true
       \/ (has_app_id header = true /\ is_fw_module header st = false
           /\ package_suppressed header st' = true))
    /\ (emitted st st' <->
          ip_version_ignored header st = false
          /\ (has_app_id header = false \/ is_fw_module header st = true
              \/ package_suppressed header st' = false))
    /\ (package_suppressed header st' = true <->
          flag_set (flags header) FWPM_NET_EVENT_FLAG_PACKAGE_ID_SET = true
          /\ exists package_sid package_se,
               packageSid header = Some package_sid
               /\ cached_SID package_sid st' = Some package_se
               /\ (sid_str package_se = None
                   \/ exists str,
                        sid_str package_se = Some str /\ strcmp NULL_SID str = 0)).
Proof.
  intros event_type header d1 d2 a1 a2 st st' sid se
    Hpres Huser Hall Hcb Hflag Hid Hcached Hsame.
  destruct (fw_event_callback_present event_type header d1 d2 a1 a2 st Hpres)
    as (st2 & Hcb2 & _ & Hcfg & _ & Hlog & Hdec).
  rewrite Hcb in Hcb2. inversion Hcb2; subst st2; clear Hcb2.
  assert (Hsup : user_suppressed header st' = true).
  { unfold user_suppressed.
    rewrite Hflag, Hid, Hcached, Hcfg, Huser, Hlog, Hsame. reflexivity. }
  rewrite Hsup, program_suppressed_eq, Hall in Hdec.
  split; [| split].
  - destruct (ip_version_ignored header st), (has_app_id header),
      (is_fw_module header st), (package_suppressed header st'); cbn in Hdec;
      (split; intro Hx;
       try solve [ exact Hdec
                 | exfalso; eapply emitted_not_ignored; eassumption
                 | intuition discriminate
                 | auto ]).
  - destruct (ip_version_ignored header st), (has_app_id header),
      (is_fw_module header st), (package_suppressed header st'); cbn in Hdec;
      (split; intro Hx;
       try solve [ exact Hdec
                 | exfalso; eapply emitted_not_ignored; eassumption
                 | intuition discriminate
                 | auto ]).
  - unfold package_suppressed. rewrite Hcfg, Hall. cbn [orb].
    destruct (flag_set (flags header) FWPM_NET_EVENT_FLAG_PACKAGE_ID_SET);
      cbn [andb]; [| split; [discriminate | intros [Hf _]; discriminate]].
    destruct (packageSid header) as [package_sid |];
      [| split; [discriminate | intros (_ & x & y & Hn & _); discriminate]].
    destruct (cached_SID package_sid st') as [package_se |] eqn:Hcp;
      [| split; [discriminate
                | intros (_ & x & y & Hn & Hc & _); inversion Hn; subst x;
                  rewrite Hcp in Hc; discriminate]].
    destruct (sid_str package_se) as [str |] eqn:Hstr.
    + rewrite negb_involutive. split.
      * intro Hz. split; [reflexivity |]. exists package_sid, package_se.
        split; [reflexivity |]. split; [exact Hcp |]. right. exists str.
        split; [exact Hstr | apply Z.eqb_eq; exact Hz].
      * intros (_ & x & y & Hn & Hc & Hs). inversion Hn; subst x.
        rewrite Hcp in Hc. inversion Hc; subst y. rewrite Hstr in Hs.
        destruct Hs as [Hs | (str' & Hs & Hz)]; [discriminate |].
        inversion Hs; subst str'. apply Z.eqb_eq. exact Hz.
    + split; [| reflexivity]. intros _. split; [reflexivity |].
      exists package_sid, package_se.
      split; [reflexivity |]. split; [exact Hcp |]. left. exact Hstr.
Qed.

(** C7, as amended: take an event of a decoded type whose IP version is
    shown. When its header has neither an application nor a user, it is
    emitted. When its program and its user are both suppressed, it is
    emitted if its package is printed, which an absent package counts as,
    and ignored if its package is suppressed too. *)
Theorem no_program_no_user_event :
  forall event_type header d1 d2 a1 a2 st st',
    event_present event_type d1 d2 a1 a2 = true ->
    ip_version_ignored header st = false ->
    fw_event_callback event_type header d1 d2 a1 a2 st = Some st' ->
    (flag_set (flags header) FWPM_NET_EVENT_FLAG_APP_ID_SET = false ->
     flag_set (flags header) FWPM_NET_EVENT_FLAG_USER_ID_SET = false ->
     emitted st st')
    /\ (program_suppressed header st = true ->
        user_suppressed header st' = true ->
        (emitted st st' <-> package_suppressed header st' = false)
        /\ (ignored st st' <-> package_suppressed header st' = true)).
Proof.
  intros event_type header d1 d2 a1 a2 st st' Hpres Hgate Hcb.
  destruct (fw_event_callback_present event_type header d1 d2 a1 a2 st Hpres)
    as (st2 & Hcb2 & _ & _ & _ & _ & Hdec).
  rewrite Hcb in Hcb2. inversion Hcb2; subst st2; clear Hcb2.
  rewrite Hgate in Hdec. cbn [orb] in Hdec.
  split.
  - intros Happ _.
    assert (Hprg : program_suppressed header st = false).
    { unfold program_suppressed, print_app_id. unfold flag_set in Happ.
      apply negb_false_iff in Happ. rewrite Happ. reflexivity. }
    rewrite Hprg in Hdec. exact Hdec.
  - intros Hprg Husr. rewrite Hprg, Husr in Hdec. cbn [andb] in Hdec.
    destruct (package_suppressed header st');
      (split; split; intro Hx;
       try solve [ exact Hdec
                 | exfalso; eapply emitted_not_ignored; eassumption
                 | discriminate
                 | reflexivity ]).
Qed.

(** C10, as amended: on an event of a decoded type that is there, the
    callback adds one, modulo 2^32, to exactly one of [fw_num_events] and
    [fw_num_ignored] and leaves the other as it was. On an event of another
    type it leaves [fw_num_events] as it was, and adds one to
    [fw_num_ignored] when the header has an IP version that is not shown,
    and nothing otherwise. *)
Theorem fw_event_callback_counts :
  forall event_type header d1 d2 a1 a2 st,
    event_present event_type d1 d2 a1 a2 = true
    \/ decoded_type event_type = false ->
    exists st',
      fw_event_callback event_type header d1 d2 a1 a2 st = Some st'
      /\ if decoded_type event_type then
           (fw_num_events st' = DWORD_inc (fw_num_events st)
            /\ fw_num_ignored st' = fw_num_ignored st)
           \/ (fw_num_ignored st' = DWORD_inc (fw_num_ignored st)
               /\ fw_num_events st' = fw_num_events st)
         else
           fw_num_events st' = fw_num_events st
           /\ fw_num_ignored st' =
                if ip_version_ignored header st
                then DWORD_inc (fw_num_ignored st) else fw_num_ignored st.
Proof.
  intros event_type header d1 d2 a1 a2 st [Hpres | Hother].
  - destruct (fw_event_callback_present event_type header d1 d2 a1 a2 st Hpres)
      as (st' & Hcb & _ & _ & _ & _ & Hdec).
    exists st'. split; [exact Hcb |].
    rewrite (event_present_decoded _ _ _ _ _ Hpres).
    destruct (_ || _) in Hdec.
    + right. destruct Hdec as (Hi & He & _). auto.
    + left. destruct Hdec as (He & Hi & _). auto.
  - rewrite Hother. unfold fw_event_callback.
    change (ip_version_ignored header (fw_buf_reset st))
      with (ip_version_ignored header st).
    destruct (ip_version_ignored header st).
    + eexists. split; [reflexivity |]. split; reflexivity.
    + unfold decoded_type in Hother. unfold event_kind_part.
      destruct (event_type =? _FWPM_NET_EVENT_TYPE_CLASSIFY_DROP); [discriminate |].
      destruct (event_type =? _FWPM_NET_EVENT_TYPE_CLASSIFY_ALLOW); [discriminate |].
      destruct (event_type =? _FWPM_NET_EVENT_TYPE_CAPABILITY_ALLOW); [discriminate |].
      destruct (event_type =? _FWPM_NET_EVENT_TYPE_CAPABILITY_DROP); [discriminate |].
      eexists. split; [reflexivity |]. split; reflexivity.
Qed.

(** *** The rule enumerator *)

(** [fw_dump_rule()] passes two texts to [trace_puts()]; the first one is
    the line with the number, the direction and the description. *)
Lemma fw_dump_rule_trace_out : forall rule s,
  exists body,
    trace_out (fw_dump_rule rule s)
    = trace_out s
      ++ [[Buf_rule (DWORD_inc (fw_num_rules s)) (rule_direction rule)
             (rule_ascii (wszDescription rule))]; body].
Proof.
  intros rule s. unfold fw_dump_rule.
  destruct (wszName rule), (wszLocalApplication rule), (wszEmbeddedContext rule);
    cbn; rewrite <- app_assoc; eexists; reflexivity.
Qed.

Lemma dump_rules_all : forall rules num rule_count s,
  num + Z.of_nat (List.length rules) <= int_of_ULONG rule_count ->
  dump_rules rules num rule_count s
  = (num + Z.of_nat (List.length rules),
     fold_left (fun st rule => fw_dump_rule rule st) rules s).
Proof.
  induction rules as [| rule rules IH]; intros num rule_count s Hle.
  - cbn. rewrite Z.add_0_r. reflexivity.
  - cbn [dump_rules fold_left]. cbn [List.length] in Hle.
    rewrite Nat2Z.inj_succ in Hle.
    assert (Hlt : (num <? int_of_ULONG rule_count) = true)
      by (apply Z.ltb_lt; lia).
    rewrite Hlt, IH by lia. f_equal. cbn [List.length]. lia.
Qed.

Lemma fold_dump_keeps_trace : forall rules s text,
  In text (trace_out s) ->
  In text (trace_out (fold_left (fun st rule => fw_dump_rule rule st) rules s)).
Proof.
  induction rules as [| rule rules IH]; intros s text Hin; cbn; [exact Hin |].
  apply IH. destruct (fw_dump_rule_trace_out rule s) as [body ->].
  apply in_or_app. left. exact Hin.
Qed.

Lemma fold_dump_has_rule : forall rules s rule,
  In rule rules ->
  exists num,
    In [Buf_rule num (rule_direction rule) (rule_ascii (wszDescription rule))]
       (trace_out (fold_left (fun st r => fw_dump_rule r st) rules s)).
Proof.
  induction rules as [| r rules IH]; intros s rule Hin; [contradiction |].
  cbn [fold_left]. destruct Hin as [-> | Hin].
  - exists (DWORD_inc (fw_num_rules s)). apply fold_dump_keeps_trace.
    destruct (fw_dump_rule_trace_out rule s) as [body ->].
    apply in_or_app. right. left. reflexivity.
  - apply IH. exact Hin.
Qed.

Lemma fold_dump_calls : forall rules s,
  calls (fold_left (fun st r => fw_dump_rule r st) rules s) = calls s.
Proof.
  induction rules as [| r rules IH]; intro s; cbn [fold_left]; [reflexivity |].
  rewrite IH. unfold fw_dump_rule.
  destruct (wszName r), (wszLocalApplication r), (wszEmbeddedContext r); reflexivity.
Qed.

(** [fw_dump_rule()] does not read [Status]. *)
Lemma fw_dump_rule_set_Status : forall v rule s,
  fw_dump_rule (set_Status v rule) s = fw_dump_rule rule s.
Proof.
  intros v rule s. reflexivity.
Qed.

Lemma fold_dump_set_Status : forall rules rules' s,
  map (set_Status 0) rules' = map (set_Status 0) rules ->
  fold_left (fun st rule => fw_dump_rule rule st) rules' s
  = fold_left (fun st rule => fw_dump_rule rule st) rules s.
Proof.
  induction rules as [| rule rules IH]; intros [| rule' rules'] s Hmap;
    try discriminate; [reflexivity |].
  assert (Hrule : set_Status 0 rule' = set_Status 0 rule)
    by (cbn [map] in Hmap; congruence).
  assert (Hrest : map (set_Status 0) rules' = map (set_Status 0) rules)
    by (cbn [map] in Hmap; congruence).
  cbn [fold_left].
  rewrite <- (fw_dump_rule_set_Status 0 rule'), Hrule, fw_dump_rule_set_Status.
  apply IH. exact Hrest.
Qed.

(** C8, as amended: when the policy store returns a batch of rules and its
    count, the enumerator has asked for every status class, dumps one rule
    after the other and returns the count, and every rule of the batch has
    its line in the output, whatever its [Status] is. It does not classify
    the rules: [Status] is not read, so that a batch which differs in the
    status of its rules alone leaves the same output and the same state. *)
Theorem fw_enumerate_rules_dumps_every_rule :
  forall st profile rule_flags rule_count rules,
    profile = (if show_all (g_cfg st)
               then FW_PROFILE_TYPE_ALL else FW_PROFILE_TYPE_CURRENT) ->
    rule_flags = Z.lor (Z.lor (Z.lor FW_ENUM_RULES_FLAG_RESOLVE_NAME
                                     FW_ENUM_RULES_FLAG_RESOLVE_DESCRIPTION)
                              FW_ENUM_RULES_FLAG_RESOLVE_APPLICATION)
                       FW_ENUM_RULES_FLAG_RESOLVE_KEYWORD ->
    p_FWEnumFirewallRules (calls st) FW_RULE_STATUS_CLASS_ALL profile rule_flags
    = (ERROR_SUCCESS, rule_count, rules) ->
    rule_count = Z.of_nat (List.length rules) ->
    rule_count < 2 ^ 31 ->
    exists st',
      fw_enumerate_rules st = (rule_count, st')
      /\ st' = fold_left (fun s rule => fw_dump_rule rule s) rules
                 (log_call (Call_FWEnumFirewallRules FW_RULE_STATUS_CLASS_ALL
                              profile rule_flags) st)
      /\ calls st' = calls st ++ [Call_FWEnumFirewallRules FW_RULE_STATUS_CLASS_ALL
                                    profile rule_flags]
      /\ (forall rule,
             In rule rules ->
             exists num,
               In [Buf_rule num (rule_direction rule)
                     (rule_ascii (wszDescription rule))] (trace_out st'))
      /\ (forall rules',
             map (set_Status 0) rules' = map (set_Status 0) rules ->
             fold_left (fun s rule => fw_dump_rule rule s) rules'
               (log_call (Call_FWEnumFirewallRules FW_RULE_STATUS_CLASS_ALL
                            profile rule_flags) st)
             = st').
Proof.
  intros st profile rule_flags rule_count rules Hprof Hflags Hengine Hcount Hsmall.
  eexists. split; [| split; [reflexivity | split; [| split]]].
  - unfold fw_enumerate_rules. rewrite <- Hprof, <- Hflags, Hengine.
    rewrite Z.eqb_refl. cbn [negb].
    rewrite dump_rules_all.
    + rewrite Z.add_0_l, <- Hcount. reflexivity.
    + unfold int_of_ULONG.
      assert (Hlt : (rule_count <? 2 ^ 31) = true) by (apply Z.ltb_lt; lia).
      rewrite Hlt. lia.
  - rewrite fold_dump_calls. reflexivity.
  - intros rule Hin. apply fold_dump_has_rule. exact Hin.
  - intros rules' Hmap. apply fold_dump_set_Status. exact Hmap.
Qed.

End Properties.

(** ** What the text has no part in *)

Section TextOnly.
Context {env : Environment}.

Lemma without_text_fw_buf_add : forall item s,
  without_text (fw_buf_add item s) = without_text s.
Proof. reflexivity. Qed.

Lemma without_text_print_country_location : forall ia4 ia6 s,
  without_text (print_country_location ia4 ia6 s) = without_text s.
Proof.
  intros ia4 ia6 s. unfold print_country_location.
  destruct (match ia4, ia6 with
            | Some a, _ => geoip_get_country_by_ipv4 a
            | None, Some a => geoip_get_country_by_ipv6 a
            | None, None => None
            end) as [a2 |]; [| reflexivity].
  destruct (not_dash a2); [| reflexivity].
  destruct (if is_NULL ia4 then fw_have_ip2loc6 s else fw_have_ip2loc4 s);
    reflexivity.
Qed.

(** The two functions that print the addresses change [fw_buf] alone. *)
Lemma without_text_print_addresses_ipv4 : forall header dir s,
  without_text (snd (print_addresses_ipv4 header dir s)) = without_text s.
Proof.
  intros header dir s. unfold print_addresses_ipv4.
  destruct (negb _); [reflexivity |].
  destruct (_ || _); [reflexivity |].
  destruct (_ && _); [reflexivity |].
  destruct (_ && _); [reflexivity |].
  cbn [snd].
  destruct (flag_set (flags header) FWPM_NET_EVENT_FLAG_REMOTE_ADDR_SET);
    [rewrite without_text_print_country_location |]; destruct dir; reflexivity.
Qed.

Lemma without_text_print_addresses_ipv6 : forall header dir s,
  without_text (snd (print_addresses_ipv6 header dir s)) = without_text s.
Proof.
  intros header dir s. unfold print_addresses_ipv6.
  destruct (negb _); [reflexivity |].
  destruct (_ || _); [reflexivity |].
  destruct (_ && _); [reflexivity |].
  destruct (_ && _); [reflexivity |].
  cbn [snd].
  destruct (flag_set (flags header) FWPM_NET_EVENT_FLAG_REMOTE_ADDR_SET);
    [rewrite without_text_print_country_location |]; destruct dir; reflexivity.
Qed.

(** What comes after the addresses reads nothing of the text: from two
    states with the same variables it gives the same answers and comes to
    two states with the same variables. *)
Lemma lookup_or_add_SID_text : forall sid s1 s2,
  without_text s1 = without_text s2 ->
  fst (lookup_or_add_SID sid s1) = fst (lookup_or_add_SID sid s2)
  /\ without_text (snd (lookup_or_add_SID sid s1))
     = without_text (snd (lookup_or_add_SID sid s2)).
Proof.
  intros sid s1 s2 H. same_but_text H.
  unfold lookup_or_add_SID, lookup_account_SID. cbn.
  destruct (find _ _); [split; reflexivity |].
  destruct (negb _ && _ && _); split; reflexivity.
Qed.

Lemma print_app_id_text : forall header s1 s2,
  without_text s1 = without_text s2 ->
  fst (print_app_id header s1) = fst (print_app_id header s2)
  /\ without_text (snd (print_app_id header s1))
     = without_text (snd (print_app_id header s2)).
Proof.
  intros header s1 s2 H. same_but_text H. unfold print_app_id. cbn.
  destruct (_ || _); [split; reflexivity |].
  destruct (WideCharToMultiByte _ _ _) as [converted buf].
  destruct (negb _); destruct (_ || _); split; reflexivity.
Qed.

Lemma print_user_id_text : forall header s1 s2,
  without_text s1 = without_text s2 ->
  fst (print_user_id header s1) = fst (print_user_id header s2)
  /\ without_text (snd (print_user_id header s1))
     = without_text (snd (print_user_id header s2)).
Proof.
  intros header s1 s2 H. unfold print_user_id.
  destruct (negb _); [split; [reflexivity | exact H] |].
  destruct (userId header) as [sid |]; [| split; [reflexivity | exact H]].
  destruct (lookup_or_add_SID_text sid s1 s2 H) as [Hse Hs].
  destruct (lookup_or_add_SID sid s1) as [se1 t1].
  destruct (lookup_or_add_SID sid s2) as [se2 t2].
  cbn [fst snd] in Hse, Hs. subst se2. same_but_text Hs. cbn.
  destruct (_ && _); split; reflexivity.
Qed.

Lemma print_package_id_text : forall header s1 s2,
  without_text s1 = without_text s2 ->
  fst (print_package_id header s1) = fst (print_package_id header s2)
  /\ without_text (snd (print_package_id header s1))
     = without_text (snd (print_package_id header s2)).
Proof.
  intros header s1 s2 H. unfold print_package_id.
  destruct (negb _); [split; [reflexivity | exact H] |].
  destruct (packageSid header) as [sid |]; [| split; [reflexivity | exact H]].
  destruct (lookup_or_add_SID_text sid s1 s2 H) as [Hse Hs].
  destruct (lookup_or_add_SID sid s1) as [se1 t1].
  destruct (lookup_or_add_SID sid s2) as [se2 t2].
  cbn [fst snd] in Hse, Hs. subst se2. same_but_text Hs. cbn.
  destruct (sid_str se1) as [str |]; [| split; reflexivity].
  destruct (_ || _); split; reflexivity.
Qed.

Lemma print_eff_name_id_text : forall header s1 s2,
  without_text s1 = without_text s2 ->
  without_text (print_eff_name_id header s1)
  = without_text (print_eff_name_id header s2).
Proof.
  intros header s1 s2 H. unfold print_eff_name_id.
  destruct (_ =? 0); [exact H |].
  destruct (data (effectiveName header)); [| exact H].
  destruct (_ =? 0); [exact H |].
  rewrite !without_text_fw_buf_add. exact H.
Qed.

Lemma print_reauth_reason_text : forall header d a s1 s2,
  without_text s1 = without_text s2 ->
  option_map without_text (print_reauth_reason header d a s1)
  = option_map without_text (print_reauth_reason header d a s2).
Proof.
  intros header d a s1 s2 H. unfold print_reauth_reason.
  destruct (negb _); [cbn; rewrite H; reflexivity |].
  destruct d, a; cbn; rewrite ?without_text_fw_buf_add, ?H; reflexivity.
Qed.

Lemma emit_or_ignore_text : forall adr1 adr2 prg usr pkg s1 s2,
  without_text s1 = without_text s2 ->
  without_text (emit_or_ignore (adr1, prg, usr, pkg) s1)
  = without_text (emit_or_ignore (adr2, prg, usr, pkg) s2).
Proof.
  intros adr1 adr2 prg usr pkg s1 s2 H. same_but_text H.
  unfold emit_or_ignore, fw_buf_flush.
  destruct prg, usr, pkg, adr1, adr2; cbn;
    repeat match goal with
           | |- context [match ?l with [] => _ | _ :: _ => _ end] => destruct l
           end; reflexivity.
Qed.

End TextOnly.

(** ** The list of excluded addresses *)

Section AddressList.
Context {env : Environment}.
Variable listed : string -> bool.

(** With another list of excluded addresses all functions of the callback
    but the two that print the addresses are the same functions. *)
Lemma event_kind_part_address_list : forall event_type header d1 d2 a1 a2 s,
  event_kind_part (env := with_address_list listed env) event_type header d1 d2 a1 a2 s
  = event_kind_part event_type header d1 d2 a1 a2 s.
Proof. reflexivity. Qed.

Lemma print_app_id_address_list : forall header s,
  print_app_id (env := with_address_list listed env) header s = print_app_id header s.
Proof. reflexivity. Qed.

Lemma print_user_id_address_list : forall header s,
  print_user_id (env := with_address_list listed env) header s = print_user_id header s.
Proof. reflexivity. Qed.

Lemma print_package_id_address_list : forall header s,
  print_package_id (env := with_address_list listed env) header s = print_package_id header s.
Proof. reflexivity. Qed.

(** The four answers of [print_parts()] but the first, and the variables
    after it, do not depend on the list of excluded addresses. *)
Lemma print_parts_address_list : forall header dir s,
  exists adr' adr prg usr pkg t' t,
    print_parts (env := with_address_list listed env) header dir s = ((adr', prg, usr, pkg), t')
    /\ print_parts header dir s = ((adr, prg, usr, pkg), t)
    /\ without_text t' = without_text t.
Proof.
  intros header dir s. unfold print_parts.
  pose proof (without_text_print_addresses_ipv4
                (env := with_address_list listed env) header dir s) as H1'.
  pose proof (without_text_print_addresses_ipv4 header dir s) as H1.
  destruct (print_addresses_ipv4 (env := with_address_list listed env) header dir s)
    as [a4' u1'].
  destruct (print_addresses_ipv4 header dir s) as [a4 u1].
  cbn [snd] in H1', H1.
  assert (H2' : exists a6' u2',
            (if negb a4'
             then print_addresses_ipv6 (env := with_address_list listed env)
                    header dir u1'
             else (a4', u1')) = (a6', u2')
            /\ without_text u2' = without_text s).
  { destruct (negb a4').
    - pose proof (without_text_print_addresses_ipv6
                    (env := with_address_list listed env) header dir u1') as H6.
      destruct (print_addresses_ipv6 (env := with_address_list listed env)
                  header dir u1') as [a6' u2'].
      exists a6', u2'. split; [reflexivity |]. cbn [snd] in H6. congruence.
    - exists a4', u1'. split; [reflexivity | exact H1']. }
  assert (H2 : exists a6 u2,
            (if negb a4 then print_addresses_ipv6 header dir u1 else (a4, u1))
            = (a6, u2)
            /\ without_text u2 = without_text s).
  { destruct (negb a4).
    - pose proof (without_text_print_addresses_ipv6 header dir u1) as H6.
      destruct (print_addresses_ipv6 header dir u1) as [a6 u2].
      exists a6, u2. split; [reflexivity |]. cbn [snd] in H6. congruence.
    - exists a4, u1. split; [reflexivity | exact H1]. }
  destruct H2' as (a6' & u2' & -> & K2'). destruct H2 as (a6 & u2 & -> & K2).
  assert (K : without_text u2' = without_text u2) by congruence.
  rewrite print_app_id_address_list.
  destruct (print_app_id_text header u2' u2 K) as [Hprg K3].
  destruct (print_app_id header u2') as [prg' u3'].
  destruct (print_app_id header u2) as [prg u3].
  cbn [fst snd] in Hprg, K3. subst prg'.
  rewrite print_user_id_address_list.
  destruct (print_user_id_text header u3' u3 K3) as [Husr K4].
  destruct (print_user_id header u3') as [usr' u4'].
  destruct (print_user_id header u3) as [usr u4].
  cbn [fst snd] in Husr, K4. subst usr'.
  rewrite print_package_id_address_list.
  destruct (print_package_id_text header u4' u4 K4) as [Hpkg K5].
  destruct (print_package_id header u4') as [pkg' u5'].
  destruct (print_package_id header u4) as [pkg u5].
  cbn [fst snd] in Hpkg, K5. subst pkg'.
  exists a6', a6, prg, usr, pkg. do 2 eexists.
  split; [reflexivity |]. split; [reflexivity |].
  apply (print_eff_name_id_text header u5' u5 K5).
Qed.

(** The callback comes to the same variables whatever the list of excluded
    addresses is: the list has a part in the text alone. *)
Lemma fw_event_callback_address_list : forall event_type header d1 d2 a1 a2 st,
  option_map without_text
    (fw_event_callback (env := with_address_list listed env) event_type header d1 d2 a1 a2 st)
  = option_map without_text (fw_event_callback event_type header d1 d2 a1 a2 st).
Proof.
  intros event_type header d1 d2 a1 a2 st. unfold fw_event_callback.
  change (ip_version_ignored (env := with_address_list listed env) header (fw_buf_reset st))
    with (ip_version_ignored header (fw_buf_reset st)).
  destruct (ip_version_ignored header (fw_buf_reset st)); [reflexivity |].
  rewrite event_kind_part_address_list.
  destruct (event_kind_part _ _ _ _ _ _ _) as [| s2 | dir s2];
    [reflexivity | reflexivity |].
  destruct (print_parts_address_list header dir s2)
    as (adr' & adr & prg & usr & pkg & t' & t & -> & -> & K).
  assert (Hre : forall u' u,
            without_text u' = without_text u ->
            option_map without_text
              (if (event_type =? _FWPM_NET_EVENT_TYPE_CLASSIFY_ALLOW)
                  || (event_type =? _FWPM_NET_EVENT_TYPE_CLASSIFY_DROP)
               then print_reauth_reason header d1 a1 u' else Some u')
            = option_map without_text
                (if (event_type =? _FWPM_NET_EVENT_TYPE_CLASSIFY_ALLOW)
                    || (event_type =? _FWPM_NET_EVENT_TYPE_CLASSIFY_DROP)
                 then print_reauth_reason header d1 a1 u else Some u)).
  { intros u' u Hu. destruct (_ || _).
    - apply print_reauth_reason_text. exact Hu.
    - cbn. rewrite Hu. reflexivity. }
  specialize (Hre t' t K).
  destruct (if (event_type =? _FWPM_NET_EVENT_TYPE_CLASSIFY_ALLOW)
               || (event_type =? _FWPM_NET_EVENT_TYPE_CLASSIFY_DROP)
            then print_reauth_reason header d1 a1 t' else Some t') as [v' |];
    destruct (if (event_type =? _FWPM_NET_EVENT_TYPE_CLASSIFY_ALLOW)
                 || (event_type =? _FWPM_NET_EVENT_TYPE_CLASSIFY_DROP)
              then print_reauth_reason header d1 a1 t else Some t) as [v |];
    cbn in Hre |- *; try discriminate; [| reflexivity].
  f_equal. apply emit_or_ignore_text. congruence.
Qed.

End AddressList.

(** ** The visibility filter with [show_all] *)

Section ShowAll.
Context {env : Environment}.

(** C2, as amended: with [show_all] set, an event of a decoded type is
    emitted unless the configuration does not show its IP version, or all
    three of these hold: its header has an application that is on the list
    of excluded programs, its user is suppressed and its package is
    suppressed. In those cases it is ignored. The user is suppressed exactly
    when the header has a user whose entry has the account of the logged-on
    user, whatever the case of the letters, while [show_user] is set; the
    package, exactly when the header has a package SID whose entry has no
    string form. The list of excluded addresses never decides: with any
    other list the callback returns as well, and the event is ignored, or
    emitted, as it is with this one. *)
Theorem show_all_event_emitted_unless :
  forall event_type header d1 d2 a1 a2 st,
    show_all (g_cfg st) = true ->
    event_present event_type d1 d2 a1 a2 = true ->
    exists st',
      fw_event_callback event_type header d1 d2 a1 a2 st = Some st'
      /\ (if ip_version_ignored header st
             || (has_app_id header && on_program_list header
                 && user_suppressed header st' && package_suppressed header st')
          then ignored st st' else emitted st st')
      /\ (user_suppressed header st' = true <->
          flag_set (flags header) FWPM_NET_EVENT_FLAG_USER_ID_SET = true
          /\ show_user (g_cfg st) = true
          /\ exists sid se,
               userId header = Some sid
               /\ cached_SID sid st' = Some se
               /\ stricmp (account_string se) (fw_logged_on_user st) = 0)
      /\ (package_suppressed header st' = true <->
          flag_set (flags header) FWPM_NET_EVENT_FLAG_PACKAGE_ID_SET = true
          /\ exists sid se,
               packageSid header = Some sid
               /\ cached_SID sid st' = Some se /\ sid_str se = None)
      /\ (forall listed,
            exists st'',
              fw_event_callback (env := with_address_list listed env)
                event_type header d1 d2 a1 a2 st = Some st''
              /\ (ignored st st'' <-> ignored st st')
              /\ (emitted st st'' <-> emitted st st')).
Proof.
  intros event_type header d1 d2 a1 a2 st Hall Hpres.
  destruct (fw_event_callback_present event_type header d1 d2 a1 a2 st Hpres)
    as (st' & Hcb & _ & Hcfg & _ & Hlog & Hdec).
  exists st'. split; [exact Hcb |].
  split; [| split; [| split]].
  - rewrite program_suppressed_eq, Hall in Hdec. exact Hdec.
  - unfold user_suppressed. rewrite Hcfg, Hlog.
    destruct (flag_set (flags header) FWPM_NET_EVENT_FLAG_USER_ID_SET);
      cbn [andb]; [| split; [discriminate | intros [Hf _]; discriminate]].
    destruct (userId header) as [sid |];
      [| split; [discriminate | intros (_ & _ & x & y & Hn & _); discriminate]].
    destruct (cached_SID sid st') as [se |] eqn:Hc;
      [| split; [discriminate
                | intros (_ & _ & x & y & Hn & Hx & _); inversion Hn; subst x;
                  rewrite Hc in Hx; discriminate]].
    split.
    + intro Hb. apply andb_true_iff in Hb. destruct Hb as [Hu Hs].
      split; [reflexivity |]. split; [exact Hu |]. exists sid, se.
      split; [reflexivity |]. split; [exact Hc |]. apply Z.eqb_eq. exact Hs.
    + intros (_ & Hu & x & y & Hn & Hx & Hs). inversion Hn; subst x.
      rewrite Hc in Hx. inversion Hx; subst y.
      rewrite Hu. apply Z.eqb_eq in Hs. rewrite Hs. reflexivity.
  - unfold package_suppressed. rewrite Hcfg, Hall. cbn [orb negb].
    destruct (flag_set (flags header) FWPM_NET_EVENT_FLAG_PACKAGE_ID_SET);
      cbn [andb]; [| split; [discriminate | intros [Hf _]; discriminate]].
    destruct (packageSid header) as [sid |];
      [| split; [discriminate | intros (_ & x & y & Hn & _); discriminate]].
    destruct (cached_SID sid st') as [se |] eqn:Hc;
      [| split; [discriminate
                | intros (_ & x & y & Hn & Hx & _); inversion Hn; subst x;
                  rewrite Hc in Hx; discriminate]].
    destruct (sid_str se) as [str |] eqn:Hstr.
    + split; [discriminate |].
      intros (_ & x & y & Hn & Hx & Hs). inversion Hn; subst x.
      rewrite Hc in Hx. inversion Hx; subst y. congruence.
    + split; [| reflexivity]. intros _. split; [reflexivity |].
      exists sid, se. split; [reflexivity |]. split; [exact Hc | exact Hstr].
  - intro listed.
    destruct (fw_event_callback_present (env := with_address_list listed env)
                event_type header d1 d2 a1 a2 st Hpres)
      as (st'' & Hcb'' & _ & _ & _ & _ & Hdec'').
    exists st''. split; [exact Hcb'' |].
    pose proof (fw_event_callback_address_list listed event_type header
                  d1 d2 a1 a2 st) as Htext.
    rewrite Hcb'', Hcb in Htext. cbn in Htext.
    assert (Hsame : without_text st'' = without_text st') by congruence.
    assert (Husr : user_suppressed header st'' = user_suppressed header st').
    { apply user_suppressed_ext.
      - exact (f_equal fw_SID_list Hsame).
      - exact (f_equal g_cfg Hsame).
      - exact (f_equal fw_logged_on_user Hsame). }
    assert (Hpkg : package_suppressed header st'' = package_suppressed header st').
    { apply package_suppressed_ext.
      - exact (f_equal fw_SID_list Hsame).
      - exact (f_equal g_cfg Hsame). }
    change (ip_version_ignored (env := with_address_list listed env) header st)
      with (ip_version_ignored header st) in Hdec''.
    change (program_suppressed (env := with_address_list listed env) header st)
      with (program_suppressed header st) in Hdec''.
    rewrite Husr, Hpkg in Hdec''.
    destruct (ip_version_ignored header st
              || program_suppressed header st && user_suppressed header st'
                 && package_suppressed header st').
    + split; split; intro Hx;
        solve [ assumption
              | exfalso; eapply (emitted_not_ignored st st''); eassumption
              | exfalso; eapply (emitted_not_ignored st st'); eassumption ].
    + split; split; intro Hx;
        solve [ assumption
              | exfalso; eapply (emitted_not_ignored st st''); eassumption
              | exfalso; eapply (emitted_not_ignored st st'); eassumption ].
Qed.

End ShowAll.

(** ** The properties at concrete inputs *)

(** C1: the engine of [sample_env] has the entry point of level 0 alone, and
    a call of it succeeds. With [fw_api] at [FW_API_HIGH], and also at
    [FW_API_DEFAULT], [fw_monitor_subscribe()] fails with
    [ERROR_BAD_COMMAND] and has made no call; it subscribes only when
    [fw_api] is 0 itself. *)
Theorem fw_monitor_subscribe_no_fallback :
  fw_monitor_subscribe (env := sample_env) (sample_state cfg_usual FW_API_HIGH)
  = (false, set_fw_errno 22 (sample_state cfg_usual FW_API_HIGH))
  /\ fw_monitor_subscribe (env := sample_env) (sample_state cfg_usual FW_API_DEFAULT)
     = (false, set_fw_errno 22 (sample_state cfg_usual FW_API_DEFAULT))
  /\ calls (snd (fw_monitor_subscribe (env := sample_env)
                   (sample_state cfg_usual FW_API_HIGH))) = []
  /\ fst (fw_monitor_subscribe (env := sample_env)
            (sample_state cfg_usual FW_API_LOW)) = true
  /\ calls (snd (fw_monitor_subscribe (env := sample_env)
                   (sample_state cfg_usual FW_API_LOW)))
     = [Call_FwpmNetEventSubscribe 0].
Proof.
  repeat split; vm_compute; reflexivity.
Qed.

(** C2 fails as stated: with [show_all] set, an IPv6 event is ignored when
    IPv6 is not shown; and with every IP version shown, an event is ignored
    when its program is excluded, its user is the logged-on user and its
    package SID has no string form. *)
Lemma show_all_event_ignored :
  show_all cfg_no_ipv6 = true
  /\ (exists st',
         classify_drop_callback header_ipv6 (sample_state cfg_no_ipv6 3) = Some st'
         /\ fw_num_events st' = 0 /\ fw_num_ignored st' = 1 /\ trace_out st' = [])
  /\ show_all cfg_show_all = true
  /\ (exists st',
         classify_drop_callback header_all_three (sample_state cfg_show_all 3) = Some st'
         /\ fw_num_events st' = 0 /\ fw_num_ignored st' = 1 /\ trace_out st' = []).
Proof.
  split; [reflexivity |].
  split; [eexists; split; [vm_compute; reflexivity | repeat split] |].
  split; [reflexivity |].
  eexists; split; [vm_compute; reflexivity | repeat split].
Qed.

(** C6 fails as stated: with [show_user] set and [show_all] off, an event
    whose user is the logged-on user alice, and which has neither an
    application nor a package, is emitted. *)
Lemma own_user_event_emitted :
  show_user cfg_usual = true /\ show_all cfg_usual = false
  /\ exists st',
       classify_drop_callback header_alice (sample_state cfg_usual 3) = Some st'
       /\ (exists se, cached_SID alice_sid st' = Some se
                      /\ account_string se = fw_logged_on_user st')
       /\ fw_num_events st' = 1 /\ fw_num_ignored st' = 0
       /\ trace_out st' = [[Buf_event 0 3; Buf_direction 0; Buf_newline]].
Proof.
  split; [reflexivity |]. split; [reflexivity |].
  eexists. split; [vm_compute; reflexivity |].
  split; [eexists; split; vm_compute; reflexivity |].
  repeat split.
Qed.

(** The text of an event of the logged-on user that is emitted: the line
    of the user is left out, and the line of the addresses, which was put
    into [fw_buf] before [print_user_id()] was called, is written. *)
Lemma own_user_event_text :
  option_map (fun st' => (trace_out st', fw_num_events st', fw_num_ignored st'))
    (classify_drop_callback header_alice_addresses (sample_state cfg_usual 3))
  = Some ([[Buf_event 0 3; Buf_direction 0; Buf_newline;
            Buf_addr "10.0.0.1" "10.0.0.1" None (Some (Port_unset, Port_unset))]],
          1, 0).
Proof.
  vm_compute. reflexivity.
Qed.

(** C7 fails as stated: an event without application and without user is
    emitted; and so is an event whose program and user are both
    suppressed, when it has no package. *)
Lemma absent_program_and_user_emitted :
  (exists st',
      classify_drop_callback header_bare (sample_state cfg_usual 3) = Some st'
      /\ fw_num_events st' = 1 /\ fw_num_ignored st' = 0)
  /\ (exists st',
         classify_drop_callback header_other_alice (sample_state cfg_usual 3) = Some st'
         /\ program_suppressed (env := sample_env) header_other_alice
              (sample_state cfg_usual 3) = true
         /\ user_suppressed header_other_alice st' = true
         /\ fw_num_events st' = 1 /\ fw_num_ignored st' = 0).
Proof.
  split; eexists; (split; [vm_compute; reflexivity |]);
    repeat split; vm_compute; reflexivity.
Qed.

(** C10 fails as stated: an IKE failure event for IPv6 is counted as
    ignored when IPv6 is not shown. *)
Lemma other_event_type_counted :
  decoded_type _FWPM_NET_EVENT_TYPE_IKEEXT_MM_FAILURE = false
  /\ fw_num_ignored (sample_state cfg_no_ipv6 3) = 0
  /\ exists st',
       fw_event_callback (env := sample_env) _FWPM_NET_EVENT_TYPE_IKEEXT_MM_FAILURE
         header_ipv6 None None None None (sample_state cfg_no_ipv6 3) = Some st'
       /\ fw_num_ignored st' = 1.
Proof.
  split; [reflexivity |]. split; [reflexivity |].
  eexists. split; [vm_compute; reflexivity | reflexivity].
Qed.

(** C8 fails as stated: the status of [rule_semantic_error] is a member of
    the enumeration that is named after a semantic error, with the class
    bits of that class, and yet the enumerator dumps the rule as it dumps
    the same rule with the status [FW_RULE_STATUS_OK]: the two lines that
    it writes have the number, the direction, the description and the
    name, and the state after them is the same. *)
Lemma semantic_error_rule_not_classified :
  In (Status rule_semantic_error) FW_RULE_STATUS_SEMANTIC_members
  /\ Z.land (Status rule_semantic_error) FW_RULE_STATUS_CLASS_ALL
     = FW_RULE_STATUS_CLASS_SEMANTIC_ERROR
  /\ Status (set_Status FW_RULE_STATUS_OK rule_semantic_error) = FW_RULE_STATUS_OK
  /\ fw_enumerate_rules (env := one_rule_env rule_semantic_error)
       (sample_state cfg_usual 3)
     = fw_enumerate_rules
         (env := one_rule_env (set_Status FW_RULE_STATUS_OK rule_semantic_error))
         (sample_state cfg_usual 3)
  /\ fst (fw_enumerate_rules (env := one_rule_env rule_semantic_error)
            (sample_state cfg_usual 3)) = 1
  /\ trace_out (snd (fw_enumerate_rules (env := one_rule_env rule_semantic_error)
                       (sample_state cfg_usual 3)))
     = [[Buf_rule 1 "OUT" "?"]; [Buf_rule_name "bad"; Buf_newline]].
Proof.
  split; [right; left; reflexivity |].
  do 4 (split; [vm_compute; reflexivity |]).
  vm_compute. reflexivity.
Qed.


(** The theorems with hypotheses, at inputs that meet them. *)

Lemma cache_one_resolution_per_key_witness :
  (forall k, (resolution_attempts k (calls state_end) <= 1)%nat)
  /\ (Filter_id 7 <> Filter_id 0 ->
      cached (Filter_id 7) state_end
      = Some (fst (lookup_or_resolve (env := sample_env) (Filter_id 7) state_before)))
  /\ lookup_or_resolve (env := sample_env) (Filter_id 7) state_end
     = (fst (lookup_or_resolve (env := sample_env) (Filter_id 7) state_before),
        state_end)
  /\ (Filter_id 7 <> Filter_id 0 ->
      match cached (Filter_id 7) state_before with
      | Some e =>
          lookup_or_resolve (env := sample_env) (Filter_id 7) state_before
          = (e, state_before)
      | None =>
          fst (lookup_or_resolve (env := sample_env) (Filter_id 7) state_before)
          = resolved (env := sample_env) (Filter_id 7) (calls state_before)
          /\ calls (snd (lookup_or_resolve (env := sample_env) (Filter_id 7)
                           state_before))
             = calls state_before
               ++ resolution_calls (env := sample_env) (Filter_id 7)
                    (calls state_before)
      end).
Proof.
  apply (cache_one_resolution_per_key (env := sample_env)
           (sample_state cfg_usual 3) ops_before (Filter_id 7) ops_after
           state_before state_end).
  - repeat split.
  - vm_compute. reflexivity.
  - vm_compute. reflexivity.
Defined.

Lemma fw_event_callback_ip_version_ignored_witness :
  exists st',
    classify_drop_callback header_ipv6 (sample_state cfg_no_ipv6 3) = Some st'
    /\ fw_num_ignored st' = DWORD_inc (fw_num_ignored (sample_state cfg_no_ipv6 3))
    /\ fw_num_events st' = fw_num_events (sample_state cfg_no_ipv6 3)
    /\ fw_SID_list st' = fw_SID_list (sample_state cfg_no_ipv6 3)
    /\ fw_filter_list st' = fw_filter_list (sample_state cfg_no_ipv6 3)
    /\ calls st' = calls (sample_state cfg_no_ipv6 3)
    /\ trace_out st' = trace_out (sample_state cfg_no_ipv6 3).
Proof.
  apply (fw_event_callback_ip_version_ignored (env := sample_env)
           _FWPM_NET_EVENT_TYPE_CLASSIFY_DROP header_ipv6
           (Some sample_classify) None None None (sample_state cfg_no_ipv6 3)).
  - vm_compute. discriminate.
  - right. split; reflexivity.
Defined.


Lemma show_all_event_emitted_unless_witness :
  exists st',
    classify_drop_callback header_addresses (sample_state cfg_show_all 3) = Some st'
    /\ (if ip_version_ignored (env := sample_env) header_addresses
              (sample_state cfg_show_all 3)
           || (has_app_id header_addresses
               && on_program_list (env := sample_env) header_addresses
               && user_suppressed header_addresses st'
               && package_suppressed header_addresses st')
        then ignored (sample_state cfg_show_all 3) st'
        else emitted (sample_state cfg_show_all 3) st')
    /\ (user_suppressed header_addresses st' = true <->
        flag_set (flags header_addresses) FWPM_NET_EVENT_FLAG_USER_ID_SET = true
        /\ show_user (g_cfg (sample_state cfg_show_all 3)) = true
        /\ exists sid se,
             userId header_addresses = Some sid
             /\ cached_SID sid st' = Some se
             /\ stricmp (account_string se)
                  (fw_logged_on_user (sample_state cfg_show_all 3)) = 0)
    /\ (package_suppressed header_addresses st' = true <->
        flag_set (flags header_addresses) FWPM_NET_EVENT_FLAG_PACKAGE_ID_SET = true
        /\ exists sid se,
             packageSid header_addresses = Some sid
             /\ cached_SID sid st' = Some se /\ sid_str se = None)
    /\ (forall listed,
          exists st'',
            fw_event_callback (env := with_address_list listed sample_env)
              _FWPM_NET_EVENT_TYPE_CLASSIFY_DROP header_addresses
              (Some sample_classify) None None None (sample_state cfg_show_all 3)
            = Some st''
            /\ (ignored (sample_state cfg_show_all 3) st''
                <-> ignored (sample_state cfg_show_all 3) st')
            /\ (emitted (sample_state cfg_show_all 3) st''
                <-> emitted (sample_state cfg_show_all 3) st')).
Proof.
  apply (show_all_event_emitted_unless (env := sample_env)
           _FWPM_NET_EVENT_TYPE_CLASSIFY_DROP header_addresses
           (Some sample_classify) None None None (sample_state cfg_show_all 3)).
  - reflexivity.
  - reflexivity.
Defined.

Lemma own_user_event_ignored_iff_witness :
  let st := sample_state cfg_usual 3 in
  let st' := state_after st (classify_drop_callback header_other_alice st) in
  (ignored st st' <->
     ip_version_ignored (env := sample_env) header_other_alice st = true
     \/ (has_app_id header_other_alice = true
         /\ is_fw_module (env := sample_env) header_other_alice st = false
         /\ package_suppressed header_other_alice st' = true))
  /\ (emitted st st' <->
        ip_version_ignored (env := sample_env) header_other_alice st = false
        /\ (has_app_id header_other_alice = false
            \/ is_fw_module (env := sample_env) header_other_alice st = true
            \/ package_suppressed header_other_alice st' = false))
  /\ (package_suppressed header_other_alice st' = true <->
        flag_set (flags header_other_alice) FWPM_NET_EVENT_FLAG_PACKAGE_ID_SET = true
        /\ exists package_sid package_se,
             packageSid header_other_alice = Some package_sid
             /\ cached_SID package_sid st' = Some package_se
             /\ (sid_str package_se = None
                 \/ exists str,
                      sid_str package_se = Some str /\ strcmp NULL_SID str = 0)).
Proof.
  intros st st'.
  apply (own_user_event_ignored_iff (env := sample_env)
           _FWPM_NET_EVENT_TYPE_CLASSIFY_DROP header_other_alice
           (Some sample_classify) None None None st st' alice_sid alice_entry).
  - reflexivity.
  - reflexivity.
  - reflexivity.
  - vm_compute. reflexivity.
  - reflexivity.
  - reflexivity.
  - vm_compute. reflexivity.
  - vm_compute. reflexivity.
Defined.

Lemma no_program_no_user_event_witness :
  let st := sample_state cfg_usual 3 in
  let st' := state_after st (classify_drop_callback header_other_alice st) in
  (flag_set (flags header_other_alice) FWPM_NET_EVENT_FLAG_APP_ID_SET = false ->
   flag_set (flags header_other_alice) FWPM_NET_EVENT_FLAG_USER_ID_SET = false ->
   emitted st st')
  /\ (program_suppressed (env := sample_env) header_other_alice st = true ->
      user_suppressed header_other_alice st' = true ->
      (emitted st st' <-> package_suppressed header_other_alice st' = false)
      /\ (ignored st st' <-> package_suppressed header_other_alice st' = true)).
Proof.
  intros st st'.
  apply (no_program_no_user_event (env := sample_env)
           _FWPM_NET_EVENT_TYPE_CLASSIFY_DROP header_other_alice
           (Some sample_classify) None None None st st').
  - reflexivity.
  - reflexivity.
  - vm_compute. reflexivity.
Defined.

Lemma fw_event_callback_counts_witness :
  exists st',
    classify_drop_callback header_alice (sample_state cfg_usual 3) = Some st'
    /\ if decoded_type _FWPM_NET_EVENT_TYPE_CLASSIFY_DROP then
         (fw_num_events st' = DWORD_inc (fw_num_events (sample_state cfg_usual 3))
          /\ fw_num_ignored st' = fw_num_ignored (sample_state cfg_usual 3))
         \/ (fw_num_ignored st' = DWORD_inc (fw_num_ignored (sample_state cfg_usual 3))
             /\ fw_num_events st' = fw_num_events (sample_state cfg_usual 3))
       else
         fw_num_events st' = fw_num_events (sample_state cfg_usual 3)
         /\ fw_num_ignored st' =
              if ip_version_ignored (env := sample_env) header_alice
                   (sample_state cfg_usual 3)
              then DWORD_inc (fw_num_ignored (sample_state cfg_usual 3))
              else fw_num_ignored (sample_state cfg_usual 3).
Proof.
  apply (fw_event_callback_counts (env := sample_env)
           _FWPM_NET_EVENT_TYPE_CLASSIFY_DROP header_alice
           (Some sample_classify) None None None (sample_state cfg_usual 3)).
  left. reflexivity.
Defined.

Lemma fw_enumerate_rules_dumps_every_rule_witness :
  exists st',
    fw_enumerate_rules (env := sample_env) (sample_state cfg_usual 3) = (2, st')
    /\ st' = fold_left (fun s rule => fw_dump_rule (env := sample_env) rule s)
               [rule_ok; rule_semantic_error]
               (log_call (Call_FWEnumFirewallRules FW_RULE_STATUS_CLASS_ALL
                            FW_PROFILE_TYPE_CURRENT 15) (sample_state cfg_usual 3))
    /\ calls st' = calls (sample_state cfg_usual 3)
                   ++ [Call_FWEnumFirewallRules FW_RULE_STATUS_CLASS_ALL
                         FW_PROFILE_TYPE_CURRENT 15]
    /\ (forall rule,
           In rule [rule_ok; rule_semantic_error] ->
           exists num,
             In [Buf_rule num (rule_direction rule)
                   (rule_ascii (env := sample_env) (wszDescription rule))]
                (trace_out st'))
    /\ (forall rules',
           map (set_Status 0) rules' = map (set_Status 0) [rule_ok; rule_semantic_error] ->
           fold_left (fun s rule => fw_dump_rule (env := sample_env) rule s) rules'
             (log_call (Call_FWEnumFirewallRules FW_RULE_STATUS_CLASS_ALL
                          FW_PROFILE_TYPE_CURRENT 15) (sample_state cfg_usual 3))
           = st').
Proof.
  apply (fw_enumerate_rules_dumps_every_rule (env := sample_env)
           (sample_state cfg_usual 3) FW_PROFILE_TYPE_CURRENT 15 2
           [rule_ok; rule_semantic_error]).
  - reflexivity.
  - reflexivity.
  - reflexivity.
  - reflexivity.
  - reflexivity.
Defined.

(** ** Further properties: the subscription *)

Section SubscriptionProperties.
Context {env : Environment}.

(** [fw_monitor_subscribe()] for a legal level, in one piece: the five
    expansions of [SET_API_CALLBACK] come down to one call at the level
    [fw_api]; after a failed call the levels below are looked at only for
    a missing entry point. *)
Lemma fw_monitor_subscribe_cases : forall st,
  FW_API_LOW <= fw_api st <= FW_API_HIGH ->
  fw_monitor_subscribe st =
    match p_FwpmNetEventSubscribe (fw_api st) with
    | None => (false, set_fw_errno ERROR_BAD_COMMAND st)
    | Some subscribe =>
        let st1 := log_call (Call_FwpmNetEventSubscribe (fw_api st))
                     (set_fw_event_handle (snd (subscribe (calls st) (fw_event_handle st)))
                        (set_fw_errno (fst (subscribe (calls st) (fw_event_handle st))) st)) in
        if fst (subscribe (calls st) (fw_event_handle st)) =? ERROR_SUCCESS
        then (true, st1)
        else (false, if lower_entry_missing (fw_api st)
                     then set_fw_errno ERROR_BAD_COMMAND st1 else st1)
    end.
Proof.
  intros st [Hlo Hhi].
  destruct (p_FwpmNetEventSubscribe (fw_api st)) as [subscribe |] eqn:Hp;
    [| apply fw_monitor_subscribe_missing_entry; [split; assumption | exact Hp]].
  unfold fw_monitor_subscribe, FW_API_LOW, FW_API_HIGH in *.
  assert (H1 : (fw_api st <? 0) = false) by (apply Z.ltb_ge; lia).
  assert (H2 : (fw_api st >? 4) = false) by (rewrite Z.gtb_ltb; apply Z.ltb_ge; lia).
  rewrite H1, H2. cbn [orb]. cbv zeta.
  assert (Hcase : fw_api st = 4 \/ fw_api st = 3 \/ fw_api st = 2
                  \/ fw_api st = 1 \/ fw_api st = 0) by lia.
  unfold lower_entry_missing. cbn [existsb].
  destruct Hcase as [E | [E | [E | [E | E]]]]; rewrite E in *;
    repeat (rewrite SET_API_CALLBACK_above by lia; cbn [and_then]);
    rewrite SET_API_CALLBACK_at, Hp; cbv zeta;
    (destruct (fst (subscribe (calls st) (fw_event_handle st)) =? ERROR_SUCCESS);
     cbn [and_then]; [reflexivity |]);
    repeat (rewrite SET_API_CALLBACK_below by lia;
            match goal with
            | |- context [match p_FwpmNetEventSubscribe ?n with _ => _ end] =>
                destruct (p_FwpmNetEventSubscribe n); cbn [and_then]
            end);
    cbn; reflexivity.
Qed.

Lemma api_level_legal : forall st,
  (fw_api st <? FW_API_LOW) || (fw_api st >? FW_API_HIGH) = false <->
  FW_API_LOW <= fw_api st <= FW_API_HIGH.
Proof.
  intro st. rewrite orb_false_iff, Z.ltb_ge, Z.gtb_ltb, Z.ltb_ge. tauto.
Qed.

(** X1: [fw_monitor_subscribe()] returns [TRUE] exactly when [fw_api] is a
    legal level, the entry point of that very level is there, and the one
    call of it succeeds; which other entry points there are has no part in
    it. *)
Theorem fw_monitor_subscribe_succeeds_iff : forall st,
  fst (fw_monitor_subscribe st) = true <->
  FW_API_LOW <= fw_api st <= FW_API_HIGH
  /\ exists subscribe,
       p_FwpmNetEventSubscribe (fw_api st) = Some subscribe
       /\ fst (subscribe (calls st) (fw_event_handle st)) = ERROR_SUCCESS.
Proof.
  intro st.
  destruct ((fw_api st <? FW_API_LOW) || (fw_api st >? FW_API_HIGH)) eqn:Hrange.
  - unfold fw_monitor_subscribe. rewrite Hrange. cbn [fst]. split; [discriminate |].
    intros [Hlegal _]. apply api_level_legal in Hlegal. congruence.
  - apply api_level_legal in Hrange. rewrite (fw_monitor_subscribe_cases st Hrange).
    destruct (p_FwpmNetEventSubscribe (fw_api st)) as [subscribe |] eqn:Hp; cbv zeta.
    + destruct (Z.eqb_spec (fst (subscribe (calls st) (fw_event_handle st))) ERROR_SUCCESS)
        as [Hrc | Hrc]; cbn [fst].
      * split; [| reflexivity]. intros _. split; [exact Hrange |].
        exists subscribe. split; [reflexivity | exact Hrc].
      * split; [discriminate |]. intros (_ & subscribe' & Hs & Hrc').
        inversion Hs; subst subscribe'. contradiction.
    + cbn [fst]. split; [discriminate |]. intros (_ & subscribe' & Hs & _). discriminate.
Qed.

(** X2: the only call that [fw_monitor_subscribe()] makes is the call of
    the entry point of the level [fw_api], once, when the level is legal and
    that entry point is there; else it makes no call. It never calls the
    entry point of another level, also not after a failure. *)
Theorem fw_monitor_subscribe_calls : forall st,
  calls (snd (fw_monitor_subscribe st)) =
    if negb ((fw_api st <? FW_API_LOW) || (fw_api st >? FW_API_HIGH))
       && negb (is_NULL (p_FwpmNetEventSubscribe (fw_api st)))
    then calls st ++ [Call_FwpmNetEventSubscribe (fw_api st)]
    else calls st.
Proof.
  intro st.
  destruct ((fw_api st <? FW_API_LOW) || (fw_api st >? FW_API_HIGH)) eqn:Hrange.
  - unfold fw_monitor_subscribe. rewrite Hrange. reflexivity.
  - apply api_level_legal in Hrange. rewrite (fw_monitor_subscribe_cases st Hrange).
    destruct (p_FwpmNetEventSubscribe (fw_api st)) as [subscribe |]; [| reflexivity].
    cbv zeta. destruct (_ =? ERROR_SUCCESS); [reflexivity |].
    destruct (lower_entry_missing (fw_api st)); reflexivity.
Qed.

(** X3: when the call of the entry point of the level [fw_api] fails,
    [fw_monitor_subscribe()] returns [FALSE] and [fw_event_handle] is what
    the call has left. [fw_errno] is the error of the call only if every
    entry point of a lower level is there: when one of them is missing it is
    [ERROR_BAD_COMMAND]. *)
Theorem fw_monitor_subscribe_error : forall st subscribe,
  FW_API_LOW <= fw_api st <= FW_API_HIGH ->
  p_FwpmNetEventSubscribe (fw_api st) = Some subscribe ->
  fst (subscribe (calls st) (fw_event_handle st)) <> ERROR_SUCCESS ->
  fst (fw_monitor_subscribe st) = false
  /\ fw_errno (snd (fw_monitor_subscribe st))
     = (if lower_entry_missing (fw_api st)
        then ERROR_BAD_COMMAND
        else fst (subscribe (calls st) (fw_event_handle st)))
  /\ fw_event_handle (snd (fw_monitor_subscribe st))
     = snd (subscribe (calls st) (fw_event_handle st)).
Proof.
  intros st subscribe Hrange Hp Hrc.
  rewrite (fw_monitor_subscribe_cases st Hrange), Hp. cbv zeta.
  apply Z.eqb_neq in Hrc. rewrite Hrc.
  destruct (lower_entry_missing (fw_api st)); repeat split.
Qed.

End SubscriptionProperties.

(** With [failing_env] and the level 2 the call fails with the error 5, and
    [fw_errno] is [ERROR_BAD_COMMAND], for the entry point of level 0. *)
Lemma fw_monitor_subscribe_error_witness :
  fst (fw_monitor_subscribe (env := failing_env) (sample_state cfg_usual 2)) = false
  /\ fw_errno (snd (fw_monitor_subscribe (env := failing_env) (sample_state cfg_usual 2)))
     = 22
  /\ fw_event_handle
       (snd (fw_monitor_subscribe (env := failing_env) (sample_state cfg_usual 2)))
     = None.
Proof.
  apply (fw_monitor_subscribe_error (env := failing_env) (sample_state cfg_usual 2)
           (fun _ _ => (5, None))).
  - vm_compute. split; discriminate.
  - reflexivity.
  - vm_compute. discriminate.
Defined.

(** ** Further properties: the rule enumerator *)

Section RuleProperties.
Context {env : Environment}.

Lemma fw_dump_rule_fields : forall rule s,
  fw_num_rules (fw_dump_rule rule s) = DWORD_inc (fw_num_rules s)
  /\ fw_errno (fw_dump_rule rule s) = fw_errno s.
Proof.
  intros rule s. unfold fw_dump_rule.
  destruct (wszName rule), (wszLocalApplication rule), (wszEmbeddedContext rule);
    split; reflexivity.
Qed.

(** The loop stops at the end of the list or at [(int)rule_count],
    whichever comes first. *)
Lemma dump_rules_firstn : forall rules num rule_count s,
  let k := Z.to_nat (Z.min (Z.of_nat (List.length rules))
                           (Z.max 0 (int_of_ULONG rule_count - num))) in
  dump_rules rules num rule_count s
  = (num + Z.of_nat k, fold_left (fun st rule => fw_dump_rule rule st) (firstn k rules) s).
Proof.
  induction rules as [| rule rules IH]; intros num rule_count s.
  - cbv zeta. cbn [dump_rules List.length]. rewrite firstn_nil. cbn [fold_left].
    f_equal. lia.
  - cbv zeta. cbn [dump_rules List.length]. rewrite Nat2Z.inj_succ.
    destruct (Z.ltb_spec num (int_of_ULONG rule_count)) as [Hlt | Hge].
    + rewrite IH. cbv zeta.
      replace (Z.to_nat (Z.min (Z.succ (Z.of_nat (List.length rules)))
                               (Z.max 0 (int_of_ULONG rule_count - num))))
        with (S (Z.to_nat (Z.min (Z.of_nat (List.length rules))
                                 (Z.max 0 (int_of_ULONG rule_count - (num + 1))))))
        by lia.
      cbn [firstn fold_left]. f_equal. lia.
    + replace (Z.to_nat (Z.min (Z.succ (Z.of_nat (List.length rules)))
                               (Z.max 0 (int_of_ULONG rule_count - num))))
        with 0%nat by lia.
      cbn. rewrite Z.add_0_r. reflexivity.
Qed.

Lemma fold_dump_fields : forall rules s,
  fw_num_rules (fold_left (fun st rule => fw_dump_rule rule st) rules s)
  = Nat.iter (List.length rules) DWORD_inc (fw_num_rules s)
  /\ fw_errno (fold_left (fun st rule => fw_dump_rule rule st) rules s) = fw_errno s
  /\ List.length (trace_out (fold_left (fun st rule => fw_dump_rule rule st) rules s))
     = (List.length (trace_out s) + 2 * List.length rules)%nat.
Proof.
  induction rules as [| rule rules IH]; intro s.
  - cbn. repeat split. lia.
  - cbn [fold_left List.length]. destruct (IH (fw_dump_rule rule s)) as (A & B & C).
    destruct (fw_dump_rule_fields rule s) as [D E].
    destruct (fw_dump_rule_trace_out rule s) as [body F].
    rewrite A, B, C, D, E, F. repeat split.
    + rewrite Nat.iter_succ_r. reflexivity.
    + rewrite length_app. cbn [List.length]. lia.
Qed.

(** The texts that were there stay in front of those of the rules. *)
Lemma fold_dump_prefix : forall rules s,
  exists texts,
    trace_out (fold_left (fun st rule => fw_dump_rule rule st) rules s)
    = trace_out s ++ texts.
Proof.
  induction rules as [| rule rules IH]; intro s; cbn [fold_left].
  - exists []. rewrite app_nil_r. reflexivity.
  - destruct (IH (fw_dump_rule rule s)) as [texts Ht].
    destruct (fw_dump_rule_trace_out rule s) as [body F].
    rewrite Ht, F, <- app_assoc. eexists. reflexivity.
Qed.

(** The first text of the rule at the index [i] is the text number [2 i]
    after those that were there, with the rule number [i + 1] after
    [fw_num_rules]. *)
Lemma fold_dump_nth : forall rules s i rule,
  nth_error rules i = Some rule ->
  nth_error (trace_out (fold_left (fun st r => fw_dump_rule r st) rules s))
    (List.length (trace_out s) + 2 * i)
  = Some [Buf_rule (Nat.iter (S i) DWORD_inc (fw_num_rules s)) (rule_direction rule)
            (rule_ascii (wszDescription rule))].
Proof.
  induction rules as [| r rules IH]; intros s i rule Hn.
  - destruct i; discriminate.
  - cbn [fold_left]. destruct (fw_dump_rule_trace_out r s) as [body F].
    destruct i as [| j].
    + cbn in Hn. inversion Hn; subst r.
      destruct (fold_dump_prefix rules (fw_dump_rule rule s)) as [texts Ht].
      rewrite Ht, F, <- app_assoc, Nat.add_0_r.
      rewrite nth_error_app2 by lia. rewrite Nat.sub_diag. reflexivity.
    + cbn in Hn. specialize (IH (fw_dump_rule r s) j rule Hn).
      destruct (fw_dump_rule_fields r s) as [D _]. rewrite D in IH.
      rewrite F, length_app in IH. cbn [List.length] in IH.
      replace (List.length (trace_out s) + 2 * S j)%nat
        with (List.length (trace_out s) + 2 + 2 * j)%nat by lia.
      rewrite IH. rewrite <- Nat.iter_succ_r. reflexivity.
Qed.

Lemma fw_enumerate_rules_unfold : forall st,
  fw_enumerate_rules st =
    let '(rc, rule_count, rules) := FWEnumFirewallRules_answer st in
    let st1 :=
      log_call (Call_FWEnumFirewallRules FW_RULE_STATUS_CLASS_ALL
                  (if show_all (g_cfg st)
                   then FW_PROFILE_TYPE_ALL else FW_PROFILE_TYPE_CURRENT)
                  (Z.lor (Z.lor (Z.lor FW_ENUM_RULES_FLAG_RESOLVE_NAME
                                       FW_ENUM_RULES_FLAG_RESOLVE_DESCRIPTION)
                                FW_ENUM_RULES_FLAG_RESOLVE_APPLICATION)
                         FW_ENUM_RULES_FLAG_RESOLVE_KEYWORD)) st in
    if negb (rc =? ERROR_SUCCESS) then (-1, set_fw_errno rc st1)
    else dump_rules rules 0 rule_count st1.
Proof. reflexivity. Qed.

(** X4: [fw_enumerate_rules()] returns -1 exactly when the call of
    [FWEnumFirewallRules()] fails. It then leaves the error of the call in
    [fw_errno], dumps nothing and leaves [fw_num_rules] as it was. *)
Theorem fw_enumerate_rules_fails_iff : forall st,
  (fst (fw_enumerate_rules st) = -1
   <-> fst (fst (FWEnumFirewallRules_answer st)) <> ERROR_SUCCESS)
  /\ (fst (fst (FWEnumFirewallRules_answer st)) <> ERROR_SUCCESS ->
      fw_errno (snd (fw_enumerate_rules st)) = fst (fst (FWEnumFirewallRules_answer st))
      /\ fw_num_rules (snd (fw_enumerate_rules st)) = fw_num_rules st
      /\ trace_out (snd (fw_enumerate_rules st)) = trace_out st).
Proof.
  intro st. rewrite fw_enumerate_rules_unfold.
  destruct (FWEnumFirewallRules_answer st) as [[rc rule_count] rules]. cbn [fst].
  destruct (Z.eqb_spec rc ERROR_SUCCESS) as [Hrc | Hrc]; cbn [negb].
  - split; [| intro; contradiction].
    rewrite dump_rules_firstn. cbn [fst]. split; [lia | intro; contradiction].
  - cbn [fst snd]. repeat split; auto.
Qed.

(** X5: when the call succeeds, the loop dumps the rules from the head of
    the list and stops at the end of the list or after [(int)rule_count]
    rules, whichever comes first, so that a [rule_count] of 2^31 or more
    stops it at once. The function returns the number of rules it has
    dumped; [fw_num_rules] has gone up by that number modulo 2^32, two texts
    were written for each of these rules, and [fw_errno] is as it was. *)
Theorem fw_enumerate_rules_count : forall st,
  fst (fst (FWEnumFirewallRules_answer st)) = ERROR_SUCCESS ->
  let rule_count := snd (fst (FWEnumFirewallRules_answer st)) in
  let rules := snd (FWEnumFirewallRules_answer st) in
  let n := Z.to_nat (Z.min (Z.of_nat (List.length rules))
                           (Z.max 0 (int_of_ULONG rule_count))) in
  fst (fw_enumerate_rules st) = Z.of_nat n
  /\ fw_num_rules (snd (fw_enumerate_rules st)) = Nat.iter n DWORD_inc (fw_num_rules st)
  /\ List.length (trace_out (snd (fw_enumerate_rules st)))
     = (List.length (trace_out st) + 2 * n)%nat
  /\ fw_errno (snd (fw_enumerate_rules st)) = fw_errno st.
Proof.
  intros st Hrc. rewrite fw_enumerate_rules_unfold.
  destruct (FWEnumFirewallRules_answer st) as [[rc rule_count] rules].
  cbn [fst snd] in *. subst rc. rewrite Z.eqb_refl. cbn [negb].
  rewrite dump_rules_firstn. rewrite Z.sub_0_r. cbn [fst snd].
  set (n := Z.to_nat _).
  assert (Hlen : List.length (firstn n rules) = n)
    by (apply firstn_length_le; subst n; lia).
  destruct (fold_dump_fields (firstn n rules)
              (log_call (Call_FWEnumFirewallRules FW_RULE_STATUS_CLASS_ALL
                 (if show_all (g_cfg st)
                  then FW_PROFILE_TYPE_ALL else FW_PROFILE_TYPE_CURRENT)
                 (Z.lor (Z.lor (Z.lor FW_ENUM_RULES_FLAG_RESOLVE_NAME
                                      FW_ENUM_RULES_FLAG_RESOLVE_DESCRIPTION)
                               FW_ENUM_RULES_FLAG_RESOLVE_APPLICATION)
                        FW_ENUM_RULES_FLAG_RESOLVE_KEYWORD)) st)) as (A & B & C).
  rewrite Hlen in A, C. rewrite A, B, C. repeat split.
Qed.

(** X6: the rules are dumped in the order of the list, and they are numbered
    on from [fw_num_rules], which the enumerator does not reset: the rule
    at the index [i], when the loop gets to it, has its first text at the
    place [2 i] after the texts that were there, with the number that is
    [i + 1] steps after [fw_num_rules], its direction and its description. *)
Theorem fw_enumerate_rules_order : forall st i rule,
  fst (fst (FWEnumFirewallRules_answer st)) = ERROR_SUCCESS ->
  nth_error (snd (FWEnumFirewallRules_answer st)) i = Some rule ->
  Z.of_nat i < int_of_ULONG (snd (fst (FWEnumFirewallRules_answer st))) ->
  nth_error (trace_out (snd (fw_enumerate_rules st))) (List.length (trace_out st) + 2 * i)
  = Some [Buf_rule (Nat.iter (S i) DWORD_inc (fw_num_rules st)) (rule_direction rule)
            (rule_ascii (wszDescription rule))].
Proof.
  intros st i rule Hrc Hn Hi. rewrite fw_enumerate_rules_unfold.
  destruct (FWEnumFirewallRules_answer st) as [[rc rule_count] rules].
  cbn [fst snd] in *. subst rc. rewrite Z.eqb_refl. cbn [negb].
  rewrite dump_rules_firstn. rewrite Z.sub_0_r. cbn [fst snd].
  set (n := Z.to_nat _).
  assert (Hlt : (i < List.length rules)%nat)
    by (apply nth_error_Some; rewrite Hn; discriminate).
  assert (Hin : (i < n)%nat) by (subst n; lia).
  apply (fold_dump_nth (firstn n rules)
           (log_call (Call_FWEnumFirewallRules FW_RULE_STATUS_CLASS_ALL
              (if show_all (g_cfg st)
               then FW_PROFILE_TYPE_ALL else FW_PROFILE_TYPE_CURRENT)
              (Z.lor (Z.lor (Z.lor FW_ENUM_RULES_FLAG_RESOLVE_NAME
                                   FW_ENUM_RULES_FLAG_RESOLVE_DESCRIPTION)
                            FW_ENUM_RULES_FLAG_RESOLVE_APPLICATION)
                     FW_ENUM_RULES_FLAG_RESOLVE_KEYWORD)) st) i rule).
  rewrite nth_error_firstn.
  destruct (Nat.ltb_spec i n) as [_ | Hge]; [exact Hn | lia].
Qed.

End RuleProperties.

(** The store of [short_count_env] gives two rules and the count 1: one
    rule is dumped, with the number 1, in two texts. *)
Lemma fw_enumerate_rules_count_witness :
  fst (fw_enumerate_rules (env := short_count_env) (sample_state cfg_usual 3)) = 1
  /\ fw_num_rules (snd (fw_enumerate_rules (env := short_count_env)
                          (sample_state cfg_usual 3))) = 1
  /\ List.length (trace_out (snd (fw_enumerate_rules (env := short_count_env)
                                    (sample_state cfg_usual 3)))) = 2%nat
  /\ fw_errno (snd (fw_enumerate_rules (env := short_count_env)
                      (sample_state cfg_usual 3))) = 0.
Proof.
  apply (fw_enumerate_rules_count (env := short_count_env) (sample_state cfg_usual 3)).
  reflexivity.
Defined.

(** With the store of [sample_env], which gives two rules and the count 2,
    the second rule has its first text at the place 2, with the number 2. *)
Lemma fw_enumerate_rules_order_witness :
  nth_error (trace_out (snd (fw_enumerate_rules (env := sample_env)
                               (sample_state cfg_usual 3)))) 2
  = Some [Buf_rule 2 "OUT" "?"].
Proof.
  apply (fw_enumerate_rules_order (env := sample_env) (sample_state cfg_usual 3) 1
           rule_semantic_error).
  - reflexivity.
  - reflexivity.
  - vm_compute. reflexivity.
Defined.

(** ** Further properties: what the callback leaves alone, and how the
    caches grow *)

Section HistoryProperties.
Context {env : Environment}.

Lemma frame_refl : forall s, frame s s.
Proof. intro s. repeat split. Qed.

Lemma frame_trans : forall s1 s2 s3, frame s1 s2 -> frame s2 s3 -> frame s1 s3.
Proof.
  intros s1 s2 s3 (A1 & A2 & A3 & A4 & A5 & A6 & A7 & A8 & A9 & A10)
    (B1 & B2 & B3 & B4 & B5 & B6 & B7 & B8 & B9 & B10).
  repeat split; congruence.
Qed.

Lemma filter_calls_app : forall l l',
  filter_calls (l ++ l') = filter_calls l ++ filter_calls l'.
Proof. intros l l'. apply flat_map_app. Qed.

Lemma account_calls_app : forall l l',
  account_calls (l ++ l') = account_calls l ++ account_calls l'.
Proof. intros l l'. apply flat_map_app. Qed.

Lemma growth_refl : forall s, growth s s.
Proof.
  intro s. exists [], [], []. repeat rewrite app_nil_r. repeat split. constructor.
Qed.

Lemma growth_trans : forall s1 s2 s3, growth s1 s2 -> growth s2 s3 -> growth s1 s3.
Proof.
  intros s1 s2 s3 (c1 & f1 & d1 & A1 & A2 & A3 & A4 & A5 & A6)
    (c2 & f2 & d2 & B1 & B2 & B3 & B4 & B5 & B6).
  exists (c1 ++ c2), (f1 ++ f2), (d1 ++ d2).
  rewrite B1, B2, B3, A1, A2, A3. repeat rewrite app_assoc.
  repeat rewrite map_app. rewrite filter_calls_app, account_calls_app, A4, A5, B4, B5.
  repeat split. apply Forall_app. split; assumption.
Qed.

Lemma history_refl : forall s, history s s.
Proof. intro s. split; [apply frame_refl | apply growth_refl]. Qed.

Lemma history_trans : forall s1 s2 s3, history s1 s2 -> history s2 s3 -> history s1 s3.
Proof.
  intros s1 s2 s3 [A1 A2] [B1 B2].
  split; [eapply frame_trans | eapply growth_trans]; eauto.
Qed.

(** A step that makes no call and leaves both lists alone. *)
Lemma history_quiet : forall s s',
  frame s s' ->
  calls s' = calls s ->
  fw_filter_list s' = fw_filter_list s ->
  fw_SID_list s' = fw_SID_list s ->
  history s s'.
Proof.
  intros s s' Hf Hc Hfl Hsl. split; [exact Hf |].
  exists [], [], []. rewrite Hc, Hfl, Hsl. repeat rewrite app_nil_r.
  repeat split. constructor.
Qed.

Lemma history_fw_buf_add : forall item s, history s (fw_buf_add item s).
Proof. intros item s. apply history_quiet; repeat split. Qed.

Lemma history_fw_buf_reset : forall s, history s (fw_buf_reset s).
Proof. intro s. apply history_quiet; repeat split. Qed.

Lemma history_fw_buf_flush : forall s, history s (fw_buf_flush s).
Proof.
  intro s. unfold fw_buf_flush. destruct (fw_buf s); apply history_quiet; repeat split.
Qed.

Lemma history_counters : forall s e i,
  history s (set_fw_num_events e s) /\ history s (set_fw_num_ignored i s).
Proof. intros s e i. split; apply history_quiet; repeat split. Qed.

(** A call that is neither for a filter nor for an account. *)
Lemma history_log_call : forall c s,
  filter_calls [c] = [] -> account_calls [c] = [] -> history s (log_call c s).
Proof.
  intros c s Hf Ha. split; [repeat split |].
  exists [c], [], []. repeat rewrite app_nil_r. rewrite Hf, Ha.
  repeat split. constructor.
Qed.

Lemma history_lookup_or_add_filter : forall filter s fe s',
  lookup_or_add_filter filter s = (fe, s') -> history s s'.
Proof.
  intros filter s fe s' Hl. unfold lookup_or_add_filter in Hl.
  destruct (Z.eqb_spec filter 0) as [Hz | Hz]; [inversion Hl; subst; apply history_refl |].
  destruct (find _ (fw_filter_list s)) as [fe0 |];
    [inversion Hl; subst; apply history_refl |].
  destruct (p_FwpmFilterGetById0 (calls s) filter) as [rc display_name].
  inversion Hl; subst fe s'; clear Hl.
  split; [repeat split |].
  eexists [Call_FwpmFilterGetById0 filter], [_], []. cbn.
  rewrite app_nil_r. repeat split. constructor; [exact Hz | constructor].
Qed.

Lemma history_lookup_or_add_SID : forall sid s se s',
  lookup_or_add_SID sid s = (se, s') -> history s s'.
Proof.
  intros sid s se s' Hl. unfold lookup_or_add_SID in Hl.
  destruct (find _ (fw_SID_list s)) as [se0 |];
    [inversion Hl; subst; apply history_refl |].
  destruct (lookup_account_SID _ _ _ _ _) as [[[rc acc] dom] s2] eqn:Ha.
  inversion Hl; subst se s'; clear Hl.
  apply lookup_account_SID_state in Ha.
  destruct Ha as [-> | ->]; (split; [repeat split |]).
  - eexists [Call_ConvertSidToStringSid sid; Call_LookupAccountSid sid false], [], [_].
    cbn. rewrite app_nil_r, <- app_assoc. repeat split. constructor.
  - eexists [Call_ConvertSidToStringSid sid; Call_LookupAccountSid sid false;
             Call_LookupAccountSid sid true], [], [_].
    cbn. rewrite app_nil_r. repeat rewrite <- app_assoc. repeat split. constructor.
Qed.

(** The parts of the callback, one after the other. *)

Lemma history_print_layer_item : forall d a s b s',
  print_layer_item d a s = (b, s') -> history s s'.
Proof.
  intros d a s b s' Hp. unfold print_layer_item in Hp.
  destruct (_ =? 0) in Hp; [inversion Hp; subst; apply history_refl |].
  destruct (p_FwpmLayerGetById0 _ _) as [rc layer_name].
  destruct (rc =? ERROR_SUCCESS); inversion Hp; subst.
  - eapply history_trans; [| apply history_fw_buf_add].
    apply history_log_call; reflexivity.
  - apply history_log_call; reflexivity.
Qed.

Lemma history_print_layer_item2 : forall d a s b s',
  print_layer_item2 d a s = Some (b, s') -> history s s'.
Proof.
  intros d a s b s' Hp. unfold print_layer_item2 in Hp.
  destruct (match a with Some _ => _ | None => _ end) as [e |]; [| discriminate].
  destruct (cap_filterId e =? 0).
  - inversion Hp; subst. apply history_fw_buf_add.
  - destruct (lookup_or_add_filter _ s) as [fe s1] eqn:Hl.
    inversion Hp; subst.
    eapply history_trans;
      [eapply history_lookup_or_add_filter; eauto | apply history_fw_buf_add].
Qed.

Lemma history_print_filter_rule : forall d a s b s',
  print_filter_rule d a s = (b, s') -> history s s'.
Proof.
  intros d a s b s' Hp. unfold print_filter_rule in Hp.
  destruct (_ =? 0) in Hp; [inversion Hp; subst; apply history_refl |].
  destruct (lookup_or_add_filter _ s) as [fe s1] eqn:Hl.
  inversion Hp; subst.
  eapply history_trans;
    [eapply history_lookup_or_add_filter; eauto | apply history_fw_buf_add].
Qed.

Lemma history_print_filter_rule2 : forall d a s b s',
  print_filter_rule2 d a s = (b, s') -> history s s'.
Proof.
  intros d a s b s' Hp. unfold print_filter_rule2 in Hp.
  destruct (match d with Some _ => _ | None => _ end) as [e |];
    [| inversion Hp; subst; apply history_refl].
  destruct (lookup_or_add_filter _ s) as [fe s1] eqn:Hl.
  inversion Hp; subst.
  eapply history_trans;
    [eapply history_lookup_or_add_filter; eauto | apply history_fw_buf_add].
Qed.

Lemma history_print_country_location : forall ia4 ia6 s,
  history s (print_country_location ia4 ia6 s).
Proof.
  intros ia4 ia6 s. unfold print_country_location.
  destruct (match ia4, ia6 with
            | Some a, _ => geoip_get_country_by_ipv4 a
            | None, Some a => geoip_get_country_by_ipv6 a
            | None, None => None
            end) as [a2 |]; [| apply history_refl].
  destruct (not_dash a2); [| apply history_refl].
  destruct (if is_NULL ia4 then _ else _); apply history_fw_buf_add.
Qed.

Lemma history_print_addresses_ipv4 : forall hdr dir s b s',
  print_addresses_ipv4 hdr dir s = (b, s') -> history s s'.
Proof.
  intros hdr dir s b s' Hp. unfold print_addresses_ipv4 in Hp.
  repeat match type of Hp with
         | (if ?c then _ else _) = _ =>
             destruct c; [inversion Hp; subst; apply history_refl |]
         end.
  inversion Hp; subst.
  destruct (flag_set _ FWPM_NET_EVENT_FLAG_REMOTE_ADDR_SET); destruct dir;
    repeat (first [apply history_fw_buf_add
                  | eapply history_trans; [| apply history_print_country_location]]).
Qed.

Lemma history_print_addresses_ipv6 : forall hdr dir s b s',
  print_addresses_ipv6 hdr dir s = (b, s') -> history s s'.
Proof.
  intros hdr dir s b s' Hp. unfold print_addresses_ipv6 in Hp.
  repeat match type of Hp with
         | (if ?c then _ else _) = _ =>
             destruct c; [inversion Hp; subst; apply history_refl |]
         end.
  inversion Hp; subst.
  destruct (flag_set _ FWPM_NET_EVENT_FLAG_REMOTE_ADDR_SET); destruct dir;
    repeat (first [apply history_fw_buf_add
                  | eapply history_trans; [| apply history_print_country_location]]).
Qed.

Lemma history_print_app_id : forall hdr s b s',
  print_app_id hdr s = (b, s') -> history s s'.
Proof.
  intros hdr s b s' Hp. unfold print_app_id in Hp.
  destruct (_ || _) in Hp; [inversion Hp; subst; apply history_refl |].
  destruct (WideCharToMultiByte _ _ _) as [converted buf].
  destruct (negb (show_all (g_cfg s))).
  - destruct (_ || _) in Hp; inversion Hp; subst; apply history_refl.
  - destruct (_ || _) in Hp; inversion Hp; subst;
      [apply history_refl | apply history_fw_buf_add].
Qed.

Lemma history_print_eff_name_id : forall hdr s, history s (print_eff_name_id hdr s).
Proof.
  intros hdr s. unfold print_eff_name_id.
  destruct (_ =? 0); [apply history_refl |].
  destruct (data (effectiveName hdr)); [| apply history_refl].
  destruct (_ =? 0); [apply history_refl | apply history_fw_buf_add].
Qed.

Lemma history_print_user_id : forall hdr s b s',
  print_user_id hdr s = (b, s') -> history s s'.
Proof.
  intros hdr s b s' Hp. unfold print_user_id in Hp.
  destruct (negb _) in Hp; [inversion Hp; subst; apply history_refl |].
  destruct (userId hdr) as [sid |]; [| inversion Hp; subst; apply history_refl].
  destruct (lookup_or_add_SID sid s) as [se s1] eqn:Hl.
  apply history_lookup_or_add_SID in Hl.
  destruct (_ && _) in Hp; inversion Hp; subst; [exact Hl |].
  eapply history_trans; [exact Hl | apply history_fw_buf_add].
Qed.

Lemma history_print_package_id : forall hdr s b s',
  print_package_id hdr s = (b, s') -> history s s'.
Proof.
  intros hdr s b s' Hp. unfold print_package_id in Hp.
  destruct (negb _) in Hp; [inversion Hp; subst; apply history_refl |].
  destruct (packageSid hdr) as [sid |]; [| inversion Hp; subst; apply history_refl].
  destruct (lookup_or_add_SID sid s) as [se s1] eqn:Hl.
  apply history_lookup_or_add_SID in Hl.
  destruct (sid_str se) as [str |]; [| inversion Hp; subst; exact Hl].
  destruct (_ || _) in Hp; inversion Hp; subst; [| exact Hl].
  eapply history_trans; [exact Hl | apply history_fw_buf_add].
Qed.

Lemma history_print_reauth_reason : forall hdr d a s s',
  print_reauth_reason hdr d a s = Some s' -> history s s'.
Proof.
  intros hdr d a s s' Hp. unfold print_reauth_reason in Hp.
  destruct (negb _) in Hp; [inversion Hp; subst; apply history_refl |].
  destruct d as [d |]; [| destruct a as [a |]]; inversion Hp; subst;
    apply history_fw_buf_add.
Qed.

Lemma history_classify_part : forall hdr event is_drop s dir s',
  classify_part hdr event is_drop s = Kind_ok dir s' -> history s s'.
Proof.
  intros hdr event is_drop s dir s' Hc. unfold classify_part in Hc.
  destruct (classify_direction (msFwpDirection event)) as [din dout].
  destruct (print_layer_item _ _ _) as [b1 s3] eqn:H3.
  destruct (print_filter_rule _ _ _) as [b2 s4] eqn:H4.
  inversion Hc; subst dir s'; clear Hc.
  apply history_print_layer_item in H3. apply history_print_filter_rule in H4.
  eapply history_trans; [| exact H4]. eapply history_trans; [| exact H3].
  destruct (din || dout); destruct (flag_set _ _);
    repeat (first [apply history_fw_buf_add
                  | eapply history_trans; [apply history_fw_buf_add |]]).
Qed.

Lemma history_capability_part : forall hdr d a s dir s',
  capability_part hdr d a s = Kind_ok dir s' -> history s s'.
Proof.
  intros hdr d a s dir s' Hc. unfold capability_part in Hc.
  destruct (print_layer_item2 d a _) as [[b s2] |] eqn:H2; [| discriminate].
  destruct (print_filter_rule2 d a s2) as [b3 s3] eqn:H3.
  inversion Hc; subst dir s'; clear Hc.
  apply history_print_layer_item2 in H2. apply history_print_filter_rule2 in H3.
  eapply history_trans; [| exact H3]. eapply history_trans; [| exact H2].
  destruct (flag_set _ _); [apply history_fw_buf_add | apply history_refl].
Qed.

Lemma history_event_kind_part : forall event_type hdr d1 d2 a1 a2 s,
  match event_kind_part event_type hdr d1 d2 a1 a2 s with
  | Kind_fault => True
  | Kind_return s' => s' = s
  | Kind_ok _ s' => history s s'
  end.
Proof.
  intros event_type hdr d1 d2 a1 a2 s. unfold event_kind_part.
  destruct (event_type =? _FWPM_NET_EVENT_TYPE_CLASSIFY_DROP).
  { destruct d1 as [d |]; [| exact I].
    destruct (classify_part hdr d true s) eqn:Hc; auto.
    - unfold classify_part in Hc.
      destruct (classify_direction _), (print_layer_item _ _ _), (print_filter_rule _ _ _).
      discriminate.
    - eapply history_classify_part; eauto. }
  destruct (event_type =? _FWPM_NET_EVENT_TYPE_CLASSIFY_ALLOW).
  { destruct a1 as [a |]; [| exact I].
    destruct (classify_part hdr a false s) eqn:Hc; auto.
    - unfold classify_part in Hc.
      destruct (classify_direction _), (print_layer_item _ _ _), (print_filter_rule _ _ _).
      discriminate.
    - eapply history_classify_part; eauto. }
  destruct (event_type =? _FWPM_NET_EVENT_TYPE_CAPABILITY_ALLOW).
  { pose proof (capability_part_ok hdr None a2 s) as Hk.
    destruct (capability_part hdr None a2 s) eqn:Hc; auto; [contradiction |].
    eapply history_capability_part; eauto. }
  destruct (event_type =? _FWPM_NET_EVENT_TYPE_CAPABILITY_DROP).
  { pose proof (capability_part_ok hdr d2 None s) as Hk.
    destruct (capability_part hdr d2 None s) eqn:Hc; auto; [contradiction |].
    eapply history_capability_part; eauto. }
  reflexivity.
Qed.

Lemma history_print_parts : forall hdr dir s printed s',
  print_parts hdr dir s = (printed, s') -> history s s'.
Proof.
  intros hdr dir s printed s' Hp. unfold print_parts in Hp.
  destruct (print_addresses_ipv4 hdr dir s) as [adr4 s1] eqn:H1.
  apply history_print_addresses_ipv4 in H1.
  assert (H2 : forall adr s2,
             (if negb adr4 then print_addresses_ipv6 hdr dir s1 else (adr4, s1))
             = (adr, s2) -> history s1 s2).
  { intros adr s2 E. destruct (negb adr4).
    - eapply history_print_addresses_ipv6; eauto.
    - inversion E; subst. apply history_refl. }
  destruct (if negb adr4 then _ else _) as [adr s2] eqn:E2.
  specialize (H2 adr s2 eq_refl).
  destruct (print_app_id hdr s2) as [prg s3] eqn:H3.
  destruct (print_user_id hdr s3) as [usr s4] eqn:H4.
  destruct (print_package_id hdr s4) as [pkg s5] eqn:H5.
  inversion Hp; subst printed s'; clear Hp.
  apply history_print_app_id in H3. apply history_print_user_id in H4.
  apply history_print_package_id in H5.
  eapply history_trans; [exact H1 |]. eapply history_trans; [exact H2 |].
  eapply history_trans; [exact H3 |]. eapply history_trans; [exact H4 |].
  eapply history_trans; [exact H5 |]. apply history_print_eff_name_id.
Qed.

Lemma history_emit_or_ignore : forall printed s, history s (emit_or_ignore printed s).
Proof.
  intros [[[adr prg] usr] pkg] s. unfold emit_or_ignore.
  destruct (_ || _).
  - eapply history_trans; [apply history_fw_buf_flush | apply history_counters; exact 0].
  - eapply history_trans; [apply history_fw_buf_reset | apply history_counters; exact 0].
Qed.

(** Whatever the event, a callback that returns has left alone the
    variables of [frame], and has only made calls and put entries behind
    those of the two lists. *)
Lemma history_fw_event_callback : forall event_type hdr d1 d2 a1 a2 st st',
  fw_event_callback event_type hdr d1 d2 a1 a2 st = Some st' -> history st st'.
Proof.
  intros event_type hdr d1 d2 a1 a2 st st' Hc. unfold fw_event_callback in Hc.
  eapply history_trans; [apply history_fw_buf_reset |].
  destruct (ip_version_ignored hdr (fw_buf_reset st)).
  { inversion Hc; subst. apply history_counters; exact 0. }
  eapply history_trans; [apply history_fw_buf_add |].
  pose proof (history_event_kind_part event_type hdr d1 d2 a1 a2
                (fw_buf_add (Buf_event (timeStamp hdr) event_type) (fw_buf_reset st)))
    as Hk.
  destruct (event_kind_part _ _ _ _ _ _ _) as [| s2 | dir s2]; [discriminate | |].
  - inversion Hc; subst. apply history_refl.
  - destruct (print_parts hdr dir s2) as [printed s3] eqn:Hp.
    apply history_print_parts in Hp.
    eapply history_trans; [exact Hk |]. eapply history_trans; [exact Hp |].
    destruct (if _ || _ then _ else _) as [s4 |] eqn:Hr; [| discriminate].
    inversion Hc; subst st'; clear Hc.
    eapply history_trans; [| apply history_emit_or_ignore].
    destruct (_ || _) in Hr.
    + eapply history_print_reauth_reason; eauto.
    + inversion Hr; subst. apply history_refl.
Qed.

Lemma history_lookup_or_resolve : forall key st,
  history st (snd (lookup_or_resolve key st)).
Proof.
  intros [filter | sid] st; cbn.
  - destruct (lookup_or_add_filter filter st) as [fe st1] eqn:Hl.
    eapply history_lookup_or_add_filter; eauto.
  - destruct (lookup_or_add_SID sid st) as [se st1] eqn:Hl.
    eapply history_lookup_or_add_SID; eauto.
Qed.

Lemma history_run_ops : forall ops st st',
  run_ops ops st = Some st' -> history st st'.
Proof.
  induction ops as [| op ops IH]; intros st st' Hrun; cbn in Hrun.
  - inversion Hrun; subst. apply history_refl.
  - destruct (run_op op st) as [st1 |] eqn:Hop; [| discriminate].
    eapply history_trans; [| apply IH; exact Hrun].
    destruct op as [key | event_type hdr d1 d2 a1 a2]; cbn in Hop.
    + inversion Hop; subst. apply history_lookup_or_resolve.
    + eapply history_fw_event_callback; eauto.
Qed.

(** X7: whatever lookups are made and whatever events are delivered, as
    long as every callback returns, the configuration, [fw_api],
    [fw_errno], [fw_event_handle], [fw_num_rules], the two geo-location
    flags, [fw_module], [fw_logged_on_user] and [cleaned_up] are at the end
    what they were at the start. *)
Theorem run_ops_frame : forall ops st st',
  run_ops ops st = Some st' ->
  g_cfg st' = g_cfg st
  /\ fw_api st' = fw_api st
  /\ fw_errno st' = fw_errno st
  /\ fw_event_handle st' = fw_event_handle st
  /\ fw_num_rules st' = fw_num_rules st
  /\ fw_have_ip2loc4 st' = fw_have_ip2loc4 st
  /\ fw_have_ip2loc6 st' = fw_have_ip2loc6 st
  /\ fw_module st' = fw_module st
  /\ fw_logged_on_user st' = fw_logged_on_user st
  /\ cleaned_up st' = cleaned_up st.
Proof.
  intros ops st st' Hrun. apply history_run_ops in Hrun. exact (proj1 Hrun).
Qed.

(** X8: lookups and events only add to the two caches, at the end of their
    lists: the entries that were there stay where they were, and behind
    them there is one filter entry for each [FwpmFilterGetById0()] call that
    was made, with the id that was asked for, and one identity entry for
    each first [LookupAccountSid()] call, with the SID that was asked for,
    both in the order of the calls. No call asks for the filter 0. *)
Theorem run_ops_growth : forall ops st st',
  run_ops ops st = Some st' ->
  exists new_calls new_filters new_SIDs,
    calls st' = calls st ++ new_calls
    /\ fw_filter_list st' = fw_filter_list st ++ new_filters
    /\ fw_SID_list st' = fw_SID_list st ++ new_SIDs
    /\ map value new_filters = filter_calls new_calls
    /\ map sid_copy new_SIDs = account_calls new_calls
    /\ ~ In 0 (filter_calls new_calls).
Proof.
  intros ops st st' Hrun. apply history_run_ops in Hrun.
  destruct Hrun as [_ (c & f & d & A1 & A2 & A3 & A4 & A5 & A6)].
  exists c, f, d. repeat split; try assumption.
  intro Hin. rewrite Forall_forall in A6. exact (A6 0 Hin eq_refl).
Qed.

Lemma attempts_filter_count : forall l f,
  resolution_attempts (Filter_id f) l = count_occ Z.eq_dec (filter_calls l) f.
Proof.
  intros l f. unfold resolution_attempts.
  induction l as [| c l IH]; [reflexivity |].
  destruct c as [N | f0 | id | s | s b | x y z];
    cbn [List.filter starts_resolution filter_calls flat_map app]; try exact IH.
  change (flat_map _ l) with (filter_calls l).
  cbn [count_occ]. destruct (Z.eq_dec f0 f) as [-> | Hne].
  - rewrite Z.eqb_refl. cbn [List.length]. rewrite IH. reflexivity.
  - apply Z.eqb_neq in Hne. rewrite Hne. exact IH.
Qed.

Lemma attempts_account_count : forall l sid,
  resolution_attempts (Principal sid) l
  = count_occ (list_eq_dec Z.eq_dec) (account_calls l) sid.
Proof.
  intros l sid. unfold resolution_attempts.
  induction l as [| c l IH]; [reflexivity |].
  destruct c as [N | f0 | id | s | s b | x y z];
    cbn [List.filter starts_resolution account_calls flat_map app]; try exact IH.
  destruct b; [exact IH |].
  change (flat_map _ l) with (account_calls l).
  cbn [app count_occ]. destruct (list_eq_dec Z.eq_dec s sid) as [-> | Hne].
  - rewrite EqualSid_refl. cbn [List.length]. rewrite IH. reflexivity.
  - destruct (EqualSid s sid) eqn:He; [apply EqualSid_true in He; contradiction |].
    exact IH.
Qed.

(** X9: from empty caches with no call made, after any lookups and events
    neither cache holds two entries for one key, the filter cache holds no
    entry for the filter 0, and each cache holds as many entries as
    resolutions were started: one for each [FwpmFilterGetById0()] call, and
    one for each first [LookupAccountSid()] call. *)
Theorem caches_hold_each_key_once : forall ops st0 st,
  caches_fresh st0 ->
  run_ops ops st0 = Some st ->
  NoDup (map value (fw_filter_list st))
  /\ ~ In 0 (map value (fw_filter_list st))
  /\ NoDup (map sid_copy (fw_SID_list st))
  /\ List.length (fw_filter_list st) = List.length (filter_calls (calls st))
  /\ List.length (fw_SID_list st) = List.length (account_calls (calls st)).
Proof.
  intros ops st0 st Hfresh Hrun.
  assert (Hinv : cache_inv st).
  { apply (run_ops_grows ops st0 st Hrun). apply caches_fresh_inv. exact Hfresh. }
  apply history_run_ops in Hrun.
  destruct Hrun as [_ (c & f & d & A1 & A2 & A3 & A4 & A5 & A6)].
  destruct Hfresh as (F1 & F2 & F3). rewrite F3 in A1. rewrite F2 in A2. rewrite F1 in A3.
  cbn [app] in A1, A2, A3. subst c. rewrite A2, A3, A4, A5.
  split; [| split; [| split; [| split]]].
  - apply (NoDup_count_occ Z.eq_dec). intro x.
    rewrite <- attempts_filter_count. apply (Hinv (Filter_id x)).
  - intro Hin. rewrite Forall_forall in A6. exact (A6 0 Hin eq_refl).
  - apply (NoDup_count_occ (list_eq_dec Z.eq_dec)). intro x.
    rewrite <- attempts_account_count. apply (Hinv (Principal x)).
  - rewrite <- A4. symmetry. apply length_map.
  - rewrite <- A5. symmetry. apply length_map.
Qed.

(** X10: a lookup returns an entry for the key that was asked for, from the
    cache or made anew, whether the resolution has succeeded or not: a
    filter entry has the filter id as its [value], also for the filter 0,
    and an identity entry has a copy of the SID. *)
Theorem lookup_returns_entry_of_key : forall key st,
  match fst (lookup_or_resolve key st) with
  | Filter_name fe => key = Filter_id (value fe)
  | Account se => key = Principal (sid_copy se)
  end.
Proof.
  intros [filter | sid] st; cbn.
  - destruct (lookup_or_add_filter filter st) as [fe st1] eqn:Hl. cbn. f_equal.
    unfold lookup_or_add_filter in Hl.
    destruct (Z.eqb_spec filter 0) as [Hz | Hz]; [inversion Hl; subst; reflexivity |].
    destruct (find _ (fw_filter_list st)) as [fe0 |] eqn:Hf.
    + apply find_some in Hf. destruct Hf as [_ Hv]. apply Z.eqb_eq in Hv. congruence.
    + destruct (p_FwpmFilterGetById0 (calls st) filter) as [rc display_name].
      inversion Hl; subst. reflexivity.
  - destruct (lookup_or_add_SID sid st) as [se st1] eqn:Hl. cbn. f_equal.
    unfold lookup_or_add_SID in Hl.
    destruct (find _ (fw_SID_list st)) as [se0 |] eqn:Hf.
    + apply find_some in Hf. destruct Hf as [_ Hv]. apply EqualSid_true in Hv.
      congruence.
    + destruct (lookup_account_SID _ _ _ _ _) as [[[rc acc] dom] s2].
      inversion Hl; subst. reflexivity.
Qed.

(** *** The texts and the counter of events *)

(** What a callback that returns has written: nothing, with [fw_num_events]
    as it was, or one text that starts with the item of this very event,
    with [fw_num_events] one higher. *)
Lemma fw_event_callback_text_cases : forall event_type hdr d1 d2 a1 a2 st st',
  fw_event_callback event_type hdr d1 d2 a1 a2 st = Some st' ->
  (trace_out st' = trace_out st /\ fw_num_events st' = fw_num_events st)
  \/ (exists rest,
        trace_out st' = trace_out st ++ [Buf_event (timeStamp hdr) event_type :: rest]
        /\ fw_num_events st' = DWORD_inc (fw_num_events st)).
Proof.
  intros event_type hdr d1 d2 a1 a2 st st' Hc. unfold fw_event_callback in Hc.
  destruct (ip_version_ignored hdr (fw_buf_reset st)).
  { inversion Hc; subst. left. split; reflexivity. }
  set (st1 := fw_buf_add (Buf_event (timeStamp hdr) event_type) (fw_buf_reset st)) in *.
  pose proof (event_kind_part_ok event_type hdr d1 d2 a1 a2 st1) as Hk.
  destruct (event_kind_part event_type hdr d1 d2 a1 a2 st1) as [| s2 | dir s2];
    [discriminate | |].
  { destruct Hk as [-> _]. inversion Hc; subst. left. split; reflexivity. }
  destruct Hk as [Hok2 _].
  destruct (print_parts hdr dir s2) as [[[[adr prg] usr] pkg] s3] eqn:Hp.
  destruct (print_parts_spec _ _ _ _ _ _ _ _ Hp) as (Hok3 & _ & _).
  destruct (if _ || _ then _ else _) as [s4 |] eqn:Hr; [| discriminate].
  assert (Hok4 : ok s3 s4).
  { destruct (_ || _) in Hr.
    - eapply print_reauth_reason_ok; eauto.
    - inversion Hr; subst. apply ok_refl. }
  assert (Hok : ok st1 s4)
    by (eapply ok_trans; [exact Hok2 |]; eapply ok_trans; eauto).
  destruct Hok as [(_ & _ & _ & K4 & _ & K6 & l & K7) _].
  inversion Hc; subst st'; clear Hc.
  unfold emit_or_ignore.
  destruct ((if negb prg then false else if negb usr then false else adr)
            || prg || usr || pkg).
  - right. exists l. unfold fw_buf_flush. rewrite K7. subst st1. cbn.
    rewrite K6, K4. split; reflexivity.
  - left. cbn. rewrite K6, K4. split; reflexivity.
Qed.

(** X11: a callback that returns has either written nothing and left
    [fw_num_events] as it was, or it has passed one text to [trace_puts()]
    and added one to [fw_num_events]. That text starts with the time stamp
    and the type of this very event: whatever an earlier call has left in
    [fw_buf] is not part of it. *)
Theorem fw_event_callback_own_text : forall event_type hdr d1 d2 a1 a2 st st',
  fw_event_callback event_type hdr d1 d2 a1 a2 st = Some st' ->
  (trace_out st' = trace_out st /\ fw_num_events st' = fw_num_events st)
  \/ (exists rest,
        trace_out st' = trace_out st ++ [Buf_event (timeStamp hdr) event_type :: rest]
        /\ fw_num_events st' = DWORD_inc (fw_num_events st)).
Proof. exact fw_event_callback_text_cases. Qed.

(** X12: over any lookups and events, [fw_num_events] counts the texts
    that were written: it has gone up, modulo 2^32, by the number of texts
    that were passed to [trace_puts()], the texts that were there are still
    in front, and each new text starts with the item of an event. *)
Theorem fw_num_events_counts_texts : forall ops st st',
  run_ops ops st = Some st' ->
  exists texts,
    trace_out st' = trace_out st ++ texts
    /\ fw_num_events st' = Nat.iter (List.length texts) DWORD_inc (fw_num_events st)
    /\ Forall (fun text => exists time_stamp event_type rest,
                   text = Buf_event time_stamp event_type :: rest) texts.
Proof.
  induction ops as [| op ops IH]; intros st st' Hrun; cbn in Hrun.
  - inversion Hrun; subst. exists []. rewrite app_nil_r. repeat split. constructor.
  - destruct (run_op op st) as [st1 |] eqn:Hop; [| discriminate].
    destruct (IH st1 st' Hrun) as (texts & T1 & T2 & T3).
    assert (Hstep : (trace_out st1 = trace_out st /\ fw_num_events st1 = fw_num_events st)
                    \/ (exists text,
                           trace_out st1 = trace_out st ++ [text]
                           /\ fw_num_events st1 = DWORD_inc (fw_num_events st)
                           /\ exists time_stamp event_type rest,
                                text = Buf_event time_stamp event_type :: rest)).
    { destruct op as [key | event_type hdr d1 d2 a1 a2]; cbn in Hop.
      - inversion Hop; subst. left.
        destruct (lookup_or_resolve_ok key st) as [(_ & _ & _ & K4 & _ & K6 & _) _].
        split; assumption.
      - destruct (fw_event_callback_text_cases _ _ _ _ _ _ _ _ Hop)
          as [Hq | (rest & E1 & E2)]; [left; exact Hq | right].
        eexists. split; [exact E1 |]. split; [exact E2 |]. eauto. }
    destruct Hstep as [[S1 S2] | (text & S1 & S2 & S3)].
    + exists texts. rewrite T1, T2, S1, S2. repeat split. exact T3.
    + exists (text :: texts). rewrite T1, T2, S1, S2, <- app_assoc.
      cbn [app List.length]. rewrite Nat.iter_succ_r. repeat split.
      constructor; assumption.
Qed.

End HistoryProperties.

(** The run [run_sample] of [sample_env]: it makes six calls and adds three
    filter entries and one identity entry, writes one text and ignores its
    last event. *)
Lemma run_ops_frame_witness :
  g_cfg run_end = g_cfg run_start
  /\ fw_api run_end = fw_api run_start
  /\ fw_errno run_end = fw_errno run_start
  /\ fw_event_handle run_end = fw_event_handle run_start
  /\ fw_num_rules run_end = fw_num_rules run_start
  /\ fw_have_ip2loc4 run_end = fw_have_ip2loc4 run_start
  /\ fw_have_ip2loc6 run_end = fw_have_ip2loc6 run_start
  /\ fw_module run_end = fw_module run_start
  /\ fw_logged_on_user run_end = fw_logged_on_user run_start
  /\ cleaned_up run_end = cleaned_up run_start.
Proof.
  apply (run_ops_frame (env := sample_env) run_sample run_start run_end).
  vm_compute. reflexivity.
Defined.

Lemma run_ops_growth_witness :
  exists new_calls new_filters new_SIDs,
    calls run_end = calls run_start ++ new_calls
    /\ fw_filter_list run_end = fw_filter_list run_start ++ new_filters
    /\ fw_SID_list run_end = fw_SID_list run_start ++ new_SIDs
    /\ map value new_filters = filter_calls new_calls
    /\ map sid_copy new_SIDs = account_calls new_calls
    /\ ~ In 0 (filter_calls new_calls).
Proof.
  apply (run_ops_growth (env := sample_env) run_sample run_start run_end).
  vm_compute. reflexivity.
Defined.

Lemma caches_hold_each_key_once_witness :
  NoDup (map value (fw_filter_list run_end))
  /\ ~ In 0 (map value (fw_filter_list run_end))
  /\ NoDup (map sid_copy (fw_SID_list run_end))
  /\ List.length (fw_filter_list run_end) = List.length (filter_calls (calls run_end))
  /\ List.length (fw_SID_list run_end) = List.length (account_calls (calls run_end)).
Proof.
  apply (caches_hold_each_key_once (env := sample_env) run_sample run_start run_end).
  - vm_compute. repeat split.
  - vm_compute. reflexivity.
Defined.

(** A classify drop event in [stale_state], where [fw_buf] is not empty. *)
Lemma fw_event_callback_own_text_witness :
  (trace_out stale_state_after = trace_out stale_state
   /\ fw_num_events stale_state_after = fw_num_events stale_state)
  \/ (exists rest,
        trace_out stale_state_after
        = trace_out stale_state
          ++ [Buf_event (timeStamp header_other_alice) _FWPM_NET_EVENT_TYPE_CLASSIFY_DROP
              :: rest]
        /\ fw_num_events stale_state_after = DWORD_inc (fw_num_events stale_state)).
Proof.
  apply (fw_event_callback_own_text (env := sample_env)
           _FWPM_NET_EVENT_TYPE_CLASSIFY_DROP header_other_alice
           (Some sample_classify) None None None stale_state).
  vm_compute. reflexivity.
Defined.

Lemma fw_num_events_counts_texts_witness :
  exists texts,
    trace_out run_end = trace_out run_start ++ texts
    /\ fw_num_events run_end
       = Nat.iter (List.length texts) DWORD_inc (fw_num_events run_start)
    /\ Forall (fun text => exists time_stamp event_type rest,
                   text = Buf_event time_stamp event_type :: rest) texts.
Proof.
  apply (fw_num_events_counts_texts (env := sample_env) run_sample run_start run_end).
  vm_compute. reflexivity.
Defined.

(** ** Further properties: the callbacks of the five levels *)

Section CallbackProperties.
Context {env : Environment}.

(** A callback on an event of a decoded type returns exactly when the IP
    version test stops it or the structure of the type is there; it has
    then counted the event once. *)
Lemma fw_event_callback_returns_iff : forall event_type hdr d1 d2 a1 a2 st,
  decoded_type event_type = true ->
  (fw_event_callback event_type hdr d1 d2 a1 a2 st = None
   <-> ip_version_ignored hdr st || event_present event_type d1 d2 a1 a2 = false)
  /\ forall st',
       fw_event_callback event_type hdr d1 d2 a1 a2 st = Some st' ->
       g_cfg st' = g_cfg st /\ (emitted st st' \/ ignored st st').
Proof.
  intros event_type hdr d1 d2 a1 a2 st Hdec.
  destruct (event_present event_type d1 d2 a1 a2) eqn:Hpres.
  - destruct (fw_event_callback_present event_type hdr d1 d2 a1 a2 st Hpres)
      as (st1 & Hc & _ & Hcfg & _ & _ & Hcase).
    rewrite Hc, orb_true_r. split; [split; discriminate |].
    intros st' E. inversion E; subst st'. split; [exact Hcfg |].
    destruct (_ || _) in Hcase; auto.
  - rewrite orb_false_r. unfold fw_event_callback.
    change (ip_version_ignored hdr (fw_buf_reset st)) with (ip_version_ignored hdr st).
    destruct (ip_version_ignored hdr st).
    + split; [split; discriminate |].
      intros st' E. inversion E; subst st'. split; [reflexivity |].
      right. repeat split.
    + pose proof (event_kind_part_ok event_type hdr d1 d2 a1 a2
                    (fw_buf_add (Buf_event (timeStamp hdr) event_type) (fw_buf_reset st)))
        as Hk.
      destruct (event_kind_part _ _ _ _ _ _ _) as [| s2 | dir s2].
      * split; [split; reflexivity | discriminate].
      * destruct Hk as [_ Hk]. congruence.
      * destruct Hk as [_ Hk]. congruence.
Qed.

(** What the callbacks of the levels 2 to 4 pass is there exactly when the
    member of the union for the type of the event is. *)
Lemma upper_level_arguments : forall e,
  event_present (type e)
    (if type e =? _FWPM_NET_EVENT_TYPE_CLASSIFY_DROP then classifyDrop e else None)
    (if type e =? _FWPM_NET_EVENT_TYPE_CAPABILITY_DROP then capabilityDrop e else None)
    (if type e =? _FWPM_NET_EVENT_TYPE_CLASSIFY_ALLOW then classifyAllow e else None)
    (if type e =? _FWPM_NET_EVENT_TYPE_CAPABILITY_ALLOW then capabilityAllow e else None)
  = member_present e.
Proof.
  intro e. unfold member_present, event_present.
  destruct (type e =? _FWPM_NET_EVENT_TYPE_CLASSIFY_DROP); [reflexivity |].
  destruct (type e =? _FWPM_NET_EVENT_TYPE_CLASSIFY_ALLOW); [reflexivity |].
  destruct (type e =? _FWPM_NET_EVENT_TYPE_CAPABILITY_ALLOW); [reflexivity |].
  destruct (type e =? _FWPM_NET_EVENT_TYPE_CAPABILITY_DROP); reflexivity.
Qed.

(** Those of the levels 0 and 1 pass the classify drop structure alone. *)
Lemma lower_level_arguments : forall e,
  event_present (type e)
    (if type e =? _FWPM_NET_EVENT_TYPE_CLASSIFY_DROP then classifyDrop e else None)
    (if type e =? _FWPM_NET_EVENT_TYPE_CAPABILITY_DROP then NULL_member e else None)
    (if type e =? _FWPM_NET_EVENT_TYPE_CLASSIFY_ALLOW then NULL_member e else None)
    (if type e =? _FWPM_NET_EVENT_TYPE_CAPABILITY_ALLOW then NULL_member e else None)
  = (type e =? _FWPM_NET_EVENT_TYPE_CLASSIFY_DROP) && negb (is_NULL (classifyDrop e)).
Proof.
  intro e. unfold event_present, NULL_member.
  destruct (type e =? _FWPM_NET_EVENT_TYPE_CLASSIFY_DROP); [reflexivity |].
  destruct (type e =? _FWPM_NET_EVENT_TYPE_CLASSIFY_ALLOW); [reflexivity |].
  destruct (type e =? _FWPM_NET_EVENT_TYPE_CAPABILITY_ALLOW); [reflexivity |].
  destruct (type e =? _FWPM_NET_EVENT_TYPE_CAPABILITY_DROP); reflexivity.
Qed.

(** X13: the callbacks that are subscribed for the levels 2, 3 and 4 hand
    the decoder the member of the union that belongs to the type of the
    event. So an event of a decoded type whose member is there never makes
    them dereference [NULL]: the callback returns, and the event was either
    emitted or ignored, and counted as that. A [NULL] event changes
    nothing. *)
Theorem upper_level_callbacks_deliver : forall N e st,
  2 <= N <= 4 ->
  member_present e = true ->
  subscribed_callback N None st = Some st
  /\ exists st',
       subscribed_callback N (Some e) st = Some st'
       /\ (emitted st st' \/ ignored st st').
Proof.
  intros N e st HN Hpres.
  assert (Hcb : subscribed_callback N
                = FW_EVENT_CALLBACK classifyAllow capabilityAllow classifyDrop capabilityDrop).
  { unfold subscribed_callback.
    destruct (Z.eqb_spec N 0); [lia |]. destruct (Z.eqb_spec N 1); [lia |].
    destruct (N =? 2); [reflexivity |]. destruct (N =? 3); reflexivity. }
  rewrite Hcb. split; [reflexivity |]. unfold FW_EVENT_CALLBACK.
  rewrite <- upper_level_arguments in Hpres.
  pose proof (event_present_decoded _ _ _ _ _ Hpres) as Hdec.
  set (d1 := if type e =? _FWPM_NET_EVENT_TYPE_CLASSIFY_DROP
             then classifyDrop e else None) in *.
  set (d2 := if type e =? _FWPM_NET_EVENT_TYPE_CAPABILITY_DROP
             then capabilityDrop e else None) in *.
  set (a1 := if type e =? _FWPM_NET_EVENT_TYPE_CLASSIFY_ALLOW
             then classifyAllow e else None) in *.
  set (a2 := if type e =? _FWPM_NET_EVENT_TYPE_CAPABILITY_ALLOW
             then capabilityAllow e else None) in *.
  destruct (fw_event_callback_returns_iff (type e) (header e) d1 d2 a1 a2 st Hdec)
    as [Hnone Hsome].
  destruct (fw_event_callback (type e) (header e) d1 d2 a1 a2 st) as [st' |] eqn:Hc.
  - exists st'. split; [reflexivity |]. apply (Hsome st' eq_refl).
  - exfalso. destruct Hnone as [Hnone _]. specialize (Hnone eq_refl).
    rewrite Hpres, orb_true_r in Hnone. discriminate.
Qed.

(** X14: the callbacks that are subscribed for the levels 0 and 1 hand the
    decoder the classify drop structure and [NULL] for the other three. On
    an event of a decoded type they make the decoder dereference [NULL]
    unless the IP version test stops the event first or the event is a
    classify drop whose structure is there; so every classify allow and
    every capability event whose IP version is shown does. *)
Theorem lower_level_callbacks_fault_iff : forall N e st,
  N = 0 \/ N = 1 ->
  decoded_type (type e) = true ->
  (subscribed_callback N (Some e) st = None
   <-> ip_version_ignored (header e) st = false
       /\ (type e <> _FWPM_NET_EVENT_TYPE_CLASSIFY_DROP \/ classifyDrop e = None)).
Proof.
  intros N e st HN Hdec.
  assert (Hcb : subscribed_callback N
                = FW_EVENT_CALLBACK NULL_member NULL_member classifyDrop NULL_member)
    by (destruct HN as [-> | ->]; reflexivity).
  rewrite Hcb. unfold FW_EVENT_CALLBACK.
  destruct (fw_event_callback_returns_iff (type e) (header e)
              (if type e =? _FWPM_NET_EVENT_TYPE_CLASSIFY_DROP then classifyDrop e else None)
              (if type e =? _FWPM_NET_EVENT_TYPE_CAPABILITY_DROP then NULL_member e else None)
              (if type e =? _FWPM_NET_EVENT_TYPE_CLASSIFY_ALLOW then NULL_member e else None)
              (if type e =? _FWPM_NET_EVENT_TYPE_CAPABILITY_ALLOW then NULL_member e else None)
              st Hdec) as [Hnone _].
  rewrite Hnone, lower_level_arguments, orb_false_iff, andb_false_iff.
  rewrite Z.eqb_neq, negb_false_iff.
  destruct (classifyDrop e); cbn [is_NULL]; intuition congruence.
Qed.

End CallbackProperties.

(** The callback of level 3 on a classify allow event, and the one of
    level 1 on the same event. *)
Lemma upper_level_callbacks_deliver_witness :
  subscribed_callback (env := sample_env) 3 None (sample_state cfg_show_all 3)
  = Some (sample_state cfg_show_all 3)
  /\ exists st',
       subscribed_callback (env := sample_env) 3 (Some allow_event)
         (sample_state cfg_show_all 3) = Some st'
       /\ (emitted (sample_state cfg_show_all 3) st'
           \/ ignored (sample_state cfg_show_all 3) st').
Proof.
  apply (upper_level_callbacks_deliver (env := sample_env) 3 allow_event
           (sample_state cfg_show_all 3)).
  - lia.
  - reflexivity.
Defined.

Lemma lower_level_callbacks_fault_iff_witness :
  subscribed_callback (env := sample_env) 1 (Some allow_event)
    (sample_state cfg_show_all 1) = None
  <-> ip_version_ignored (env := sample_env) (header allow_event)
        (sample_state cfg_show_all 1) = false
      /\ (type allow_event <> _FWPM_NET_EVENT_TYPE_CLASSIFY_DROP
          \/ classifyDrop allow_event = None).
Proof.
  apply (lower_level_callbacks_fault_iff (env := sample_env) 1 allow_event
           (sample_state cfg_show_all 1)).
  - right. reflexivity.
  - reflexivity.
Defined.

(** ** Further properties: the loop over stored events *)

Section StoredEventProperties.
Context {env : Environment}.

Lemma DWORD_inc_sum : forall a b,
  (DWORD_inc a + b) mod 2 ^ 32 = (a + b + 1) mod 2 ^ 32.
Proof.
  intros a b. unfold DWORD_inc. rewrite Zplus_mod_idemp_l. f_equal. lia.
Qed.

Lemma counted_once : forall st st',
  emitted st st' \/ ignored st st' ->
  (fw_num_events st' + fw_num_ignored st') mod 2 ^ 32
  = (fw_num_events st + fw_num_ignored st + 1) mod 2 ^ 32.
Proof.
  intros st st' [(E1 & E2 & _) | (I1 & I2 & _)].
  - rewrite E1, E2. apply DWORD_inc_sum.
  - rewrite I1, I2, Z.add_comm, DWORD_inc_sum. f_equal. lia.
Qed.

(** With [show_all] off, one turn of the loop counts its entry once, and
    an entry that is not a drop event does not get to the decoder. *)
Lemma DO_ENUM_LOOP_entry_step : forall m1 m2 m3 m4 entry st st',
  show_all (g_cfg st) = false ->
  DO_ENUM_LOOP_entry m1 m2 m3 m4 entry st = Some st' ->
  g_cfg st' = g_cfg st
  /\ (fw_num_events st' + fw_num_ignored st') mod 2 ^ 32
     = (fw_num_events st + fw_num_ignored st + 1) mod 2 ^ 32
  /\ (is_drop entry = false ->
      st' = set_fw_num_ignored (DWORD_inc (fw_num_ignored st)) st).
Proof.
  intros m1 m2 m3 m4 entry st st' Hall Hstep.
  unfold DO_ENUM_LOOP_entry, fw_check_ignore, is_drop in *. rewrite Hall in Hstep.
  cbn [orb] in Hstep.
  destruct (Z.eqb_spec (type entry) _FWPM_NET_EVENT_TYPE_CLASSIFY_DROP) as [Hcd | Hcd].
  { cbn [orb] in Hstep.
    assert (Hdec : decoded_type (type entry) = true) by (rewrite Hcd; reflexivity).
    destruct (fw_event_callback_returns_iff (type entry) (header entry)
                (m3 entry) None None None st Hdec) as [_ Hsome].
    destruct (Hsome st' Hstep) as [Hcfg Hcount].
    split; [exact Hcfg |]. split; [apply counted_once; exact Hcount | discriminate]. }
  destruct (Z.eqb_spec (type entry) _FWPM_NET_EVENT_TYPE_CAPABILITY_DROP) as [Hpd | Hpd].
  { cbn [orb] in Hstep.
    assert (Hdec : decoded_type (type entry) = true) by (rewrite Hpd; reflexivity).
    rewrite Hpd in Hstep at 1. cbn in Hstep.
    destruct (fw_event_callback_returns_iff (type entry) (header entry)
                None (m4 entry) None None st Hdec) as [_ Hsome].
    destruct (Hsome st' Hstep) as [Hcfg Hcount].
    split; [exact Hcfg |]. split; [apply counted_once; exact Hcount | discriminate]. }
  cbn [orb] in Hstep. inversion Hstep; subst st'; clear Hstep.
  split; [reflexivity |]. split; [| reflexivity].
  cbn [fw_num_events fw_num_ignored set_fw_num_ignored].
  rewrite Z.add_comm, DWORD_inc_sum. f_equal. lia.
Qed.

Lemma DO_ENUM_LOOP_sum : forall m1 m2 m3 m4 entries st st',
  show_all (g_cfg st) = false ->
  DO_ENUM_LOOP m1 m2 m3 m4 entries st = Some st' ->
  (fw_num_events st' + fw_num_ignored st') mod 2 ^ 32
  = (fw_num_events st + fw_num_ignored st + Z.of_nat (List.length entries)) mod 2 ^ 32.
Proof.
  intros m1 m2 m3 m4. induction entries as [| entry entries IH]; intros st st' Hall Hrun.
  - cbn in Hrun. inversion Hrun; subst. cbn. rewrite Z.add_0_r. reflexivity.
  - cbn [DO_ENUM_LOOP] in Hrun.
    destruct (DO_ENUM_LOOP_entry m1 m2 m3 m4 entry st) as [st1 |] eqn:Hstep;
      [| discriminate].
    destruct (DO_ENUM_LOOP_entry_step _ _ _ _ _ _ _ Hall Hstep) as (Hcfg & Hsum & _).
    rewrite <- Hcfg in Hall. rewrite (IH st1 st' Hall Hrun).
    cbn [List.length]. rewrite Nat2Z.inj_succ.
    rewrite <- Zplus_mod_idemp_l, Hsum, Zplus_mod_idemp_l. f_equal. lia.
Qed.


(** X15: with [show_all] off, entries that are neither classify drops nor
    capability drops never get to the decoder, at any level: the loop over
    them comes to its end, makes no lookup and writes nothing, and all it
    does is to add one to [fw_num_ignored] for each of them. *)
Theorem DO_ENUM_LOOP_skips_other_types : forall m1 m2 m3 m4 entries st,
  show_all (g_cfg st) = false ->
  forallb (fun e => negb (is_drop e)) entries = true ->
  DO_ENUM_LOOP m1 m2 m3 m4 entries st
  = Some (set_fw_num_ignored
            (Nat.iter (List.length entries) DWORD_inc (fw_num_ignored st)) st).
Proof.
  intros m1 m2 m3 m4. induction entries as [| entry entries IH]; intros st Hall Hother.
  - cbn. destruct st; reflexivity.
  - cbn [forallb] in Hother. apply andb_true_iff in Hother. destruct Hother as [He Hrest].
    apply negb_true_iff in He. cbn [DO_ENUM_LOOP].
    assert (Hstep : DO_ENUM_LOOP_entry m1 m2 m3 m4 entry st
                    = Some (set_fw_num_ignored (DWORD_inc (fw_num_ignored st)) st)).
    { unfold DO_ENUM_LOOP_entry, fw_check_ignore. unfold is_drop in He.
      rewrite Hall. cbn [orb]. rewrite He. reflexivity. }
    rewrite Hstep, IH by assumption.
    cbn [List.length]. rewrite Nat.iter_succ_r. reflexivity.
Qed.

End StoredEventProperties.

(** The two entries that are not drop events are only counted as ignored,
    also by the loop of the levels 0 and 1. *)
Lemma DO_ENUM_LOOP_skips_other_types_witness :
  DO_ENUM_LOOP (env := sample_env) NULL_member NULL_member classifyDrop NULL_member
    [allow_event; ipsec_event] (sample_state cfg_usual 1)
  = Some (set_fw_num_ignored
            (Nat.iter (List.length [allow_event; ipsec_event]) DWORD_inc
               (fw_num_ignored (sample_state cfg_usual 1)))
            (sample_state cfg_usual 1)).
Proof.
  apply (DO_ENUM_LOOP_skips_other_types (env := sample_env)
           NULL_member NULL_member classifyDrop NULL_member
           [allow_event; ipsec_event] (sample_state cfg_usual 1)).
  - reflexivity.
  - reflexivity.
Defined.

(** ** Further properties: the session *)

Section SessionProperties.
Context {env : Environment} {engine : EngineEnvironment}.

(** *** Stopping *)

(** X16: after [fw_monitor_stop()], forced or not, [fw_event_handle] and
    [fw_engine_handle] are both [INVALID_HANDLE_VALUE], so that a second
    [fw_monitor_stop()], of either kind, makes no call and changes
    nothing. *)
Theorem fw_monitor_stop_twice : forall force1 force2 es,
  fw_event_handle (fw_vars (fw_monitor_stop force1 es)) = None
  /\ fw_engine_handle (fw_monitor_stop force1 es) = None
  /\ fw_monitor_stop force2 (fw_monitor_stop force1 es) = fw_monitor_stop force1 es.
Proof.
  intros force1 force2 es. split; [reflexivity |]. split; [reflexivity |].
  set (es1 := fw_monitor_stop force1 es).
  assert (He : fw_event_handle (fw_vars es1) = None) by reflexivity.
  assert (Hg : fw_engine_handle es1 = None) by reflexivity.
  clearbody es1. unfold fw_monitor_stop. rewrite He, Hg.
  destruct force2; destruct es1 as [vars policy engine_h log]; cbn in *; subst;
    destruct vars; cbn in *; subst; reflexivity.
Qed.

(** What a stop that is not forced calls, in one piece. *)
Lemma fw_monitor_stop_calls : forall es,
  engine_calls (fw_monitor_stop false es)
  = engine_calls es
    ++ match fw_engine_handle es with
       | None => []
       | Some engine_h =>
           match fw_event_handle (fw_vars es) with
           | Some event_h =>
               if p_FwpmNetEventUnsubscribe0
               then [Call_FwpmNetEventUnsubscribe0 engine_h event_h] else []
           | None => []
           end
           ++ (if p_FwpmEngineClose0 then [Call_FwpmEngineClose0 engine_h] else [])
       end.
Proof.
  intro es. unfold fw_monitor_stop.
  destruct (fw_engine_handle es) as [engine_h |] eqn:Hg.
  - destruct (fw_event_handle (fw_vars es)) as [event_h |].
    + destruct p_FwpmNetEventUnsubscribe0; cbn; rewrite Hg;
        destruct p_FwpmEngineClose0; cbn; rewrite <- ?app_assoc, ?app_nil_r; reflexivity.
    + rewrite Hg. destruct p_FwpmEngineClose0; cbn; rewrite ?app_nil_r; reflexivity.
  - rewrite Hg. cbn. rewrite app_nil_r. reflexivity.
Qed.

(** X17: a stop that is not forced never hands an invalid handle to the
    engine, and unsubscribes before it closes: with both handles valid and
    both entry points there it calls [FwpmNetEventUnsubscribe0()] and then
    [FwpmEngineClose0()], with only the engine handle valid it only closes
    the engine, and without a valid engine handle it makes no call, also
    when [fw_event_handle] is valid. *)
Theorem fw_monitor_stop_order : forall es,
  p_FwpmNetEventUnsubscribe0 = true ->
  p_FwpmEngineClose0 = true ->
  engine_calls (fw_monitor_stop false es)
  = engine_calls es
    ++ match fw_engine_handle es, fw_event_handle (fw_vars es) with
       | Some engine_h, Some event_h =>
           [Call_FwpmNetEventUnsubscribe0 engine_h event_h; Call_FwpmEngineClose0 engine_h]
       | Some engine_h, None => [Call_FwpmEngineClose0 engine_h]
       | None, _ => []
       end.
Proof.
  intros es Hu Hc. rewrite fw_monitor_stop_calls, Hu, Hc.
  destruct (fw_engine_handle es), (fw_event_handle (fw_vars es)); reflexivity.
Qed.

(** *** Starting *)

Lemma same_but_errno_refl : forall st, same_but_errno st st.
Proof. reflexivity. Qed.

Lemma same_but_errno_trans : forall s1 s2 s3,
  same_but_errno s1 s2 -> same_but_errno s2 s3 -> same_but_errno s1 s3.
Proof. unfold same_but_errno. intros s1 s2 s3 A B. congruence. Qed.

Lemma same_but_errno_set : forall v st, same_but_errno st (set_fw_errno v st).
Proof. reflexivity. Qed.

Lemma same_but_errno_fields : forall st st',
  same_but_errno st st' ->
  g_cfg st' = g_cfg st /\ fw_api st' = fw_api st
  /\ fw_event_handle st' = fw_event_handle st
  /\ fw_num_events st' = fw_num_events st /\ fw_num_ignored st' = fw_num_ignored st
  /\ trace_out st' = trace_out st /\ calls st' = calls st.
Proof.
  intros st st' H. unfold same_but_errno in H.
  repeat split;
    [ apply (f_equal g_cfg) in H | apply (f_equal fw_api) in H
    | apply (f_equal fw_event_handle) in H | apply (f_equal fw_num_events) in H
    | apply (f_equal fw_num_ignored) in H | apply (f_equal trace_out) in H
    | apply (f_equal calls) in H ]; exact H.
Qed.

(** [fw_create_engine()]: it opens the engine when the handle is invalid
    and the entry point is there, and touches [fw_errno] alone besides the
    handle. *)
Lemma fw_create_engine_cases : forall es,
  let r := fw_create_engine es in
  fw_policy_handle (snd r) = fw_policy_handle es
  /\ same_but_errno (fw_vars es) (fw_vars (snd r))
  /\ (engine_calls (snd r) = engine_calls es
      \/ engine_calls (snd r) = engine_calls es ++ [Call_FwpmEngineOpen0])
  /\ (fst r = true -> fw_vars (snd r) = fw_vars es).
Proof.
  intro es. cbv zeta. unfold fw_create_engine.
  destruct (fw_engine_handle es).
  { cbn. repeat split. left. reflexivity. }
  destruct p_FwpmEngineOpen0 as [open |].
  - destruct (open (engine_calls es)) as [rc handle].
    destruct (rc =? ERROR_SUCCESS); cbn; repeat split; auto; discriminate.
  - cbn. repeat split; auto. discriminate.
Qed.

Lemma set_option_cases : forall set option_id value es,
  let r := set_option set option_id value es in
  fst r = log_engine_call
            (Call_FwpmEngineSetOption0 (fw_engine_handle es) option_id value) es
  /\ match snd r with
     | Some failed =>
         fw_policy_handle failed = fw_policy_handle es
         /\ same_but_errno (fw_vars es) (fw_vars failed)
     | None => True
     end.
Proof.
  intros set option_id value es. cbv zeta. unfold set_option.
  destruct (_ =? ERROR_SUCCESS); cbn; repeat split.
Qed.

(** [fw_monitor_init()] touches [fw_errno] alone among the variables of
    [fw_state]. *)
Lemma fw_monitor_init_vars : forall es,
  same_but_errno (fw_vars es) (fw_vars (snd (fw_monitor_init es))).
Proof.
  intro es. unfold fw_monitor_init.
  destruct (is_NULL (fw_policy_handle es)); [apply same_but_errno_refl |].
  destruct (fw_create_engine_cases es) as (_ & Hv & _ & _).
  destruct (fw_create_engine es) as [created es1]. cbn [fst snd] in *.
  destruct created; cbn [negb]; [| exact Hv].
  destruct p_FwpmEngineSetOption0 as [set |]; [| exact Hv].
  unfold set_option.
  repeat match goal with
         | |- context [negb (?rc =? ERROR_SUCCESS)] =>
             destruct (rc =? ERROR_SUCCESS); cbn [negb]
         end; exact Hv.
Qed.

(** A successful [fw_monitor_init()], in one piece. *)
Lemma fw_monitor_init_true : forall es es1,
  fw_monitor_init es = (true, es1) ->
  fw_policy_handle es <> None
  /\ fw_vars es1 = set_fw_errno ERROR_SUCCESS (fw_vars es)
  /\ exists opened,
       (opened = [] \/ opened = [Call_FwpmEngineOpen0])
       /\ engine_calls es1
          = engine_calls es ++ opened
            ++ [Call_FwpmEngineSetOption0 (fw_engine_handle es1)
                  FWPM_ENGINE_COLLECT_NET_EVENTS 1;
                Call_FwpmEngineSetOption0 (fw_engine_handle es1)
                  FWPM_ENGINE_NET_EVENT_MATCH_ANY_KEYWORDS (event_keywords es);
                Call_FwpmEngineSetOption0 (fw_engine_handle es1)
                  FWPM_ENGINE_MONITOR_IPSEC_CONNECTIONS 1].
Proof.
  intros es es1 Hinit. unfold fw_monitor_init in Hinit.
  destruct (fw_policy_handle es) as [policy |] eqn:Hpol; cbn [is_NULL] in Hinit;
    [| discriminate].
  split; [discriminate |].
  destruct (fw_create_engine_cases es) as (_ & _ & Hcalls & Hvars).
  destruct (fw_create_engine es) as [created e1]. cbn [fst snd] in *.
  destruct created; cbn [negb] in Hinit; [| discriminate].
  specialize (Hvars eq_refl).
  destruct p_FwpmEngineSetOption0 as [set |]; [| discriminate].
  unfold set_option in Hinit.
  repeat match type of Hinit with
         | context [negb (?rc =? ERROR_SUCCESS)] =>
             destruct (rc =? ERROR_SUCCESS); cbn [negb] in Hinit; [| discriminate]
         end.
  assert (Hkw : forall c, event_keywords (log_engine_call c e1) = event_keywords es)
    by (intro c; unfold event_keywords; cbn [fw_vars log_engine_call];
        rewrite Hvars; reflexivity).
  inversion Hinit; subst es1; clear Hinit. rewrite Hkw. cbn -[event_keywords].
  split; [rewrite Hvars; reflexivity |].
  destruct Hcalls as [Hc | Hc]; rewrite Hc.
  - exists []. split; [left; reflexivity |].
    cbn -[event_keywords]. repeat rewrite <- app_assoc. reflexivity.
  - exists [Call_FwpmEngineOpen0]. split; [right; reflexivity |].
    repeat rewrite <- app_assoc. reflexivity.
Qed.

Lemma fw_monitor_subscribe_keeps : forall st,
  fw_num_events (snd (fw_monitor_subscribe st)) = fw_num_events st
  /\ fw_num_ignored (snd (fw_monitor_subscribe st)) = fw_num_ignored st.
Proof.
  intro st.
  destruct ((fw_api st <? FW_API_LOW) || (fw_api st >? FW_API_HIGH)) eqn:Hrange.
  - unfold fw_monitor_subscribe. rewrite Hrange. split; reflexivity.
  - apply api_level_legal in Hrange. rewrite (fw_monitor_subscribe_cases st Hrange).
    destruct (p_FwpmNetEventSubscribe (fw_api st)) as [subscribe |]; [| split; reflexivity].
    cbv zeta. destruct (_ =? ERROR_SUCCESS); [split; reflexivity |].
    destruct (lower_entry_missing (fw_api st)); split; reflexivity.
Qed.

(** X18: [fw_monitor_start()] leaves [fw_num_events] and [fw_num_ignored]
    at 0, whether it succeeds or fails and wherever it fails. *)
Theorem fw_monitor_start_resets_counters : forall es,
  fw_num_events (fw_vars (snd (fw_monitor_start es))) = 0
  /\ fw_num_ignored (fw_vars (snd (fw_monitor_start es))) = 0.
Proof.
  intro es. unfold fw_monitor_start.
  destruct ws_sema_inherited; [split; reflexivity |].
  unfold fw_check_sizes. destruct sizes_agree; cbn [negb]; [| split; reflexivity].
  set (es1 := set_engine_errno 0 (set_engine_errno FW_FUNC_ERROR (reset_counters es))).
  pose proof (fw_monitor_init_vars es1) as Hv.
  apply same_but_errno_fields in Hv. destruct Hv as (_ & _ & _ & He & Hi & _).
  destruct (fw_monitor_init es1) as [initialised es2]. cbn [snd] in He, Hi.
  destruct initialised; cbn [negb]; [| split; assumption].
  destruct (fw_monitor_subscribe_keeps (fw_vars es2)) as [Se Si].
  destruct (fw_monitor_subscribe (fw_vars es2)) as [subscribed st]. cbn [snd] in *.
  cbn [fw_vars set_fw_vars]. rewrite Se, Si, He, Hi. split; reflexivity.
Qed.

(** X19: when [fw_monitor_start()] returns [TRUE], the process has not
    inherited the semaphore, the sizes agree and the policy store is open;
    the engine was opened if it was not open, the three options were set
    with the engine handle, in their order, one subscription call was made,
    for the level [fw_api], and [fw_errno] is [ERROR_SUCCESS]. *)
Theorem fw_monitor_start_success : forall es es',
  fw_monitor_start es = (true, es') ->
  ws_sema_inherited = false
  /\ sizes_agree = true
  /\ fw_policy_handle es <> None
  /\ fw_errno (fw_vars es') = ERROR_SUCCESS
  /\ calls (fw_vars es')
     = calls (fw_vars es) ++ [Call_FwpmNetEventSubscribe (fw_api (fw_vars es))]
  /\ exists opened,
       (opened = [] \/ opened = [Call_FwpmEngineOpen0])
       /\ engine_calls es'
          = engine_calls es ++ opened
            ++ [Call_FwpmEngineSetOption0 (fw_engine_handle es')
                  FWPM_ENGINE_COLLECT_NET_EVENTS 1;
                Call_FwpmEngineSetOption0 (fw_engine_handle es')
                  FWPM_ENGINE_NET_EVENT_MATCH_ANY_KEYWORDS (event_keywords es);
                Call_FwpmEngineSetOption0 (fw_engine_handle es')
                  FWPM_ENGINE_MONITOR_IPSEC_CONNECTIONS 1].
Proof.
  intros es es' Hstart. unfold fw_monitor_start in Hstart.
  destruct ws_sema_inherited; [discriminate |]. split; [reflexivity |].
  unfold fw_check_sizes in Hstart.
  destruct sizes_agree; cbn [negb] in Hstart; [| discriminate]. split; [reflexivity |].
  set (es1 := set_engine_errno 0 (set_engine_errno FW_FUNC_ERROR (reset_counters es))) in *.
  destruct (fw_monitor_init es1) as [initialised es2] eqn:Hinit.
  destruct initialised; cbn [negb] in Hstart; [| discriminate].
  destruct (fw_monitor_init_true es1 es2 Hinit) as (Hpol & Hvars & opened & Hopened & Hcalls).
  split; [exact Hpol |].
  assert (Hkw : event_keywords es1 = event_keywords es) by reflexivity.
  rewrite Hkw in Hcalls.
  destruct (fw_monitor_subscribe (fw_vars es2)) as [subscribed st] eqn:Hsub.
  inversion Hstart; subst subscribed es'; clear Hstart.
  cbn [fw_vars set_fw_vars engine_calls fw_engine_handle].
  assert (Hst : fw_errno st = ERROR_SUCCESS
                /\ calls st = calls (fw_vars es2)
                              ++ [Call_FwpmNetEventSubscribe (fw_api (fw_vars es2))]).
  { destruct ((fw_api (fw_vars es2) <? FW_API_LOW) || (fw_api (fw_vars es2) >? FW_API_HIGH))
      eqn:Hrange.
    - unfold fw_monitor_subscribe in Hsub. rewrite Hrange in Hsub. discriminate.
    - apply api_level_legal in Hrange.
      rewrite (fw_monitor_subscribe_cases (fw_vars es2) Hrange) in Hsub.
      destruct (p_FwpmNetEventSubscribe (fw_api (fw_vars es2))) as [subscribe |];
        [| discriminate].
      cbv zeta in Hsub.
      destruct (Z.eqb_spec (fst (subscribe (calls (fw_vars es2))
                                   (fw_event_handle (fw_vars es2)))) ERROR_SUCCESS)
        as [Hrc | Hrc]; [| discriminate].
      inversion Hsub; subst st. split; [exact Hrc | reflexivity]. }
  destruct Hst as [Herr Hcl]. rewrite Hvars in Hcl.
  split; [exact Herr |]. split; [exact Hcl |].
  exists opened. split; [exact Hopened | exact Hcalls].
Qed.

(** X20: when the policy store is not open, which is so before [fw_init()]
    and after a failed [fw_init()], and the first two tests pass,
    [fw_monitor_start()] returns [FALSE] without any call to the engine, and
    it leaves 0 in [fw_errno]: the caller finds no error there. *)
Theorem fw_monitor_start_without_policy_store : forall es,
  fw_policy_handle es = None ->
  ws_sema_inherited = false ->
  sizes_agree = true ->
  fst (fw_monitor_start es) = false
  /\ fw_errno (fw_vars (snd (fw_monitor_start es))) = 0
  /\ engine_calls (snd (fw_monitor_start es)) = engine_calls es
  /\ calls (fw_vars (snd (fw_monitor_start es))) = calls (fw_vars es)
  /\ fw_engine_handle (snd (fw_monitor_start es)) = fw_engine_handle es.
Proof.
  intros es Hpol Hinh Hsizes. unfold fw_monitor_start, fw_check_sizes, fw_monitor_init.
  rewrite Hinh, Hsizes. cbn. rewrite Hpol. cbn. repeat split.
Qed.

(** *** The stored events *)

Lemma history_DO_ENUM_LOOP : forall m1 m2 m3 m4 entries st st',
  DO_ENUM_LOOP m1 m2 m3 m4 entries st = Some st' -> history st st'.
Proof.
  intros m1 m2 m3 m4. induction entries as [| entry entries IH]; intros st st' Hrun.
  - cbn in Hrun. inversion Hrun; subst. apply history_refl.
  - cbn [DO_ENUM_LOOP] in Hrun.
    destruct (DO_ENUM_LOOP_entry m1 m2 m3 m4 entry st) as [st1 |] eqn:Hstep;
      [| discriminate].
    eapply history_trans; [| apply IH; exact Hrun].
    unfold DO_ENUM_LOOP_entry, fw_check_ignore in Hstep.
    destruct (_ || _) in Hstep.
    + repeat match type of Hstep with
             | (if ?c then _ else _) = _ => destruct c
             end;
        try (eapply history_fw_event_callback; exact Hstep).
      inversion Hstep; subst. apply history_refl.
    + inversion Hstep; subst. apply history_counters; exact 0.
Qed.

(** An expansion of [GET_ENUM_ENTRIES] that gets to [quit] has made the one
    call of its level, and has left the handles alone. *)
Lemma GET_ENUM_ENTRIES_quit : forall N m1 m2 m3 m4 api_level h es rc entries es',
  GET_ENUM_ENTRIES N m1 m2 m3 m4 api_level h es = Enum_quit rc entries es' ->
  engine_calls es' = engine_calls es ++ [Call_FwpmNetEventEnum N (fw_engine_handle es) h]
  /\ fw_engine_handle es' = fw_engine_handle es
  /\ fw_event_handle (fw_vars es') = fw_event_handle (fw_vars es).
Proof.
  intros N m1 m2 m3 m4 api_level h es rc entries es' Hg. unfold GET_ENUM_ENTRIES in Hg.
  destruct (p_FwpmNetEventEnum N) as [enum |]; [| discriminate].
  destruct (api_level =? N); [| discriminate].
  destruct (enum (engine_calls es) (fw_engine_handle es) h) as [rc0 entriesN].
  destruct (rc0 =? ERROR_SUCCESS); cbn [negb] in Hg.
  - destruct (DO_ENUM_LOOP _ _ _ _ _ _) as [st |] eqn:Hloop; [| discriminate].
    inversion Hg; subst rc entries es'; clear Hg.
    apply history_DO_ENUM_LOOP in Hloop. destruct Hloop as [(_ & _ & _ & Hh & _) _].
    repeat split. exact Hh.
  - inversion Hg; subst. repeat split.
Qed.

Lemma get_enum_entries_quit : forall api_level h es rc entries es',
  get_enum_entries api_level h es = Enum_quit rc entries es' ->
  exists N,
    engine_calls es' = engine_calls es ++ [Call_FwpmNetEventEnum N (fw_engine_handle es) h]
    /\ fw_engine_handle es' = fw_engine_handle es
    /\ fw_event_handle (fw_vars es') = fw_event_handle (fw_vars es).
Proof.
  intros api_level h es rc entries es' Hg. unfold get_enum_entries in Hg.
  repeat match type of Hg with
         | match ?g with _ => _ end = _ =>
             let E := fresh "E" in
             destruct g eqn:E;
               try discriminate;
               try (inversion Hg; subst; eexists; eapply GET_ENUM_ENTRIES_quit; exact E)
         end.
  eexists. eapply GET_ENUM_ENTRIES_quit. exact Hg.
Qed.

(** When the entry point of the level is missing, no expansion does
    anything. *)
Lemma get_enum_entries_missing : forall api_level h es,
  p_FwpmNetEventEnum api_level = None ->
  get_enum_entries api_level h es = Enum_next.
Proof.
  intros api_level h es Hp.
  assert (Hnext : forall N m1 m2 m3 m4,
             GET_ENUM_ENTRIES N m1 m2 m3 m4 api_level h es = Enum_next).
  { intros N m1 m2 m3 m4. unfold GET_ENUM_ENTRIES.
    destruct (p_FwpmNetEventEnum N) as [enum |] eqn:HN; [| reflexivity].
    destruct (Z.eqb_spec api_level N) as [-> | Hne]; [congruence | reflexivity]. }
  unfold get_enum_entries. repeat rewrite Hnext. reflexivity.
Qed.

Lemma fw_dump_events_quit_calls : forall rc entries h es,
  engine_calls (snd (fw_dump_events_quit rc entries h es))
  = engine_calls es
    ++ (if entries then [Call_FwpmFreeMemory0] else [])
    ++ (if negb (is_NULL (fw_event_handle (fw_vars es)))
        then [Call_FwpmNetEventDestroyEnumHandle0 (fw_engine_handle es) h] else []).
Proof.
  intros rc entries h es. unfold fw_dump_events_quit.
  destruct entries; cbn; destruct (fw_event_handle (fw_vars es)); cbn;
    rewrite <- ?app_assoc, ?app_nil_r; reflexivity.
Qed.

(** When the entry point of a legal level is there, the five expansions
    come down to the one of that level: the levels 2 to 4 read all four
    members of the union, the levels 0 and 1 the classify drop alone. *)
Lemma get_enum_entries_at : forall api_level h es enum,
  FW_API_LOW <= api_level <= FW_API_HIGH ->
  p_FwpmNetEventEnum api_level = Some enum ->
  get_enum_entries api_level h es
  = if 2 <=? api_level
    then GET_ENUM_ENTRIES api_level classifyAllow capabilityAllow classifyDrop
           capabilityDrop api_level h es
    else GET_ENUM_ENTRIES api_level NULL_member NULL_member classifyDrop
           NULL_member api_level h es.
Proof.
  intros api_level h es enum Hrange Hp. unfold FW_API_LOW, FW_API_HIGH in Hrange.
  assert (Hother : forall N m1 m2 m3 m4,
             N <> api_level -> GET_ENUM_ENTRIES N m1 m2 m3 m4 api_level h es = Enum_next).
  { intros N m1 m2 m3 m4 Hne. unfold GET_ENUM_ENTRIES.
    destruct (p_FwpmNetEventEnum N); [| reflexivity].
    destruct (Z.eqb_spec api_level N); [congruence | reflexivity]. }
  assert (Hat : forall m1 m2 m3 m4 (rest : enum_flow),
             match GET_ENUM_ENTRIES api_level m1 m2 m3 m4 api_level h es with
             | Enum_next => rest
             | other => other
             end = GET_ENUM_ENTRIES api_level m1 m2 m3 m4 api_level h es).
  { intros m1 m2 m3 m4 rest. unfold GET_ENUM_ENTRIES. rewrite Hp, Z.eqb_refl.
    destruct (enum _ _ _) as [rc entriesN].
    destruct (negb (rc =? ERROR_SUCCESS)); [reflexivity |].
    destruct (DO_ENUM_LOOP _ _ _ _ _ _); reflexivity. }
  assert (Hcase : api_level = 4 \/ api_level = 3 \/ api_level = 2
                  \/ api_level = 1 \/ api_level = 0) by lia.
  unfold get_enum_entries.
  destruct Hcase as [E | [E | [E | [E | E]]]]; rewrite E in *; cbn [Z.leb Z.compare];
    repeat (rewrite Hother by lia); try apply Hat; reflexivity.
Qed.

Lemma fw_dump_events_quit_fields : forall rc entries h es,
  fst (fw_dump_events_quit rc entries h es) = (rc =? ERROR_SUCCESS)
  /\ fw_vars (snd (fw_dump_events_quit rc entries h es)) = set_fw_errno rc (fw_vars es).
Proof.
  intros rc entries h es. unfold fw_dump_events_quit.
  destruct entries; cbn; destruct (fw_event_handle (fw_vars es)); cbn; split; reflexivity.
Qed.

(** X21: with [show_all] off, a [fw_dump_events()] that enumerates the
    stored events and returns has counted every entry exactly once, as an
    event or as ignored, and nothing else: it returns [TRUE], and the sum of
    [fw_num_events] and [fw_num_ignored] is the number of entries modulo
    2^32, whatever the two counters were before. *)
Theorem fw_dump_events_counts_entries : forall es es1 create enum h entries b es',
  show_all (g_cfg (fw_vars es)) = false ->
  FW_API_LOW <= fw_api (fw_vars es) <= FW_API_HIGH ->
  p_FwpmNetEventCreateEnumHandle0 = Some create ->
  p_FwpmNetEventDestroyEnumHandle0 = true ->
  p_FwpmFreeMemory0 = true ->
  fw_create_engine es = (true, es1) ->
  create (engine_calls es1) (fw_engine_handle es1) = (ERROR_SUCCESS, h) ->
  p_FwpmNetEventEnum (fw_api (fw_vars es)) = Some enum ->
  enum (engine_calls es1 ++ [Call_FwpmNetEventCreateEnumHandle0 (fw_engine_handle es1)])
    (fw_engine_handle es1) h = (ERROR_SUCCESS, Some entries) ->
  fw_dump_events es = Some (b, es') ->
  b = true
  /\ (fw_num_events (fw_vars es') + fw_num_ignored (fw_vars es')) mod 2 ^ 32
     = Z.of_nat (List.length entries) mod 2 ^ 32.
Proof.
  intros es es1 create enum h entries b es'
    Hall Hrange Hcreate Hdestroy Hfree Hengine Hh Hp Henum Hdump.
  unfold fw_dump_events in Hdump.
  pose proof Hrange as Hlegal. apply api_level_legal in Hlegal.
  rewrite Hlegal, Hcreate, Hdestroy, Hfree in Hdump. cbn [negb orb] in Hdump.
  destruct (fw_create_engine_cases es) as (_ & _ & _ & Hvars).
  rewrite Hengine in Hdump, Hvars. cbn [fst snd negb] in Hdump, Hvars.
  specialize (Hvars eq_refl).
  change (engine_calls (reset_counters es1)) with (engine_calls es1) in Hdump.
  change (fw_engine_handle (reset_counters es1)) with (fw_engine_handle es1) in Hdump.
  rewrite Hh, Z.eqb_refl in Hdump. cbn [negb] in Hdump.
  set (es3 := log_engine_call
                (Call_FwpmNetEventCreateEnumHandle0 (fw_engine_handle es1))
                (reset_counters es1)) in *.
  rewrite (get_enum_entries_at _ h es3 enum Hrange Hp) in Hdump.
  assert (Hloop : forall m1 m2 m3 m4,
             match GET_ENUM_ENTRIES (fw_api (fw_vars es)) m1 m2 m3 m4
                     (fw_api (fw_vars es)) h es3 with
             | Enum_fault => None
             | Enum_next => Some (fw_dump_events_quit ERROR_SUCCESS false h es3)
             | Enum_quit rc1 entries1 es4 =>
                 Some (fw_dump_events_quit rc1 entries1 h es4)
             end = Some (b, es') ->
             b = true
             /\ (fw_num_events (fw_vars es') + fw_num_ignored (fw_vars es')) mod 2 ^ 32
                = Z.of_nat (List.length entries) mod 2 ^ 32).
  { intros m1 m2 m3 m4 Hd. unfold GET_ENUM_ENTRIES in Hd.
    rewrite Hp, Z.eqb_refl in Hd.
    change (engine_calls es3)
      with (engine_calls es1
            ++ [Call_FwpmNetEventCreateEnumHandle0 (fw_engine_handle es1)]) in Hd.
    change (fw_engine_handle es3) with (fw_engine_handle es1) in Hd.
    rewrite Henum, Z.eqb_refl in Hd. cbn [negb is_NULL] in Hd.
    destruct (DO_ENUM_LOOP m1 m2 m3 m4 entries (fw_vars _)) as [st |] eqn:Hrun;
      [| discriminate].
    apply DO_ENUM_LOOP_sum in Hrun;
      [| subst es3; cbn; rewrite Hvars; exact Hall].
    match type of Hd with
    | Some (fw_dump_events_quit ?rc ?e ?hh ?s) = _ =>
        destruct (fw_dump_events_quit_fields rc e hh s) as [Hb Hv];
        destruct (fw_dump_events_quit rc e hh s) as [b0 es0]
    end.
    inversion Hd; subst b0 es0; clear Hd. cbn [fst snd] in Hb, Hv.
    rewrite Z.eqb_refl in Hb. split; [exact Hb |].
    rewrite Hv. cbn [fw_num_events fw_num_ignored set_fw_errno fw_vars set_fw_vars].
    exact Hrun. }
  destruct (2 <=? fw_api (fw_vars es)); eapply Hloop; exact Hdump.
Qed.

(** X22: when the entry point [FwpmNetEventEnumN] of the level [fw_api] is
    missing, [fw_dump_events()] does not fail for it: once the engine is
    open and the enum handle is created it enumerates nothing, whatever
    other entry points there are, and returns [TRUE] with [ERROR_SUCCESS] in
    [fw_errno], both counters at 0 and nothing written. *)
Theorem fw_dump_events_without_entry_point : forall es create,
  FW_API_LOW <= fw_api (fw_vars es) <= FW_API_HIGH ->
  p_FwpmNetEventCreateEnumHandle0 = Some create ->
  p_FwpmNetEventDestroyEnumHandle0 = true ->
  p_FwpmFreeMemory0 = true ->
  fst (fw_create_engine es) = true ->
  fst (create (engine_calls (snd (fw_create_engine es)))
         (fw_engine_handle (snd (fw_create_engine es)))) = ERROR_SUCCESS ->
  p_FwpmNetEventEnum (fw_api (fw_vars es)) = None ->
  exists es',
    fw_dump_events es = Some (true, es')
    /\ fw_errno (fw_vars es') = ERROR_SUCCESS
    /\ fw_num_events (fw_vars es') = 0
    /\ fw_num_ignored (fw_vars es') = 0
    /\ trace_out (fw_vars es') = trace_out (fw_vars es)
    /\ calls (fw_vars es') = calls (fw_vars es)
    /\ existsb is_enum (engine_calls es') = existsb is_enum (engine_calls es).
Proof.
  intros es create Hrange Hcreate Hdestroy Hfree Hengine Hrc Hnone.
  unfold fw_dump_events. apply api_level_legal in Hrange.
  rewrite Hrange, Hcreate, Hdestroy, Hfree. cbn [negb orb].
  destruct (fw_create_engine_cases es) as (_ & _ & Hcalls & Hvars).
  destruct (fw_create_engine es) as [created es1]. cbn [fst snd] in *. subst created.
  specialize (Hvars eq_refl). cbn [negb].
  change (engine_calls (reset_counters es1)) with (engine_calls es1).
  change (fw_engine_handle (reset_counters es1)) with (fw_engine_handle es1).
  destruct (create (engine_calls es1) (fw_engine_handle es1)) as [rc h].
  cbn [fst] in Hrc. subst rc. rewrite Z.eqb_refl. cbn [negb].
  rewrite get_enum_entries_missing by exact Hnone.
  set (es3 := log_engine_call
                (Call_FwpmNetEventCreateEnumHandle0 (fw_engine_handle es1))
                (reset_counters es1)).
  pose proof (fw_dump_events_quit_calls ERROR_SUCCESS false h es3) as Hqc.
  destruct (fw_dump_events_quit_fields ERROR_SUCCESS false h es3) as [Hb Hv].
  destruct (fw_dump_events_quit ERROR_SUCCESS false h es3) as [b es'].
  cbn [fst snd] in *. rewrite Z.eqb_refl in Hb. subst b.
  exists es'. split; [reflexivity |]. rewrite Hv. subst es3. cbn. rewrite Hvars.
  repeat split. rewrite Hqc. cbn [engine_calls log_engine_call reset_counters
                                  set_fw_vars fw_vars fw_engine_handle app].
  repeat rewrite existsb_app.
  destruct Hcalls as [-> | ->]; [| rewrite existsb_app];
    destruct (negb _); cbn; rewrite ?orb_false_r; reflexivity.
Qed.

(** X23: [fw_dump_events()] destroys the enum handle it has created exactly
    when [fw_event_handle] is valid, that is when a subscription exists:
    among the calls of a [fw_dump_events()] that returns there is a
    [FwpmNetEventDestroyEnumHandle0()] call if, and only if, there is a
    [FwpmNetEventCreateEnumHandle0()] call and [fw_event_handle] is not
    [INVALID_HANDLE_VALUE]. *)
Theorem fw_dump_events_enum_handle : forall es b es',
  fw_dump_events es = Some (b, es') ->
  exists new_calls,
    engine_calls es' = engine_calls es ++ new_calls
    /\ existsb is_destroy_enum new_calls
       = existsb is_create_enum new_calls
         && negb (is_NULL (fw_event_handle (fw_vars es))).
Proof.
  intros es b es' Hdump. unfold fw_dump_events in Hdump.
  assert (Hquiet : forall v,
             exists new_calls,
               engine_calls (set_engine_errno v es) = engine_calls es ++ new_calls
               /\ existsb is_destroy_enum new_calls
                  = existsb is_create_enum new_calls
                    && negb (is_NULL (fw_event_handle (fw_vars es)))).
  { intro v. exists []. cbn. rewrite app_nil_r. split; reflexivity. }
  destruct (_ || _) in Hdump; [inversion Hdump; subst; apply Hquiet |].
  destruct p_FwpmNetEventCreateEnumHandle0 as [create |];
    [| inversion Hdump; subst; apply Hquiet].
  destruct (_ || _) in Hdump; [inversion Hdump; subst; apply Hquiet |].
  clear Hquiet.
  destruct (fw_create_engine_cases es) as (_ & Hsame & Hcalls & Hvars).
  destruct (fw_create_engine es) as [created es1]. cbn [fst snd] in *.
  destruct created; cbn [negb] in Hdump.
  2:{ inversion Hdump; subst es' b. destruct Hcalls as [Hc | Hc].
      - exists []. rewrite app_nil_r. split; [exact Hc | reflexivity].
      - exists [Call_FwpmEngineOpen0]. split; [exact Hc | reflexivity]. }
  specialize (Hvars eq_refl).
  change (engine_calls (reset_counters es1)) with (engine_calls es1) in Hdump.
  change (fw_engine_handle (reset_counters es1)) with (fw_engine_handle es1) in Hdump.
  destruct (create (engine_calls es1) (fw_engine_handle es1)) as [rc h].
  set (es3 := log_engine_call
                (Call_FwpmNetEventCreateEnumHandle0 (fw_engine_handle es1))
                (reset_counters es1)) in *.
  assert (H3 : engine_calls es3
               = engine_calls es1
                 ++ [Call_FwpmNetEventCreateEnumHandle0 (fw_engine_handle es1)])
    by reflexivity.
  assert (Hh3 : fw_event_handle (fw_vars es3) = fw_event_handle (fw_vars es))
    by (subst es3; cbn; rewrite Hvars; reflexivity).
  assert (Hend : forall rc1 entries es4 enum_calls,
             engine_calls es4 = engine_calls es3 ++ enum_calls ->
             existsb is_create_enum enum_calls = false ->
             existsb is_destroy_enum enum_calls = false ->
             fw_event_handle (fw_vars es4) = fw_event_handle (fw_vars es) ->
             Some (fw_dump_events_quit rc1 entries h es4) = Some (b, es') ->
             exists new_calls,
               engine_calls es' = engine_calls es ++ new_calls
               /\ existsb is_destroy_enum new_calls
                  = existsb is_create_enum new_calls
                    && negb (is_NULL (fw_event_handle (fw_vars es)))).
  { intros rc1 entries es4 enum_calls H4 Hc4 Hd4 Hh4 Hq.
    pose proof (fw_dump_events_quit_calls rc1 entries h es4) as Hqc.
    assert (Hq' : fw_dump_events_quit rc1 entries h es4 = (b, es')) by congruence.
    rewrite Hq' in Hqc. cbn [snd] in Hqc.
    rewrite H4, H3, Hh4 in Hqc.
    destruct Hcalls as [Hc1 | Hc1]; rewrite Hc1 in Hqc;
      repeat rewrite <- app_assoc in Hqc; eexists; (split; [exact Hqc |]);
      repeat rewrite existsb_app; rewrite Hc4, Hd4;
      destruct entries; destruct (fw_event_handle (fw_vars es)); reflexivity. }
  destruct (rc =? ERROR_SUCCESS); cbn [negb] in Hdump.
  - destruct (get_enum_entries (fw_api (fw_vars es)) h es3) as [| | rc1 entries es4] eqn:Hg.
    + apply (Hend rc false es3 []); try reflexivity; [| exact Hh3 | exact Hdump].
      rewrite app_nil_r. reflexivity.
    + discriminate.
    + destruct (get_enum_entries_quit _ _ _ _ _ _ Hg) as (N & G1 & _ & G3).
      apply (Hend rc1 entries es4 [Call_FwpmNetEventEnum N (fw_engine_handle es3) h]);
        try reflexivity; [exact G1 | congruence | exact Hdump].
  - apply (Hend rc false es3 []); try reflexivity; [| exact Hh3 | exact Hdump].
    rewrite app_nil_r. reflexivity.
Qed.

End SessionProperties.

(** A stop of [started_session], where both handles are valid. *)
Lemma fw_monitor_stop_order_witness :
  engine_calls (fw_monitor_stop (engine := sample_engine []) false started_session)
  = engine_calls started_session
    ++ match fw_engine_handle started_session,
             fw_event_handle (fw_vars started_session) with
       | Some engine_h, Some event_h =>
           [Call_FwpmNetEventUnsubscribe0 engine_h event_h; Call_FwpmEngineClose0 engine_h]
       | Some engine_h, None => [Call_FwpmEngineClose0 engine_h]
       | None, _ => []
       end.
Proof.
  apply (fw_monitor_stop_order (engine := sample_engine []) started_session).
  - reflexivity.
  - reflexivity.
Defined.

(** [fw_monitor_start()] of [sample_env] and [sample_engine] at the level 0
    opens the engine, sets the three options and subscribes. *)
Lemma fw_monitor_start_success_witness :
  ws_sema_inherited (EngineEnvironment := sample_engine []) = false
  /\ sizes_agree (EngineEnvironment := sample_engine []) = true
  /\ fw_policy_handle (sample_session cfg_usual 0) <> None
  /\ fw_errno (fw_vars started_session) = 0
  /\ calls (fw_vars started_session)
     = calls (fw_vars (sample_session cfg_usual 0))
       ++ [Call_FwpmNetEventSubscribe (fw_api (fw_vars (sample_session cfg_usual 0)))]
  /\ exists opened,
       (opened = [] \/ opened = [Call_FwpmEngineOpen0])
       /\ engine_calls started_session
          = engine_calls (sample_session cfg_usual 0) ++ opened
            ++ [Call_FwpmEngineSetOption0 (fw_engine_handle started_session) 0 1;
                Call_FwpmEngineSetOption0 (fw_engine_handle started_session) 1
                  (event_keywords (engine := sample_engine [])
                     (sample_session cfg_usual 0));
                Call_FwpmEngineSetOption0 (fw_engine_handle started_session) 3 1].
Proof.
  apply (fw_monitor_start_success (env := sample_env) (engine := sample_engine [])
           (sample_session cfg_usual 0) started_session).
  vm_compute. reflexivity.
Defined.

(** Before [fw_init()] the policy store is not open. *)
Lemma fw_monitor_start_without_policy_store_witness :
  fst (fw_monitor_start (env := sample_env) (engine := sample_engine [])
         (no_session cfg_usual 0)) = false
  /\ fw_errno (fw_vars (snd (fw_monitor_start (env := sample_env)
                               (engine := sample_engine []) (no_session cfg_usual 0)))) = 0
  /\ engine_calls (snd (fw_monitor_start (env := sample_env)
                          (engine := sample_engine []) (no_session cfg_usual 0)))
     = engine_calls (no_session cfg_usual 0)
  /\ calls (fw_vars (snd (fw_monitor_start (env := sample_env)
                            (engine := sample_engine []) (no_session cfg_usual 0))))
     = calls (fw_vars (no_session cfg_usual 0))
  /\ fw_engine_handle (snd (fw_monitor_start (env := sample_env)
                              (engine := sample_engine []) (no_session cfg_usual 0)))
     = fw_engine_handle (no_session cfg_usual 0).
Proof.
  apply (fw_monitor_start_without_policy_store (env := sample_env)
           (engine := sample_engine []) (no_session cfg_usual 0)).
  - reflexivity.
  - reflexivity.
  - reflexivity.
Defined.

(** [fw_dump_events()] at the level 0 over the four entries of
    [stored_events]: two are written and two are ignored. *)
Lemma fw_dump_events_counts_entries_witness :
  true = true
  /\ (fw_num_events (fw_vars dumped_session) + fw_num_ignored (fw_vars dumped_session))
     mod 2 ^ 32
     = Z.of_nat (List.length stored_events) mod 2 ^ 32.
Proof.
  apply (fw_dump_events_counts_entries (env := sample_env)
           (engine := sample_engine stored_events)
           (sample_session cfg_usual 0)
           (snd (fw_create_engine (env := sample_env)
                   (engine := sample_engine stored_events) (sample_session cfg_usual 0)))
           (fun _ _ => (0, Some 200)) (fun _ _ _ => (0, Some stored_events))
           (Some 200) stored_events true dumped_session).
  - reflexivity.
  - vm_compute. split; discriminate.
  - reflexivity.
  - reflexivity.
  - reflexivity.
  - reflexivity.
  - reflexivity.
  - reflexivity.
  - reflexivity.
  - vm_compute. reflexivity.
Defined.

(** At the level 3 [sample_engine] has no entry point for the
    enumeration. *)
Lemma fw_dump_events_without_entry_point_witness :
  exists es',
    fw_dump_events (env := sample_env) (engine := sample_engine stored_events)
      (sample_session cfg_usual 3) = Some (true, es')
    /\ fw_errno (fw_vars es') = 0
    /\ fw_num_events (fw_vars es') = 0
    /\ fw_num_ignored (fw_vars es') = 0
    /\ trace_out (fw_vars es') = trace_out (fw_vars (sample_session cfg_usual 3))
    /\ calls (fw_vars es') = calls (fw_vars (sample_session cfg_usual 3))
    /\ existsb is_enum (engine_calls es')
       = existsb is_enum (engine_calls (sample_session cfg_usual 3)).
Proof.
  apply (fw_dump_events_without_entry_point (env := sample_env)
           (engine := sample_engine stored_events)
           (sample_session cfg_usual 3) (fun _ _ => (0, Some 200))).
  - vm_compute. split; discriminate.
  - reflexivity.
  - reflexivity.
  - reflexivity.
  - reflexivity.
  - reflexivity.
  - reflexivity.
Defined.

(** No subscription exists in [sample_session]: the enum handle 200 that
    [fw_dump_events()] creates is not destroyed. *)
Lemma fw_dump_events_enum_handle_witness :
  exists new_calls,
    engine_calls dumped_session
    = engine_calls (sample_session cfg_usual 0) ++ new_calls
    /\ existsb is_destroy_enum new_calls
       = existsb is_create_enum new_calls
         && negb (is_NULL (fw_event_handle (fw_vars (sample_session cfg_usual 0)))).
Proof.
  apply (fw_dump_events_enum_handle (env := sample_env)
           (engine := sample_engine stored_events)
           (sample_session cfg_usual 0) true dumped_session).
  vm_compute. reflexivity.
Defined.
